(** * Substanz-Tagebuch: the KI-Therapeut analysis core

    A shallow embedding of [KITherapeutAnalyzer] (src/Substanten.py, lines
    1462-2120): the loaders, the daily aggregation [combine_data], the
    correlation engine, the threshold heuristics and the report entry point.

    Conventions of the embedding.
    - A Python [float] is a real number or NaN ([pyfloat]); arithmetic is exact
      (IEEE rounding and infinities are not modelled).
    - A pandas [Timestamp] is a count of nanoseconds since 1970-01-01T00:00; a
      [datetime.date] is a count of days since 1970-01-01.
    - A Python [dict] is an association list in insertion order.
    - A [DataFrame] built from a list of dicts keeps the dicts as its rows; a
      key that a row lacks reads as NaN.
    - The state of the analyzer object is threaded explicitly. *)

From Stdlib Require Import Reals Lra Lia ZArith List String Ascii Bool.
From Stdlib Require Import Sorting.Sorted Permutation DecimalString.
Import ListNotations.

Local Open Scope string_scope.
Local Open Scope Z_scope.
Local Open Scope R_scope.

(* ------------------------------------------------------------------ *)
(** ** Python floats *)

Inductive pyfloat : Type :=
| Num (x : R)
| NaN.

Definition pyfloat_eq_dec (a b : pyfloat) : {a = b} + {a <> b}.
Proof.
  destruct a as [x|], b as [y|]; try (right; discriminate); try (left; reflexivity).
  destruct (Req_dec_T x y) as [e|n]; [left; now rewrite e | right; intros H; now inversion H].
Defined.

Definition Rltb (x y : R) : bool := if Rlt_dec x y then true else false.
Definition Rleb (x y : R) : bool := if Rle_dec x y then true else false.
Definition Reqb (x y : R) : bool := if Req_dec_T x y then true else false.

(** Comparisons with NaN are false. *)
Definition flt (a b : pyfloat) : bool :=
  match a, b with Num x, Num y => Rltb x y | _, _ => false end.
Definition fgt (a b : pyfloat) : bool := flt b a.
Definition fle (a b : pyfloat) : bool :=
  match a, b with Num x, Num y => Rleb x y | _, _ => false end.

Definition lift2 (op : R -> R -> R) (a b : pyfloat) : pyfloat :=
  match a, b with Num x, Num y => Num (op x y) | _, _ => NaN end.
Definition fadd := lift2 Rplus.
Definition fsub := lift2 Rminus.
Definition fmul := lift2 Rmult.
(** True division; Python raises and numpy yields NaN or an infinity on a zero
    divisor, every use below is guarded by a positive divisor. *)
Definition fdiv := lift2 Rdiv.
Definition fabs (a : pyfloat) : pyfloat :=
  match a with Num x => Num (Rabs x) | NaN => NaN end.

Definition isnan (a : pyfloat) : bool :=
  match a with NaN => true | Num _ => false end.

(** [Series.dropna()] on a float column. *)
Fixpoint dropna (l : list pyfloat) : list R :=
  match l with
  | [] => []
  | Num x :: t => x :: dropna t
  | NaN :: t => dropna t
  end.

Fixpoint Rsum (l : list R) : R :=
  match l with
  | [] => 0
  | x :: t => x + Rsum t
  end.

Definition INRlen {A} (l : list A) : R := INR (List.length l).

(** [Series.sum()], [skipna=True]: the sum of an all-missing column is 0. *)
Definition series_sum (l : list pyfloat) : pyfloat := Num (Rsum (dropna l)).

Definition Rmean (l : list R) : R := Rsum l / INRlen l.

(** [Series.mean()]: NaN when no value is present. *)
Definition series_mean (l : list pyfloat) : pyfloat :=
  match dropna l with
  | [] => NaN
  | xs => Num (Rmean xs)
  end.

Definition sum_sq_dev (m : R) (l : list R) : R :=
  Rsum (map (fun x => (x - m) * (x - m)) l).

(** [Series.std()]: the sample standard deviation ([ddof=1]); NaN on fewer than
    two values. *)
Definition Rstd (l : list R) : R :=
  sqrt (sum_sq_dev (Rmean l) l / (INRlen l - 1)).

Definition series_std (l : list pyfloat) : pyfloat :=
  match dropna l with
  | [] => NaN
  | [_] => NaN
  | xs => Num (Rstd xs)
  end.

Fixpoint Rmax_list (x : R) (l : list R) : R :=
  match l with
  | [] => x
  | y :: t => Rmax_list (Rmax x y) t
  end.

Fixpoint Rmin_list (x : R) (l : list R) : R :=
  match l with
  | [] => x
  | y :: t => Rmin_list (Rmin x y) t
  end.

Definition series_max (l : list pyfloat) : pyfloat :=
  match dropna l with
  | [] => NaN
  | x :: t => Num (Rmax_list x t)
  end.

Definition series_min (l : list pyfloat) : pyfloat :=
  match dropna l with
  | [] => NaN
  | x :: t => Num (Rmin_list x t)
  end.

(* ------------------------------------------------------------------ *)
(** ** Python values, dicts and data frames *)

Inductive pyval : Type :=
| PNone
| PBool (b : bool)
| PInt (z : Z)
| PFloat (f : pyfloat)
| PStr (s : string)
| PList (l : list string)
| PStamp (t : Z)          (* a pandas Timestamp *)
| PDateStr (d : Z).       (* [str(date)] of the date [d]: ISO text, one per date *)

Definition dict : Type := list (string * pyval).

Fixpoint dict_get (k : string) (d : dict) : option pyval :=
  match d with
  | [] => None
  | (k', v) :: t => if String.eqb k k' then Some v else dict_get k t
  end.

(** [d[k] = v]: replaces the value of an existing key in place, appends a new
    key. *)
Fixpoint dict_set (k : string) (v : pyval) (d : dict) : dict :=
  match d with
  | [] => [(k, v)]
  | (k', v') :: t =>
      if String.eqb k k' then (k', v) :: t else (k', v') :: dict_set k v t
  end.

Definition dict_keys (d : dict) : list string := map fst d.

(** Order of first appearance, as [Series.unique()] and the column index of
    [pd.DataFrame(records)]. *)
Fixpoint unique_acc {A} (eqb : A -> A -> bool) (seen l : list A) : list A :=
  match l with
  | [] => []
  | x :: t =>
      if existsb (eqb x) seen then unique_acc eqb seen t
      else x :: unique_acc eqb (x :: seen) t
  end.

Definition unique {A} (eqb : A -> A -> bool) (l : list A) : list A :=
  unique_acc eqb [] l.

Definition mem_str (s : string) (l : list string) : bool :=
  existsb (String.eqb s) l.

Definition unique_str (l : list string) : list string := unique String.eqb l.

Record DataFrame : Type := mkDF {
  columns : list string;
  rows : list dict
}.

(** [pd.DataFrame(records)] *)
Definition DataFrame_of_records (records : list dict) : DataFrame :=
  {| columns := unique_str (flat_map dict_keys records); rows := records |}.

Definition has_column (df : DataFrame) (c : string) : bool :=
  mem_str c (columns df).

(** The cell of a row; a key the row lacks is a missing value. *)
Definition cell (r : dict) (c : string) : pyval :=
  match dict_get c r with
  | Some v => v
  | None => PFloat NaN
  end.

(** [pd.isna] on a cell. *)
Definition isna (v : pyval) : bool :=
  match v with
  | PNone => true
  | PFloat NaN => true
  | _ => false
  end.

(** The cell read in a float column. *)
Definition to_float (v : pyval) : pyfloat :=
  match v with
  | PFloat f => f
  | PInt z => Num (IZR z)
  | PBool b => Num (if b then 1 else 0)
  | _ => NaN
  end.

Definition fcell (r : dict) (c : string) : pyfloat := to_float (cell r c).

(** [df[c]] as a float column. *)
Definition fcolumn (df : DataFrame) (c : string) : list pyfloat :=
  map (fun r => fcell r c) (rows df).

(** [df[c] = values] *)
Definition set_column (c : string) (f : dict -> pyval) (df : DataFrame) : DataFrame :=
  {| columns := if has_column df c then columns df else (columns df ++ [c])%list;
     rows := map (fun r => dict_set c (f r) r) (rows df) |}.

(** [df.sort_values(key)], taken as a stable sort. *)
Fixpoint insert_by {A} (key : A -> Z) (x : A) (l : list A) : list A :=
  match l with
  | [] => [x]
  | y :: t => if (key x <=? key y)%Z then x :: y :: t else y :: insert_by key x t
  end.

Definition sort_values {A} (key : A -> Z) (l : list A) : list A :=
  fold_right (insert_by key) [] l.

(** The keys of [df.groupby(key)]: distinct, ascending. *)
Fixpoint insert_key (k : Z) (l : list Z) : list Z :=
  match l with
  | [] => [k]
  | y :: t =>
      if (k <? y)%Z then k :: y :: t
      else if (k =? y)%Z then y :: t
      else y :: insert_key k t
  end.

Definition group_keys (l : list Z) : list Z := fold_right insert_key [] l.

(** [for key, group in df.groupby(key)]: one group per distinct key, keys
    ascending, the rows of a group in the order of the frame. *)
Definition groupby {A} (key : A -> Z) (l : list A) : list (Z * list A) :=
  map (fun k => (k, filter (fun x => (key x =? k)%Z) l)) (group_keys (map key l)).

(* ------------------------------------------------------------------ *)
(** ** Timestamps *)

Definition ns_per_hour : Z := 3600000000000.
Definition ns_per_day : Z := 24 * ns_per_hour.

(** [.dt.date] *)
Definition dt_date (t : Z) : Z := (t / ns_per_day)%Z.
(** [.dt.hour] *)
Definition dt_hour (t : Z) : Z := ((t mod ns_per_day) / ns_per_hour)%Z.
(** [pd.to_datetime(date)] of a [datetime.date]: midnight of that day. *)
Definition datetime_of_date (d : Z) : Z := (d * ns_per_day)%Z.

Definition weekday_names : list string :=
  ["Monday"; "Tuesday"; "Wednesday"; "Thursday"; "Friday"; "Saturday"; "Sunday"].

(** [.dt.day_name()]; 1970-01-01 was a Thursday. *)
Definition day_name (t : Z) : string :=
  nth (Z.to_nat ((dt_date t + 3) mod 7)) weekday_names "Monday".

(* ------------------------------------------------------------------ *)
(** ** Strings *)

Definition lower_ascii (c : ascii) : ascii :=
  let n := nat_of_ascii c in
  if ((65 <=? n) && (n <=? 90))%nat then ascii_of_nat (n + 32) else c.

(** [str.lower()] on the ASCII letters. *)
Fixpoint lower (s : string) : string :=
  match s with
  | EmptyString => EmptyString
  | String c t => String (lower_ascii c) (lower t)
  end.

(** [w in s] *)
Fixpoint contains (w s : string) : bool :=
  String.prefix w s ||
  match s with
  | EmptyString => false
  | String _ t => contains w t
  end.

Definition any_in (words : list string) (s : string) : bool :=
  existsb (fun w => contains w s) words.

(* ------------------------------------------------------------------ *)
(** ** Raw records and loaded observations *)

(** A diary entry as the entry screens store it; [None] is an absent key. *)
Record Entry : Type := mkEntry {
  e_date : option string;
  e_time : option string;
  e_substance : option string;
  e_dosage : option string;
  e_rating : option pyval;
  e_cost : option pyval;
  e_mood : option string;
  e_setting : option string;
  e_experience : option string
}.

(** A health sample as the import stores it. *)
Record HealthSample : Type := mkHealthSample {
  h_Type : option string;
  h_value : option pyval;
  h_date : option string;
  h_time : option string;
  h_source : option string;
  h_notes : option string
}.

(** A row of [data['consumption_data']]. *)
Record ConsumptionRow : Type := mkConsumptionRow {
  c_datetime : Z;
  c_date : string;
  c_time : string;
  c_type : string;
  c_amount : Z;
  c_dosage : string;
  c_rating : pyfloat;
  c_cost : pyfloat;
  c_mood : string;
  c_setting : string;
  c_experience : string
}.

(** A row of [data['sleep_data']]. *)
Record SleepRow : Type := mkSleepRow {
  s_datetime : Z;
  s_date : string;
  s_time : string;
  s_sleep_type : string;
  s_value_minutes : pyfloat;
  s_source : string
}.

(** A row of [data['heart_rate_data']]. *)
Record HeartRow : Type := mkHeartRow {
  r_datetime : Z;
  r_date : string;
  r_time : string;
  r_heart_rate : pyfloat;
  r_context : string;
  r_source : string
}.

(* ------------------------------------------------------------------ *)
(** ** Results of the analyses *)

(** An entry of [correlations]. *)
Record CorrelationInfo : Type := mkCorrelationInfo {
  correlation : R;
  n : nat;
  interpretation : string
}.

(** An entry of [substance_effects]. *)
Record SubstanceEffect : Type := mkSubstanceEffect {
  with_substance : R;
  without_substance : R;
  difference_percent : R;
  effect_interpretation : string
}.

Record DataSummary : Type := mkDataSummary {
  days_with_sleep_data : nat;
  days_with_heart_rate_data : nat;
  days_with_consumption_data : nat;
  unique_substances_count : nat
}.

Record CorrelationSuccess : Type := mkCorrelationSuccess {
  total_days : nat;
  numeric_columns : list string;
  correlations : list (string * CorrelationInfo);
  substance_effects : list (string * SubstanceEffect);
  data_summary : DataSummary
}.

Inductive CorrelationResults : Type :=
| CorrNoData (message : string)
| CorrSuccess (r : CorrelationSuccess).

Record MLSuccess : Type := mkMLSuccess {
  total_days_analyzed : nat;
  anomaly_percentage : R;
  clusters_identified : Z;
  patterns : list string;
  recommendations : list string;
  anomaly_days : nat
}.

Inductive MLResults : Type :=
| MLNoData (message : string)
| MLOk (r : MLSuccess).

(* ------------------------------------------------------------------ *)
(** ** The analyzer object *)

(** [self.data] and [self.correlation_results]; [None] in the last field is
    the empty dict of [__init__]. *)
Record Analyzer : Type := mkAnalyzer {
  sleep_data : option (list SleepRow);
  heart_rate_data : option (list HeartRow);
  consumption_data : option (list ConsumptionRow);
  combined_data : option DataFrame;
  correlation_results : option CorrelationSuccess
}.

(** [KITherapeutAnalyzer()] *)
Definition init : Analyzer :=
  {| sleep_data := None; heart_rate_data := None; consumption_data := None;
     combined_data := None; correlation_results := None |}.

Definition set_sleep_data (v : list SleepRow) (a : Analyzer) : Analyzer :=
  {| sleep_data := Some v; heart_rate_data := heart_rate_data a;
     consumption_data := consumption_data a; combined_data := combined_data a;
     correlation_results := correlation_results a |}.

Definition set_heart_rate_data (v : list HeartRow) (a : Analyzer) : Analyzer :=
  {| sleep_data := sleep_data a; heart_rate_data := Some v;
     consumption_data := consumption_data a; combined_data := combined_data a;
     correlation_results := correlation_results a |}.

Definition set_consumption_data (v : list ConsumptionRow) (a : Analyzer) : Analyzer :=
  {| sleep_data := sleep_data a; heart_rate_data := heart_rate_data a;
     consumption_data := Some v; combined_data := combined_data a;
     correlation_results := correlation_results a |}.

Definition set_combined_data (v : DataFrame) (a : Analyzer) : Analyzer :=
  {| sleep_data := sleep_data a; heart_rate_data := heart_rate_data a;
     consumption_data := consumption_data a; combined_data := Some v;
     correlation_results := correlation_results a |}.

Definition set_correlation_results (v : CorrelationSuccess) (a : Analyzer) : Analyzer :=
  {| sleep_data := sleep_data a; heart_rate_data := heart_rate_data a;
     consumption_data := consumption_data a; combined_data := combined_data a;
     correlation_results := Some v |}.

(* ------------------------------------------------------------------ *)
(** ** What the analyzer takes from pandas and the interpreter *)

(** The outcome of [pd.to_datetime] on a text. *)
Inductive Parsed : Type :=
| Stamp (t : Z)
| NaT
| ParseError.

Record Library : Type := mkLibrary {
  (** [pd.to_datetime(text)] *)
  to_datetime : string -> Parsed;
  (** [float(text)]; [None] when it raises [ValueError] *)
  float_of_string : string -> option pyfloat;
  (** [list(set(l))]: the distinct elements in the iteration order of the set *)
  list_of_set : list string -> list string;
  (** [format(x, spec)], the text an f-string prints for [{x:spec}] *)
  format_float : string -> R -> string
}.

Definition get {A} (field : option A) (default : A) : A :=
  match field with
  | Some v => v
  | None => default
  end.

Section Loaders.

Context (lib : Library).

(** [float(v)]; [None] when it raises. *)
Definition py_float (v : pyval) : option pyfloat :=
  match v with
  | PBool b => Some (Num (if b then 1 else 0))
  | PInt z => Some (Num (IZR z))
  | PFloat f => Some f
  | PStr s => float_of_string lib s
  | _ => None
  end.

(** [_parse_timestamp]; [None] is [pd.NaT]. *)
Definition _parse_timestamp (date_str time_str : string) : option Z :=
  match to_datetime lib (date_str ++ " " ++ time_str) with
  | Stamp t => Some t
  | NaT => None
  | ParseError =>
      match to_datetime lib date_str with
      | Stamp t => Some t
      | _ => None
      end
  end.

(** The body of the loop of [load_consumption_data]; [None] when the entry is
    skipped ([continue], also from the [except] clause). *)
Definition consumption_row (entry : Entry) : option ConsumptionRow :=
  let entry_date := get (e_date entry) "" in
  let entry_time := get (e_time entry) "00:00" in
  match _parse_timestamp entry_date entry_time with
  | None => None
  | Some datetime_obj =>
      match py_float (get (e_rating entry) (PInt 0)),
            py_float (get (e_cost entry) (PInt 0)) with
      | Some rating, Some cost =>
          Some {| c_datetime := datetime_obj;
                  c_date := entry_date;
                  c_time := entry_time;
                  c_type := get (e_substance entry) "Unbekannt";
                  c_amount := 1;
                  c_dosage := get (e_dosage entry) "";
                  c_rating := rating;
                  c_cost := cost;
                  c_mood := get (e_mood entry) "";
                  c_setting := get (e_setting entry) "";
                  c_experience := get (e_experience entry) "" |}
      | _, _ => None
      end
  end.

Fixpoint filter_map {A B} (f : A -> option B) (l : list A) : list B :=
  match l with
  | [] => []
  | x :: t =>
      match f x with
      | Some y => y :: filter_map f t
      | None => filter_map f t
      end
  end.

(** [load_consumption_data]: the new state and the value returned. *)
Definition load_consumption_data (entries_data : list Entry) (a : Analyzer)
  : Analyzer * option (list ConsumptionRow) :=
  match entries_data with
  | [] => (a, None)
  | _ =>
      match filter_map consumption_row entries_data with
      | [] => (a, None)
      | consumption_data =>
          let df := sort_values c_datetime consumption_data in
          (set_consumption_data df a, Some df)
      end
  end.

Definition sleep_words : list string :=
  ["sleep"; "schlaf"; "deep"; "shallow"; "rem"; "wake"].
Definition heart_words : list string :=
  ["heart"; "herz"; "hr"; "pulse"; "puls"].

Definition classify_sleep_type (entry_type : string) : string :=
  if contains "deep" entry_type || contains "tief" entry_type then "deep"
  else if contains "shallow" entry_type || contains "leicht" entry_type then "light"
  else if contains "rem" entry_type then "rem"
  else if contains "wake" entry_type || contains "wach" entry_type then "wake"
  else "total".

(** What one sample of [load_health_data] appends. *)
Inductive HealthRow : Type :=
| IsSleep (r : SleepRow)
| IsHeart (r : HeartRow)
| Skipped.

Definition health_row (entry : HealthSample) : HealthRow :=
  let entry_type := lower (get (h_Type entry) "") in
  let entry_value := get (h_value entry) (PInt 0) in
  let entry_date := get (h_date entry) "" in
  let entry_time := get (h_time entry) "00:00" in
  match _parse_timestamp entry_date entry_time with
  | None => Skipped
  | Some datetime_obj =>
      if any_in sleep_words entry_type then
        match py_float entry_value with
        | Some v =>
            IsSleep {| s_datetime := datetime_obj;
                       s_date := entry_date;
                       s_time := entry_time;
                       s_sleep_type := classify_sleep_type entry_type;
                       s_value_minutes := v;
                       s_source := get (h_source entry) "manual" |}
        | None => Skipped
        end
      else if any_in heart_words entry_type then
        match py_float entry_value with
        | Some v =>
            IsHeart {| r_datetime := datetime_obj;
                       r_date := entry_date;
                       r_time := entry_time;
                       r_heart_rate := v;
                       r_context := get (h_notes entry) "";
                       r_source := get (h_source entry) "manual" |}
        | None => Skipped
        end
      else Skipped
  end.

Definition sleep_rows (health_data : list HealthSample) : list SleepRow :=
  filter_map (fun e => match health_row e with IsSleep r => Some r | _ => None end)
             health_data.

Definition heart_rows (health_data : list HealthSample) : list HeartRow :=
  filter_map (fun e => match health_row e with IsHeart r => Some r | _ => None end)
             health_data.

(** [load_health_data]: returns nothing, only the state changes. *)
Definition load_health_data (health_data : list HealthSample) (a : Analyzer) : Analyzer :=
  match health_data with
  | [] => a
  | _ =>
      let a1 :=
        match sleep_rows health_data with
        | [] => a
        | sleep_data => set_sleep_data (sort_values s_datetime sleep_data) a
        end in
      match heart_rows health_data with
      | [] => a1
      | heart_rate_data => set_heart_rate_data (sort_values r_datetime heart_rate_data) a1
      end
  end.

End Loaders.

(* ------------------------------------------------------------------ *)
(** ** combine_data *)

(** [group[group['sleep_type'] == ty]['value_minutes'].sum()] *)
Definition sleep_sum (ty : string) (group : list SleepRow) : pyval :=
  PFloat (series_sum
    (map s_value_minutes (filter (fun r => String.eqb (s_sleep_type r) ty) group))).

Definition sleep_record (date : Z) (group : list SleepRow) : dict :=
  [ ("date", PStamp (datetime_of_date date));
    ("date_str", PDateStr date);
    ("total_sleep_min", sleep_sum "total" group);
    ("deep_sleep_min", sleep_sum "deep" group);
    ("light_sleep_min", sleep_sum "light" group);
    ("rem_sleep_min", sleep_sum "rem" group);
    ("wake_min", sleep_sum "wake" group);
    ("has_sleep_data", PBool true) ].

(** [r['date_str'] == str(date)] *)
Definition has_date_str (date : Z) (r : dict) : bool :=
  match dict_get "date_str" r with
  | Some (PDateStr d) => (d =? date)%Z
  | _ => false
  end.

(** [next((r for r in combined_records if ...), None)] followed by the update
    of the record found: the first match is changed in place, [None] when no
    record matches. *)
Fixpoint update_first (p : dict -> bool) (f : dict -> dict) (l : list dict)
  : option (list dict) :=
  match l with
  | [] => None
  | r :: t =>
      if p r then Some (f r :: t)
      else match update_first p f t with
           | Some t' => Some (r :: t')
           | None => None
           end
  end.

Definition set_all (kvs : list (string * pyval)) (r : dict) : dict :=
  fold_left (fun d kv => dict_set (fst kv) (snd kv) d) kvs r.

Definition heart_fields (group : list HeartRow) : list (string * pyval) :=
  let hr := map r_heart_rate group in
  [ ("avg_heart_rate", PFloat (series_mean hr));
    ("max_heart_rate", PFloat (series_max hr));
    ("min_heart_rate", PFloat (series_min hr));
    ("heart_rate_std", PFloat (series_std hr));
    ("heart_rate_entries", PInt (Z.of_nat (List.length group)));
    ("has_heart_rate_data", PBool true) ].

(** The update of the record found for the date. *)
Definition heart_update (group : list HeartRow) (existing_record : dict) : dict :=
  set_all (heart_fields group) existing_record.

(** The record appended when the date has none. *)
Definition heart_record (date : Z) (group : list HeartRow) : dict :=
  ([ ("date", PStamp (datetime_of_date date)); ("date_str", PDateStr date) ]
   ++ heart_fields group ++ [ ("has_sleep_data", PBool false) ])%list.

Definition heart_step (combined_records : list dict) (g : Z * list HeartRow)
  : list dict :=
  let (date, group) := g in
  match update_first (has_date_str date) (heart_update group) combined_records with
  | Some updated => updated
  | None => (combined_records ++ [ heart_record date group ])%list
  end.

Definition consumption_fields (group : list ConsumptionRow) : list (string * pyval) :=
  [ ("substances_today", PList (unique_str (map c_type group)));
    ("consumption_count", PInt (Z.of_nat (List.length group)));
    ("avg_consumption_rating", PFloat (series_mean (map c_rating group)));
    ("total_daily_cost", PFloat (series_sum (map c_cost group)));
    ("has_consumption_data", PBool true) ].

(** [group[(hour >= 18) & (hour <= 24)]] *)
Definition evening_consumption (group : list ConsumptionRow) : list ConsumptionRow :=
  filter (fun r => (18 <=? dt_hour (c_datetime r))%Z && (dt_hour (c_datetime r) <=? 24)%Z)
         group.

Definition evening_fields (group : list ConsumptionRow) : list (string * pyval) :=
  match evening_consumption group with
  | [] => []
  | evening =>
      [ ("evening_substances", PList (unique_str (map c_type evening)));
        ("evening_consumption_count", PInt (Z.of_nat (List.length evening))) ]
  end.

(** The update of the record found for the date: only this branch looks at
    the evening. *)
Definition consumption_update (group : list ConsumptionRow) (existing_record : dict)
  : dict :=
  set_all (evening_fields group) (set_all (consumption_fields group) existing_record).

(** The record appended when the date has none. *)
Definition consumption_record (date : Z) (group : list ConsumptionRow) : dict :=
  ([ ("date", PStamp (datetime_of_date date)); ("date_str", PDateStr date) ]
   ++ consumption_fields group
   ++ [ ("has_sleep_data", PBool false); ("has_heart_rate_data", PBool false) ])%list.

Definition consumption_step (combined_records : list dict) (g : Z * list ConsumptionRow)
  : list dict :=
  let (date, group) := g in
  match update_first (has_date_str date) (consumption_update group) combined_records with
  | Some updated => updated
  | None => (combined_records ++ [ consumption_record date group ])%list
  end.

Definition sleep_groups (a : Analyzer) : list (Z * list SleepRow) :=
  groupby (fun r => dt_date (s_datetime r)) (get (sleep_data a) []).
Definition heart_groups (a : Analyzer) : list (Z * list HeartRow) :=
  groupby (fun r => dt_date (r_datetime r)) (get (heart_rate_data a) []).
Definition consumption_groups (a : Analyzer) : list (Z * list ConsumptionRow) :=
  groupby (fun r => dt_date (c_datetime r)) (get (consumption_data a) []).

(** The records after the first loop. *)
Definition from_sleep (a : Analyzer) : list dict :=
  map (fun g => sleep_record (fst g) (snd g)) (sleep_groups a).

(** The records after the second loop. *)
Definition with_heart (a : Analyzer) : list dict :=
  fold_left heart_step (heart_groups a) (from_sleep a).

(** The records after the three loops; a slot that is [None] or an empty frame
    gives no group. *)
Definition combined_records (a : Analyzer) : list dict :=
  fold_left consumption_step (consumption_groups a) (with_heart a).

Definition fill_columns : list string :=
  [ "total_sleep_min"; "deep_sleep_min"; "light_sleep_min"; "rem_sleep_min";
    "wake_min"; "avg_heart_rate"; "max_heart_rate"; "min_heart_rate";
    "heart_rate_std"; "avg_consumption_rating"; "total_daily_cost" ].

(** [df[col] = df[col].fillna(0)] when the frame has the column. *)
Definition fillna0 (df : DataFrame) (col : string) : DataFrame :=
  if has_column df col then
    set_column col (fun r => if isna (cell r col) then PFloat (Num 0) else cell r col) df
  else df.

Definition date_key (r : dict) : Z :=
  match cell r "date" with
  | PStamp t => t
  | _ => 0%Z
  end.

(** [combine_data]: the new state and the frame returned ([None] when there is
    no record). No step of the body raises in this model, so the [except]
    clause is not reached. *)
Definition combine_data (a : Analyzer) : Analyzer * option DataFrame :=
  match combined_records a with
  | [] => (a, None)
  | records =>
      let df := fold_left fillna0 fill_columns (DataFrame_of_records records) in
      let df := {| columns := columns df; rows := sort_values date_key (rows df) |} in
      (set_combined_data df a, Some df)
  end.

(** The calendar date of a row of the daily table. *)
Definition row_date (r : dict) : Z := dt_date (date_key r).

(* ------------------------------------------------------------------ *)
(** ** perform_correlation_analysis *)

Definition feqb (a b : pyfloat) : bool :=
  if pyfloat_eq_dec a b then true else false.

Definition add_sleep_efficiency (df : DataFrame) : DataFrame :=
  if has_column df "total_sleep_min" && has_column df "wake_min" then
    set_column "sleep_efficiency"
      (fun r =>
         let total_bed_time := fadd (fcell r "total_sleep_min") (fcell r "wake_min") in
         PFloat (if fgt total_bed_time (Num 0)
                 then fmul (fdiv (fcell r "total_sleep_min") total_bed_time) (Num 100)
                 else Num 0))
      df
  else df.

Definition add_hrv_proxy (df : DataFrame) : DataFrame :=
  if has_column df "heart_rate_std" then
    set_column "hrv_proxy" (fun r => cell r "heart_rate_std") df
  else df.

Definition candidate_columns : list string :=
  [ "total_sleep_min"; "deep_sleep_min"; "light_sleep_min"; "rem_sleep_min";
    "sleep_efficiency"; "avg_heart_rate"; "hrv_proxy"; "avg_consumption_rating";
    "total_daily_cost" ].

(** [col in df.columns and df[col].notna().any() and len(df[col].unique()) > 1];
    [unique()] keeps NaN as one of the values. *)
Definition eligible (df : DataFrame) (col : string) : bool :=
  has_column df col
  && existsb (fun v => negb (isnan v)) (fcolumn df col)
  && (1 <? List.length (unique feqb (fcolumn df col)))%nat.

Definition numeric_cols (df : DataFrame) : list string :=
  filter (eligible df) candidate_columns.

(** [for i, col1 in enumerate(cols): for col2 in cols[i + 1:]] *)
Fixpoint pairs (cols : list string) : list (string * string) :=
  match cols with
  | [] => []
  | col1 :: rest => (map (pair col1) rest ++ pairs rest)%list
  end.

(** [df[[col1, col2]].dropna()] *)
Fixpoint both_present (l : list (pyfloat * pyfloat)) : list (R * R) :=
  match l with
  | [] => []
  | (Num x, Num y) :: t => (x, y) :: both_present t
  | _ :: t => both_present t
  end.

Definition valid_data (df : DataFrame) (col1 col2 : string) : list (R * R) :=
  both_present (combine (fcolumn df col1) (fcolumn df col2)).

(** [Series.corr]: Pearson's coefficient, NaN when one of the two columns has
    no variance. *)
Definition pearson (l : list (R * R)) : pyfloat :=
  let xs := map fst l in
  let ys := map snd l in
  let mx := Rmean xs in
  let my := Rmean ys in
  let sxy := Rsum (map (fun p => (fst p - mx) * (snd p - my)) l) in
  let sxx := sum_sq_dev mx xs in
  let syy := sum_sq_dev my ys in
  if Reqb sxx 0 then NaN
  else if Reqb syy 0 then NaN
  else Num (sxy / (sqrt sxx * sqrt syy)).

Definition pair_eqb (a b : string * string) : bool :=
  String.eqb (fst a) (fst b) && String.eqb (snd a) (snd b).

Fixpoint table_get (k : string * string) (t : list ((string * string) * string))
  : option string :=
  match t with
  | [] => None
  | (k', v) :: rest => if pair_eqb k k' then Some v else table_get k rest
  end.

Definition _interpret_correlation (col1 col2 : string) (corr : R) : string :=
  let interpretations :=
    [ (("total_sleep_min", "avg_heart_rate"),
       if Rltb corr 0 then "Mehr Schlaf → Niedrigere Herzfrequenz"
       else "Mehr Schlaf → Höhere Herzfrequenz");
      (("deep_sleep_min", "avg_heart_rate"),
       if Rltb corr 0 then "Mehr Tiefschlaf → Niedrigere Herzfrequenz"
       else "Mehr Tiefschlaf → Höhere Herzfrequenz");
      (("avg_consumption_rating", "avg_heart_rate"),
       if Rltb 0 corr then "Höhere Bewertung → Höhere Herzfrequenz"
       else "Höhere Bewertung → Niedrigere Herzfrequenz");
      (("total_daily_cost", "total_sleep_min"),
       if Rltb corr 0 then "Höhere Kosten → Weniger Schlaf"
       else "Höhere Kosten → Mehr Schlaf") ] in
  match table_get (col1, col2) interpretations with
  | Some text => text
  | None =>
      match table_get (col2, col1) interpretations with
      | Some text => text
      | None =>
          let strength :=
            if Rltb 0.7 (Rabs corr) then "stark"
            else if Rltb 0.4 (Rabs corr) then "mäßig" else "schwach" in
          let direction := if Rltb 0 corr then "positive" else "negative" in
          strength ++ " " ++ direction ++ " Korrelation"
      end
  end.

(** The body of the inner loop: the entry stored for a pair, if any. *)
Definition correlation_entry (df : DataFrame) (col1 col2 : string)
  : option (string * CorrelationInfo) :=
  let valid := valid_data df col1 col2 in
  if (3 <=? List.length valid)%nat then
    match pearson valid with
    | Num corr =>
        if Rltb 0.3 (Rabs corr) then
          Some (col1 ++ "_" ++ col2,
                {| correlation := corr;
                   n := List.length valid;
                   interpretation := _interpret_correlation col1 col2 corr |})
        else None
    | NaN => None
    end
  else None.

(** A dict with values of any type. *)
Fixpoint assoc_set {V} (k : string) (v : V) (d : list (string * V)) : list (string * V) :=
  match d with
  | [] => [(k, v)]
  | (k', v') :: t =>
      if String.eqb k k' then (k', v) :: t else (k', v') :: assoc_set k v t
  end.

Fixpoint assoc_get {V} (k : string) (d : list (string * V)) : option V :=
  match d with
  | [] => None
  | (k', v) :: t => if String.eqb k k' then Some v else assoc_get k t
  end.

Definition correlations_of (df : DataFrame) (cols : list string)
  : list (string * CorrelationInfo) :=
  fold_left
    (fun correlations p =>
       match correlation_entry df (fst p) (snd p) with
       | Some (key, info) => assoc_set key info correlations
       | None => correlations
       end)
    (pairs cols) [].

(** The substance-effect formula of line 1782. *)
Definition percent_difference (with_mean without_mean : R) : R :=
  ((with_mean - without_mean) / without_mean) * 100.

Definition known_effects : list ((string * string) * string) :=
  [ (("Alkohol", "avg_heart_rate"), "Erhöht typischerweise Herzfrequenz");
    (("Alkohol", "total_sleep_min"), "Reduziert oft Schlafqualität");
    (("Alkohol", "sleep_efficiency"), "Senkt üblicherweise Schlafeffizienz");
    (("Cannabis", "avg_heart_rate"), "Kann Herzfrequenz erhöhen");
    (("Cannabis", "total_sleep_min"), "Kann Schlafdauer beeinflussen");
    (("Cannabis", "sleep_efficiency"), "Kann Schlafmuster verändern");
    (("MDMA", "avg_heart_rate"), "Stark erhöht Herzfrequenz");
    (("MDMA", "total_sleep_min"), "Beeinträchtigt Schlaf stark");
    (("MDMA", "sleep_efficiency"), "Reduziert Schlafeffizienz deutlich") ].

(** The substances named in a cell of [substances_today]. *)
Definition substances_of (v : pyval) : list string :=
  match v with
  | PList l => l
  | PStr s => if String.eqb s "" then [] else [s]
  | _ => []
  end.

(** [substance in x if isinstance(x, list) else False] *)
Definition used (substance : string) (r : dict) : bool :=
  match cell r "substances_today" with
  | PList l => mem_str substance l
  | _ => false
  end.

Definition effect_metrics : list string :=
  [ "avg_heart_rate"; "total_sleep_min"; "sleep_efficiency" ].

(** The sum of a column of flags: the number of rows that hold [True]. *)
Definition flag_days (df : DataFrame) (c : string) : nat :=
  if has_column df c then
    List.length (filter (fun r => match cell r c with PBool true => true | _ => false end)
                        (rows df))
  else 0%nat.

(** A frame that is [None] or empty. *)
Definition no_data (d : option DataFrame) : bool :=
  match d with
  | None => true
  | Some df => match rows df with [] => true | _ => false end
  end.

(** A call that returns a value or raises. *)
Inductive pyresult (A : Type) : Type :=
| Returns (v : A)
| Raises (exception : string).
Arguments Returns {A} v.
Arguments Raises {A} exception.

(** [bool(x)] for what [data['combined_data']] holds: [None] is false, and
    pandas refuses the truth value of a DataFrame ([DataFrame.__bool__] raises
    [ValueError]: the truth value of a DataFrame is ambiguous). *)
Definition truth_value (d : option DataFrame) : pyresult bool :=
  match d with
  | None => Returns false
  | Some _ => Raises "ValueError"
  end.

Definition newline : string := String (ascii_of_nat 10) EmptyString.

Definition no_data_message : string :=
  "Keine ausreichenden Daten für eine Analyse verfügbar.".

Section Analysis.

Context (lib : Library).

(** [f"{x:spec}"] *)
Definition fmt (spec : string) (x : pyfloat) : string :=
  match x with
  | Num v => format_float lib spec v
  | NaN => "nan"
  end.

Definition _interpret_substance_effect (substance metric : string) (diff : R) : string :=
  match table_get (substance, metric) known_effects with
  | Some text => text
  | None =>
      if Rltb 10 (Rabs diff) then
        let effect := if Rltb 0 diff then "erhöht" else "verringert" in
        substance ++ " " ++ effect ++ " " ++ metric ++ " um "
          ++ format_float lib ".1f" (Rabs diff) ++ "%"
      else substance ++ " zeigt keinen klaren Effekt auf " ++ metric
  end.

(** The body of the loop over the metrics for one substance. The indicator
    column [used_<substance>] is kept as the predicate [used]; its name
    differs from every column read here. *)
Definition effect_entry (df : DataFrame) (substance metric : string)
  : option (string * SubstanceEffect) :=
  if has_column df metric then
    let with_substance :=
      series_mean (map (fun r => fcell r metric) (filter (used substance) (rows df))) in
    let without_substance :=
      series_mean (map (fun r => fcell r metric)
                       (filter (fun r => negb (used substance r)) (rows df))) in
    match with_substance, without_substance with
    | Num w, Num wo =>
        if Rltb 0 w && Rltb 0 wo then
          let diff := percent_difference w wo in
          Some (substance ++ "_" ++ metric,
                {| with_substance := w;
                   without_substance := wo;
                   difference_percent := diff;
                   effect_interpretation :=
                     _interpret_substance_effect substance metric diff |})
        else None
    | _, _ => None
    end
  else None.

Definition substance_step (df : DataFrame)
    (acc : list (string * SubstanceEffect)) (substance : string)
  : list (string * SubstanceEffect) :=
  if existsb (used substance) (rows df)
     && existsb (fun r => negb (used substance r)) (rows df) then
    fold_left
      (fun acc metric =>
         match effect_entry df substance metric with
         | Some (key, e) => assoc_set key e acc
         | None => acc
         end)
      effect_metrics acc
  else acc.

Definition unique_substances (df : DataFrame) : list string :=
  list_of_set lib
    (flat_map (fun r => if isna (cell r "substances_today") then []
                        else substances_of (cell r "substances_today"))
              (rows df)).

Definition correlation_success (combined : DataFrame) : CorrelationSuccess :=
  let df := add_hrv_proxy (add_sleep_efficiency combined) in
  let cols := numeric_cols df in
  let has_substances := has_column df "substances_today" in
  {| total_days := List.length (rows df);
     numeric_columns := cols;
     correlations := correlations_of df cols;
     substance_effects :=
       if has_substances
       then fold_left (substance_step df) (unique_substances df) []
       else [];
     data_summary :=
       {| days_with_sleep_data := flag_days df "has_sleep_data";
          days_with_heart_rate_data := flag_days df "has_heart_rate_data";
          days_with_consumption_data := flag_days df "has_consumption_data";
          unique_substances_count :=
            if has_substances then List.length (unique_substances df) else 0%nat |} |}.

(** [perform_correlation_analysis]: the new state and the dict returned. *)
Definition perform_correlation_analysis (a : Analyzer) : Analyzer * CorrelationResults :=
  match combined_data a with
  | Some combined =>
      if no_data (combined_data a)
      then (a, CorrNoData "Keine kombinierten Daten verfügbar")
      else let r := correlation_success combined in
           (set_correlation_results r a, CorrSuccess r)
  | None => (a, CorrNoData "Keine kombinierten Daten verfügbar")
  end.

(* ------------------------------------------------------------------ *)
(** ** perform_machine_learning_analysis *)

(** [df['date'].dt.day_name()]; the frames of [combine_data] hold a Timestamp
    in every row, another cell has no weekday and falls out of the grouping. *)
Definition weekday_of (r : dict) : option string :=
  match cell r "date" with
  | PStamp t => Some (day_name t)
  | _ => None
  end.

(** The weekday names in the order of [groupby('weekday')], which sorts its
    keys. *)
Definition weekdays_sorted : list string :=
  ["Friday"; "Monday"; "Saturday"; "Sunday"; "Thursday"; "Tuesday"; "Wednesday"].

Definition is_weekday (day : string) (r : dict) : bool :=
  match weekday_of r with
  | Some d => String.eqb d day
  | None => false
  end.

(** [df.groupby('weekday')['consumption_count'].mean()] *)
Definition weekday_consumption (df : DataFrame) : list (string * pyfloat) :=
  filter_map
    (fun day =>
       match filter (is_weekday day) (rows df) with
       | [] => None
       | group => Some (day, series_mean (map (fun r => fcell r "consumption_count") group))
       end)
    weekdays_sorted.

(** [Series.idxmax()] and [Series.max()]: the first label that holds the
    largest value, missing values skipped; the label and the value are NaN when
    every value is missing. *)
Fixpoint idxmax (best : option (string * R)) (l : list (string * pyfloat))
  : option (string * R) :=
  match l with
  | [] => best
  | (k, Num v) :: t =>
      match best with
      | Some (_, b) => if Rltb b v then idxmax (Some (k, v)) t else idxmax best t
      | None => idxmax (Some (k, v)) t
      end
  | (_, NaN) :: t => idxmax best t
  end.

Definition weekday_pattern (df : DataFrame) : list string :=
  if has_column df "date" && has_column df "consumption_count" then
    match weekday_consumption df with
    | [] => []
    | groups =>
        let (max_day, max_value) :=
          match idxmax None groups with
          | Some (k, v) => (k, Num v)
          | None => ("nan", NaN)
          end in
        [ "Höchster Konsum typischerweise am " ++ max_day ++ " ("
            ++ fmt ".1f" max_value ++ " Einträge)" ]
    end
  else [].

Definition sleep_heart_pattern (df : DataFrame) : list string :=
  if has_column df "total_sleep_min" && has_column df "avg_heart_rate" then
    let mean_sleep := series_mean (fcolumn df "total_sleep_min") in
    let sleep_above_avg :=
      filter (fun r => fgt (fcell r "total_sleep_min") mean_sleep) (rows df) in
    let sleep_below_avg :=
      filter (fun r => fle (fcell r "total_sleep_min") mean_sleep) (rows df) in
    match sleep_above_avg, sleep_below_avg with
    | _ :: _, _ :: _ =>
        let hr_above := series_mean (map (fun r => fcell r "avg_heart_rate") sleep_above_avg) in
        let hr_below := series_mean (map (fun r => fcell r "avg_heart_rate") sleep_below_avg) in
        if flt hr_above hr_below
        then [ "Tage mit mehr Schlaf haben tendenziell niedrigere Herzfrequenz" ]
        else []
    | _, _ => []
    end
  else [].

(** [_identify_simple_patterns]; the [weekday] column it adds to its frame is
    read by no later step. *)
Definition _identify_simple_patterns (df : DataFrame) : list string :=
  match (weekday_pattern df ++ sleep_heart_pattern df)%list with
  | [] => [ "Keine klaren Muster identifiziert" ]
  | patterns => patterns
  end.

Definition increase_sleep_text (avg_sleep : pyfloat) : string :=
  "Schlafdauer erhöhen: Aktuell Ø " ++ fmt ".1f" (fdiv avg_sleep (Num 60))
    ++ "h, Ziel: 7-9h".

Definition long_sleep_text (avg_sleep : pyfloat) : string :=
  "Schlafdauer möglicherweise zu hoch: Ø " ++ fmt ".1f" (fdiv avg_sleep (Num 60)) ++ "h".

Definition lower_heart_rate_text (avg_hr : pyfloat) : string :=
  "Ruheherzfrequenz senken: Aktuell Ø " ++ fmt ".1f" avg_hr ++ " bpm, Ziel: <70 bpm".

Definition reduce_frequency_text (avg_consumption : pyfloat) : string :=
  "Konsumhäufigkeit reduzieren: Aktuell Ø " ++ fmt ".1f" avg_consumption
    ++ " Einträge/Tag".

Definition no_recommendation_text : string := "Keine spezifischen Empfehlungen".

Definition sleep_recommendation (df : DataFrame) : list string :=
  if has_column df "total_sleep_min" then
    let avg_sleep := series_mean (fcolumn df "total_sleep_min") in
    if flt avg_sleep (Num 360) then [ increase_sleep_text avg_sleep ]
    else if fgt avg_sleep (Num 540) then [ long_sleep_text avg_sleep ]
    else []
  else [].

Definition heart_rate_recommendation (df : DataFrame) : list string :=
  if has_column df "avg_heart_rate" then
    let avg_hr := series_mean (fcolumn df "avg_heart_rate") in
    if fgt avg_hr (Num 80) then [ lower_heart_rate_text avg_hr ] else []
  else [].

Definition consumption_recommendation (df : DataFrame) : list string :=
  if has_column df "consumption_count" then
    let avg_consumption := series_mean (fcolumn df "consumption_count") in
    if fgt avg_consumption (Num 1) then [ reduce_frequency_text avg_consumption ] else []
  else [].

Definition _generate_simple_recommendations (df : DataFrame) : list string :=
  match (sleep_recommendation df ++ heart_rate_recommendation df
         ++ consumption_recommendation df)%list with
  | [] => [ no_recommendation_text ]
  | recommendations => recommendations
  end.

(** [abs(row['avg_heart_rate'] - mean_hr) > 2 * std_hr] *)
Definition deviates (mean_hr std_hr : pyfloat) (r : dict) : bool :=
  fgt (fabs (fsub (fcell r "avg_heart_rate") mean_hr)) (fmul (Num 2) std_hr).

(** The list [anomalies]; a flagged row stands for its index label. *)
Definition anomalies (df : DataFrame) : list dict :=
  if has_column df "avg_heart_rate" then
    let mean_hr := series_mean (fcolumn df "avg_heart_rate") in
    let std_hr := series_std (fcolumn df "avg_heart_rate") in
    if fgt std_hr (Num 0) then filter (deviates mean_hr std_hr) (rows df) else []
  else [].

Definition ml_success (df : DataFrame) : MLSuccess :=
  let found := anomalies df in
  {| total_days_analyzed := List.length (rows df);
     anomaly_percentage :=
       if (0 <? List.length (rows df))%nat
       then (INRlen found / INRlen (rows df)) * 100
       else 0;
     clusters_identified := 1;
     patterns := _identify_simple_patterns df;
     recommendations := _generate_simple_recommendations df;
     anomaly_days := List.length found |}.

(** [perform_machine_learning_analysis]; the state is only read. *)
Definition perform_machine_learning_analysis (a : Analyzer) : MLResults :=
  match combined_data a with
  | Some df =>
      if no_data (combined_data a) then MLNoData "Keine Daten für ML-Analyse"
      else MLOk (ml_success df)
  | None => MLNoData "Keine Daten für ML-Analyse"
  end.

(* ------------------------------------------------------------------ *)
(** ** generate_comprehensive_report *)

Definition _generate_personal_insights (df : DataFrame) : list string :=
  let sleep :=
    if has_column df "total_sleep_min" then
      let avg_sleep := series_mean (fcolumn df "total_sleep_min") in
      if flt avg_sleep (Num 360) then
        [ "Deine durchschnittliche Schlafdauer scheint gering. Ausreichender Schlaf ist wichtig für Regeneration." ]
      else if fgt avg_sleep (Num 540) then
        [ "Deine Schlafdauer ist überdurchschnittlich hoch. Prüfe die Schlafqualität." ]
      else []
    else [] in
  let heart :=
    if has_column df "avg_heart_rate" then
      if fgt (series_mean (fcolumn df "avg_heart_rate")) (Num 80) then
        [ "Deine Ruheherzfrequenz ist erhöht. Dies könnte auf Stress oder körperliche Belastung hinweisen." ]
      else []
    else [] in
  let consumption :=
    if has_column df "has_consumption_data" then
      let consumption_days := INR (flag_days df "has_consumption_data") in
      let consumption_ratio :=
        if (0 <? List.length (rows df))%nat then consumption_days / INRlen (rows df) else 0 in
      if Rltb 0.5 consumption_ratio then
        [ "Konsumtage machen mehr als 50% der erfassten Zeit aus. Eine Reflexion der Konsummuster könnte hilfreich sein." ]
      else []
    else [] in
  match (sleep ++ heart ++ consumption)%list with
  | [] => [ "Basierend auf den aktuellen Daten liegen keine auffälligen Muster vor." ]
  | insights => insights
  end.

Definition string_of_nat (k : nat) : string :=
  NilZero.string_of_uint (Nat.to_uint k).

Definition _identify_risk_factors (df : DataFrame) : list string :=
  let combined :=
    if has_column df "avg_heart_rate" && has_column df "total_sleep_min" then
      let high_hr_low_sleep :=
        filter (fun r => fgt (fcell r "avg_heart_rate") (Num 85)
                         && flt (fcell r "total_sleep_min") (Num 300)) (rows df) in
      if (3 <? List.length high_hr_low_sleep)%nat then
        [ "An " ++ string_of_nat (List.length high_hr_low_sleep)
            ++ " Tagen kombinierte sich hohe Herzfrequenz (>85 bpm) mit wenig Schlaf (<5h)" ]
      else []
    else [] in
  let alcohol :=
    if has_column df "substances_today" then
      let alcohol_days := filter (used "Alkohol") (rows df) in
      if (0 <? List.length alcohol_days)%nat && has_column df "sleep_efficiency" then
        let avg_efficiency_alcohol :=
          series_mean (map (fun r => fcell r "sleep_efficiency") alcohol_days) in
        if flt avg_efficiency_alcohol (Num 75) then
          [ "An Tagen mit Alkoholkonsum war die Schlafeffizienz deutlich reduziert (Ø "
              ++ fmt ".1f" avg_efficiency_alcohol ++ "%)" ]
        else []
      else []
    else [] in
  (combined ++ alcohol)%list.

Fixpoint str_repeat (s : string) (k : nat) : string :=
  match k with
  | O => ""
  | S k' => s ++ str_repeat s k'
  end.

(** [key.split('_', 1)]; every key of the two result dicts holds an
    underscore. *)
Fixpoint split_underscore (s : string) : string * string :=
  match s with
  | EmptyString => (EmptyString, EmptyString)
  | String c t =>
      if Ascii.eqb c "_" then (EmptyString, t)
      else let (a, b) := split_underscore t in (String c a, b)
  end.

Definition flag_line (df : DataFrame) (label col : string) : list string :=
  if has_column df col then [ label ++ string_of_nat (flag_days df col) ] else [].

Definition correlation_lines (r : CorrelationSuccess) : list string :=
  List.concat
    [ [ "🔗 KORRELATIONSANALYSE:"; str_repeat "-" 40 ];
      match correlations r with
      | [] => [ "Keine signifikanten Korrelationen gefunden" ]
      | found =>
          "Signifikante Korrelationen gefunden:"
          :: flat_map
               (fun kv : string * CorrelationInfo =>
                  let (col1, col2) := split_underscore (fst kv) in
                  [ "  • " ++ col1 ++ " ↔ " ++ col2 ++ ": r = "
                      ++ format_float lib ".3f" (correlation (snd kv));
                    "    → " ++ interpretation (snd kv) ])
               (firstn 5 found)
      end;
      [ "" ];
      match substance_effects r with
      | [] => []
      | effects =>
          "💊 SUBSTANZ-EFFEKTE:" :: str_repeat "-" 40
          :: flat_map
               (fun kv : string * SubstanceEffect =>
                  let (substance, metric) := split_underscore (fst kv) in
                  [ "  • " ++ substance ++ ":";
                    "    - Mit Substanz: " ++ format_float lib ".1f" (with_substance (snd kv));
                    "    - Ohne Substanz: "
                      ++ format_float lib ".1f" (without_substance (snd kv));
                    "    - Unterschied: "
                      ++ format_float lib "+.1f" (difference_percent (snd kv)) ++ "%";
                    "    → " ++ effect_interpretation (snd kv) ])
               (firstn 3 effects)
      end ].

Definition ml_lines (ml_results : MLResults) : list string :=
  match ml_results with
  | MLNoData _ => []
  | MLOk r =>
      List.concat
        [ [ ""; "🤖 MASCHINELLES LERNEN:"; str_repeat "-" 40;
            "Anomalie-Tage: " ++ string_of_nat (anomaly_days r) ++ " ("
              ++ format_float lib ".1f" (anomaly_percentage r) ++ "%)";
            "Identifizierte Cluster: " ++ string_of_nat (Z.to_nat (clusters_identified r)) ];
          match patterns r with
          | [] => []
          | ps => "Erkannte Muster:" :: map (fun p => "  • " ++ p) ps
          end;
          match recommendations r with
          | [] => []
          | rs => "Empfehlungen:" :: map (fun p => "  → " ++ p) rs
          end ]
  end.

(** The report of lines 1958-2060, reached once the guard has let a frame
    through. *)
Definition report_text (a : Analyzer) (df : DataFrame) : string :=
  String.concat newline
    (List.concat
       [ [ str_repeat "=" 70; "🧠 KI-THERAPEUT ANALYSEBERICHT"; str_repeat "=" 70; "";
           "📊 DATENÜBERSICHT:"; str_repeat "-" 40;
           "Analysierte Tage: " ++ string_of_nat (List.length (rows df)) ];
         flag_line df "Tage mit Schlafdaten: " "has_sleep_data";
         flag_line df "Tage mit Pulsdaten: " "has_heart_rate_data";
         flag_line df "Tage mit Konsumdaten: " "has_consumption_data";
         [ "" ];
         match correlation_results a with
         | Some r => correlation_lines r
         | None => []
         end;
         ml_lines (perform_machine_learning_analysis a);
         [ ""; "💭 PERSÖNLICHE EINSCHÄTZUNG DES KI-THERAPEUTEN:"; str_repeat "-" 40 ];
         map (fun insight => "• " ++ insight) (_generate_personal_insights df);
         match _identify_risk_factors df with
         | [] => []
         | warnings =>
             "" :: "⚠️ WARNUNGEN:" :: str_repeat "-" 40
             :: map (fun warning => "• " ++ warning) warnings
         end;
         [ ""; "🔄 NÄCHSTE SCHRITTE:"; str_repeat "-" 40;
           "1. Konsistente Datenerfassung fortsetzen";
           "2. Auffällige Muster im Auge behalten";
           "3. Bei Bedarf professionelle Hilfe suchen";
           "4. Regelmäßig analysieren und anpassen";
           ""; str_repeat "=" 70; "Ende des Berichts"; str_repeat "=" 70 ] ]).

(** [generate_comprehensive_report]. The guard is
    [if not self.data['combined_data'] or self.data['combined_data'].empty]:
    [not] takes the truth value of the slot, and [or] reads [.empty] only when
    [not] gave [False]. *)
Definition generate_comprehensive_report (a : Analyzer) : pyresult string :=
  match truth_value (combined_data a) with
  | Raises e => Raises e
  | Returns truth =>
      if negb truth then Returns no_data_message
      else
        match combined_data a with
        | Some df =>
            match rows df with
            | [] => Returns no_data_message
            | _ => Returns (report_text a df)
            end
        | None => Raises "AttributeError"
        end
  end.

(* ------------------------------------------------------------------ *)
(** ** The pipeline *)

Record Outputs : Type := mkOutputs {
  out_consumption : option (list ConsumptionRow);
  out_combined : option DataFrame;
  out_correlation : CorrelationResults;
  out_ml : MLResults
}.

(** The five steps of the core in their order, on one analyzer object. *)
Definition run_pipeline (entries : list Entry) (health : list HealthSample)
    (a : Analyzer) : Analyzer * Outputs :=
  let (a1, consumption) := load_consumption_data lib entries a in
  let a2 := load_health_data lib health a1 in
  let (a3, combined) := combine_data a2 in
  let (a4, correlation) := perform_correlation_analysis a3 in
  let ml := perform_machine_learning_analysis a4 in
  (a4, {| out_consumption := consumption; out_combined := combined;
          out_correlation := correlation; out_ml := ml |}).

End Analysis.

(* ------------------------------------------------------------------ *)
(** ** Notions used in the statements *)

(** The date a record of [combined_records] was created for, read from its
    [date_str]. *)
Definition rec_date (r : dict) : option Z :=
  match dict_get "date_str" r with
  | Some (PDateStr d) => Some d
  | _ => None
  end.

(** The calendar dates of the three loaded series. *)
Definition input_dates (a : Analyzer) : list Z :=
  (map (fun r => dt_date (s_datetime r)) (get (sleep_data a) [])
   ++ map (fun r => dt_date (r_datetime r)) (get (heart_rate_data a) [])
   ++ map (fun r => dt_date (c_datetime r)) (get (consumption_data a) []))%list.

(** The pattern of the second and third loop of [combine_data]: the record of
    the date is changed in place, or a new record is appended. *)
Section FindOrAppend.

Context {G : Type} (upd : G -> dict -> dict) (new : Z -> G -> dict).

Definition find_or_append (recs : list dict) (g : Z * G) : list dict :=
  match update_first (has_date_str (fst g)) (upd (snd g)) recs with
  | Some updated => updated
  | None => (recs ++ [new (fst g) (snd g)])%list
  end.

Fixpoint find_group (d : Z) (groups : list (Z * G)) : option G :=
  match groups with
  | [] => None
  | (d', g) :: t => if (d =? d')%Z then Some g else find_group d t
  end.

(** What the loop does to a record that exists when it starts. *)
Definition apply_groups (groups : list (Z * G)) (r : dict) : dict :=
  match rec_date r with
  | Some d =>
      match find_group d groups with
      | Some g => upd g r
      | None => r
      end
  | None => r
  end.

(** The groups whose date has no record when the loop starts. *)
Definition fresh_groups (groups : list (Z * G)) (recs : list dict) : list (Z * G) :=
  filter (fun g => negb (existsb (has_date_str (fst g)) recs)) groups.

End FindOrAppend.

(** A record carries the date [d] in both of its date fields. *)
Definition dated (r : dict) (d : Z) : Prop :=
  rec_date r = Some d /\ dict_get "date" r = Some (PStamp (datetime_of_date d)).

(** What the [fillna(0)] loop does to one row of a frame whose columns are
    told by [present]. *)
Definition fill_row (present : string -> bool) (cols : list string) (r : dict) : dict :=
  fold_left
    (fun r c =>
       if present c
       then dict_set c (if isna (cell r c) then PFloat (Num 0) else cell r c) r
       else r)
    cols r.

(** The cells of a record under the columns of the [fillna(0)] loop are
    floats, and the record has neither of the two derived columns. *)
Definition float_cells (r : dict) : Prop :=
  (forall col v, In col fill_columns -> dict_get col r = Some v -> exists f, v = PFloat f)
  /\ dict_get "sleep_efficiency" r = None
  /\ dict_get "hrv_proxy" r = None.

(** The rows of the frame of [combine_data] before they are sorted. *)
Definition filled_records (a : Analyzer) : list dict :=
  map (fill_row (has_column (DataFrame_of_records (combined_records a))) fill_columns)
      (combined_records a).

(** The rows of the loaded consumption frame that fall on the date [d]. *)
Definition consumption_on (a : Analyzer) (d : Z) : list ConsumptionRow :=
  filter (fun x => (dt_date (c_datetime x) =? d)%Z) (get (consumption_data a) []).

(** The analyzer after the two loaders. *)
Definition loaded (lib : Library) (entries : list Entry) (health : list HealthSample)
    (a : Analyzer) : Analyzer :=
  load_health_data lib health (fst (load_consumption_data lib entries a)).



(** The key of a pair in [correlations]. *)
Definition corr_key (p : string * string) : string := fst p ++ "_" ++ snd p.

(** No two pairs of [l] share their key. *)
Definition keys_injective_on (l : list (string * string)) : bool :=
  forallb (fun p => forallb (fun q => implb (String.eqb (corr_key p) (corr_key q))
                                           (pair_eqb p q)) l) l.

(** The threshold rules of the recommendations, on the means of the frame. *)
Definition mean_below (df : DataFrame) (col : string) (bound : R) : Prop :=
  has_column df col = true
  /\ exists m, series_mean (fcolumn df col) = Num m /\ m < bound.

Definition mean_above (df : DataFrame) (col : string) (bound : R) : Prop :=
  has_column df col = true
  /\ exists m, series_mean (fcolumn df col) = Num m /\ bound < m.

(** The row holds a pulse mean that deviates from the mean of the column by
    more than two standard deviations of the column. *)
Definition deviates_by_two_std (df : DataFrame) (r : dict) : Prop :=
  exists x m s,
    fcell r "avg_heart_rate" = Num x
    /\ series_mean (fcolumn df "avg_heart_rate") = Num m
    /\ series_std (fcolumn df "avg_heart_rate") = Num s
    /\ Rabs (x - m) > 2 * s.

(** The two-standard-deviation test of a row, without the guard on the
    standard deviation. *)
Definition flagged (df : DataFrame) (r : dict) : bool :=
  has_column df "avg_heart_rate"
  && deviates (series_mean (fcolumn df "avg_heart_rate"))
              (series_std (fcolumn df "avg_heart_rate")) r.

(* ------------------------------------------------------------------ *)
(** ** A library instance and inputs for the examples *)

Definition digit (c : ascii) : option Z :=
  let k := nat_of_ascii c in
  if ((48 <=? k) && (k <=? 57))%nat then Some (Z.of_nat (k - 48)) else None.

Fixpoint number_acc (s : string) (acc : Z) : option Z :=
  match s with
  | EmptyString => Some acc
  | String c t =>
      match digit c with
      | Some v => number_acc t (10 * acc + v)%Z
      | None => None
      end
  end.

(** A non-empty run of decimal digits. *)
Definition number (s : string) : option Z :=
  match s with
  | EmptyString => None
  | _ => number_acc s 0%Z
  end.

(** Days from 1970-01-01 to a date of the proleptic Gregorian calendar. *)
Definition days_from_civil (y m d : Z) : Z :=
  let y' := if (m <=? 2)%Z then (y - 1)%Z else y in
  let era := (y' / 400)%Z in
  let yoe := (y' - era * 400)%Z in
  let doy := ((153 * (if (2 <? m)%Z then m - 3 else m + 9) + 2) / 5 + d - 1)%Z in
  let doe := (yoe * 365 + yoe / 4 - yoe / 100 + doy)%Z in
  (era * 146097 + doe - 719468)%Z.

(** [YYYY-MM-DD] *)
Definition iso_date (s : string) : option Z :=
  match number (substring 0 4 s), number (substring 5 2 s), number (substring 8 2 s) with
  | Some y, Some m, Some d =>
      if String.eqb (substring 4 1 s) "-" && String.eqb (substring 7 1 s) "-"
         && (String.length s =? 10)%nat
         && (1 <=? m)%Z && (m <=? 12)%Z && (1 <=? d)%Z && (d <=? 31)%Z
      then Some (days_from_civil y m d)
      else None
  | _, _, _ => None
  end.

(** [HH:MM], in nanoseconds after midnight. *)
Definition iso_time (s : string) : option Z :=
  match number (substring 0 2 s), number (substring 3 2 s) with
  | Some h, Some m =>
      if String.eqb (substring 2 1 s) ":" && (String.length s =? 5)%nat
         && (h <=? 23)%Z && (m <=? 59)%Z
      then Some (h * ns_per_hour + m * (ns_per_hour / 60))%Z
      else None
  | _, _ => None
  end.

(** [pd.to_datetime] on the texts the entry screens write: a date, or a date,
    a blank and a time; the empty text is [NaT]. *)
Definition iso_to_datetime (s : string) : Parsed :=
  if String.eqb s "" then NaT
  else
    match iso_date (substring 0 10 s) with
    | Some d =>
        if (String.length s =? 10)%nat then Stamp (datetime_of_date d)
        else
          match iso_time (substring 11 5 s) with
          | Some t =>
              if String.eqb (substring 10 1 s) " " && (String.length s =? 16)%nat
              then Stamp (datetime_of_date d + t)
              else ParseError
          | None => ParseError
          end
    | None => ParseError
    end.

(** An instance for the examples: ISO dates and times, whole numbers as the
    only numeric texts, sets listed in insertion order, and a format that only
    names its specification. *)
Definition example_library : Library :=
  {| to_datetime := iso_to_datetime;
     float_of_string := fun s => option_map (fun z => Num (IZR z)) (number s);
     list_of_set := unique_str;
     format_float := fun spec _ => "{:" ++ spec ++ "}" |}.

(** A diary entry of the evening of 2024-01-01 that carries neither a rating
    nor a cost. *)
Definition evening_entry : Entry :=
  {| e_date := Some "2024-01-01"; e_time := Some "20:00";
     e_substance := Some "Alkohol"; e_dosage := None; e_rating := None;
     e_cost := None; e_mood := None; e_setting := None; e_experience := None |}.

(** A pulse sample of the same day. *)
Definition pulse_sample : HealthSample :=
  {| h_Type := Some "Heart Rate"; h_value := Some (PInt 72);
     h_date := Some "2024-01-01"; h_time := Some "08:00";
     h_source := None; h_notes := None |}.

(** The analyzer after the diary entry alone has been loaded, and after the
    pulse sample has been loaded as well. *)
Definition diary_only : Analyzer :=
  fst (load_consumption_data example_library [evening_entry] init).

Definition diary_and_pulse : Analyzer :=
  load_health_data example_library [pulse_sample] diary_only.

(** One pulse sample at 08:00 of a day. *)
Definition pulse_row (day : Z) (date : string) (bpm : R) : HeartRow :=
  {| r_datetime := (datetime_of_date day + 8 * ns_per_hour)%Z;
     r_date := date; r_time := "08:00"; r_heart_rate := Num bpm;
     r_context := ""; r_source := "manual" |}.

(** Five days with the pulse values 60, 62, 61, 63 and 150 and no other
    data. *)
Definition five_pulse_days : Analyzer :=
  set_heart_rate_data
    [ pulse_row 19723 "2024-01-01" 60; pulse_row 19724 "2024-01-02" 62;
      pulse_row 19725 "2024-01-03" 61; pulse_row 19726 "2024-01-04" 63;
      pulse_row 19727 "2024-01-05" 150 ]
    init.

(** Three days on which the mean pulse falls in step with longer sleep. *)
Definition sleep_pulse_frame : DataFrame :=
  DataFrame_of_records
    [ [ ("date", PStamp (datetime_of_date 19723)); ("date_str", PDateStr 19723);
        ("total_sleep_min", PFloat (Num 400)); ("avg_heart_rate", PFloat (Num 70)) ];
      [ ("date", PStamp (datetime_of_date 19724)); ("date_str", PDateStr 19724);
        ("total_sleep_min", PFloat (Num 450)); ("avg_heart_rate", PFloat (Num 65)) ];
      [ ("date", PStamp (datetime_of_date 19725)); ("date_str", PDateStr 19725);
        ("total_sleep_min", PFloat (Num 500)); ("avg_heart_rate", PFloat (Num 60)) ] ].

(** A row of a table that holds a pulse mean only. *)
Definition pulse_day (day : Z) (bpm : R) : dict :=
  [ ("date", PStamp (datetime_of_date day)); ("date_str", PDateStr day);
    ("avg_heart_rate", PFloat (Num bpm)) ].

(** Six days, five at 60 and one at 150. *)
Definition six_days_frame : DataFrame :=
  DataFrame_of_records
    [ pulse_day 19723 60; pulse_day 19724 60; pulse_day 19725 60;
      pulse_day 19726 60; pulse_day 19727 60; pulse_day 19728 150 ].

From Stdlib Require OrderedTypeEx.

(* ------------------------------------------------------------------ *)
(** * The functions around the analyzer: validation, export, statistics,
      gamification *)

(** The functions of the Python runtime that the code below calls on texts and
    numbers. *)
Record Runtime : Type := mkRuntime {
  (** [datetime.strptime(text, '%Y-%m-%d')], as days since 1970-01-01; [None]
      when it raises [ValueError] *)
  strptime_ymd : string -> option Z;
  (** [text.strip()] *)
  strip : string -> string;
  (** [text.replace(old, new)] *)
  replace : string -> string -> string -> string;
  (** [round(x, ndigits)] *)
  round : R -> nat -> R;
  (** [str(v)], the text an f-string prints for [{v}] *)
  str_value : pyval -> string
}.

(** [entry.get(key)] for a value that is stored as it is. *)
Definition get_value (field : option pyval) : pyval :=
  match field with
  | Some v => v
  | None => PNone
  end.

(** [entry.get(key)] for a text. *)
Definition get_text (field : option string) : pyval :=
  match field with
  | Some s => PStr s
  | None => PNone
  end.

(** [isinstance(v, (int, float))]; a bool is an int. *)
Definition is_number (v : pyval) : bool :=
  match v with
  | PBool _ | PInt _ | PFloat _ => true
  | _ => false
  end.

Section Helpers.

Context (rt : Runtime) (lib : Library).

(** ** validate_entry *)

Definition substance_error (entry : Entry) : list string :=
  match e_substance entry with
  | None => [ "Substanz ist erforderlich" ]
  | Some s =>
      if String.eqb s "" || String.eqb (strip rt s) ""
      then [ "Substanz ist erforderlich" ] else []
  end.

Definition date_error (entry : Entry) : list string :=
  match strptime_ymd rt (get (e_date entry) "") with
  | Some _ => []
  | None => [ "Ungültiges Datumsformat (YYYY-MM-DD erforderlich)" ]
  end.

Definition cost_error (entry : Entry) : list string :=
  match py_float lib (get (e_cost entry) (PInt 0)) with
  | Some cost => if flt cost (Num 0) then [ "Kosten dürfen nicht negativ sein" ] else []
  | None => [ "Ungültiger Kostenwert" ]
  end.

Definition rating_error (entry : Entry) : list string :=
  let rating := get (e_rating entry) (PInt 0) in
  if negb (is_number rating)
     || negb (fle (Num 1) (to_float rating) && fle (to_float rating) (Num 5))
  then [ "Bewertung muss zwischen 1 und 5 liegen" ] else [].

Definition validate_entry (entry : Entry) : list string :=
  (substance_error entry ++ date_error entry ++ cost_error entry
   ++ rating_error entry)%list.

(** ** anonymize_export_data *)

(** A diary entry as the dict it is stored as: the keys that are present. *)
Definition entry_dict (entry : Entry) : dict :=
  let text key field :=
    match field with Some s => [ (key, PStr s) ] | None => [] end in
  let value key field :=
    match field with Some v => [ (key, v) ] | None => [] end in
  (text "date" (e_date entry) ++ text "time" (e_time entry)
   ++ text "substance" (e_substance entry) ++ text "dosage" (e_dosage entry)
   ++ value "rating" (e_rating entry) ++ value "cost" (e_cost entry)
   ++ text "mood" (e_mood entry) ++ text "setting" (e_setting entry)
   ++ text "experience" (e_experience entry))%list.

(** [entry.get('date', '')[:7] if entry.get('date') else ''] *)
Definition export_month (entry : Entry) : string :=
  match e_date entry with
  | Some s => if String.eqb s "" then "" else substring 0 7 s
  | None => ""
  end.

Definition anonymized (entry : Entry) : dict :=
  [ ("substance", get_text (e_substance entry));
    ("date", PStr (export_month entry));
    ("dosage", get_text (e_dosage entry));
    ("rating", get_value (e_rating entry));
    ("cost", get_value (e_cost entry)) ].

Definition anonymize_export_data (entries : list Entry) (full_export : bool)
  : list dict :=
  if full_export then map entry_dict entries
  else map anonymized entries.

(** ** get_statistics *)

Record Statistics : Type := mkStatistics {
  mostUsed : string * nat;
  avgRating : pyfloat;
  totalEntries : nat;
  last7Days : nat;
  last30Days : nat;
  totalCost : pyfloat;
  warning : string;
  substanceCounts : list (string * nat)
}.

(** The first loop: the entries of the last 30 days and, among them, those of
    the last 7 days.  [cutoff_7] and [cutoff_30] are instants in nanoseconds;
    an entry without a date or with a date that does not parse is skipped. *)
Fixpoint recent_entries (cutoff_7 cutoff_30 : Z) (entries : list Entry)
  : list Entry * list Entry :=
  match entries with
  | [] => ([], [])
  | entry :: rest =>
      let (last_7_days, last_30_days) := recent_entries cutoff_7 cutoff_30 rest in
      match e_date entry with
      | None => (last_7_days, last_30_days)
      | Some text =>
          match strptime_ymd rt text with
          | None => (last_7_days, last_30_days)
          | Some d =>
              let entry_date := datetime_of_date d in
              if (cutoff_30 <=? entry_date)%Z then
                (if (cutoff_7 <=? entry_date)%Z then entry :: last_7_days
                 else last_7_days,
                 entry :: last_30_days)
              else (last_7_days, last_30_days)
          end
      end
  end.

(** The second loop; [None] is the [KeyError] of an entry without substance. *)
Fixpoint count_substances (entries : list Entry) (substance_counts : list (string * nat))
  : option (list (string * nat)) :=
  match entries with
  | [] => Some substance_counts
  | entry :: rest =>
      match e_substance entry with
      | None => None
      | Some substance =>
          count_substances rest
            (assoc_set substance
               (match assoc_get substance substance_counts with
                | Some n => n
                | None => O
                end + 1)%nat
               substance_counts)
      end
  end.

(** [max(items, key=lambda x: x[1])]: the first item with the greatest count. *)
Fixpoint max_by_count (best : string * nat) (items : list (string * nat)) : string * nat :=
  match items with
  | [] => best
  | x :: rest => max_by_count (if (snd best <? snd x)%nat then x else best) rest
  end.

Definition most_used (substance_counts : list (string * nat)) : string * nat :=
  match substance_counts with
  | [] => ("Keine", O)
  | x :: rest => max_by_count x rest
  end.

(** [np.mean]: a missing value makes the mean missing. *)
Definition np_mean (l : list pyfloat) : pyfloat :=
  if existsb isnan l then NaN else Num (Rmean (dropna l)).

Definition py_round (x : pyfloat) (ndigits : nat) : pyfloat :=
  match x with
  | Num v => Num (round rt v ndigits)
  | NaN => NaN
  end.

Definition avg_rating (entries : list Entry) : pyfloat :=
  let ratings :=
    map (fun e => to_float (get (e_rating e) (PInt 0)))
        (filter (fun e => is_number (get_value (e_rating e))) entries) in
  match ratings with
  | [] => Num 0
  | _ => np_mean ratings
  end.

(** One step of the cost loop. *)
Definition add_cost (total_cost : pyfloat) (e : Entry) : pyfloat :=
  let cost_val := get (e_cost e) (PInt 0) in
  if is_number cost_val then fadd total_cost (to_float cost_val)
  else
    match cost_val with
    | PStr s =>
        let cleaned := strip rt (replace rt (replace rt s "€" "") "," ".") in
        if String.eqb cleaned "" then total_cost
        else
          match float_of_string lib cleaned with
          | Some f => fadd total_cost f
          | None => total_cost
          end
    | _ => total_cost
    end.

Definition total_cost (entries : list Entry) : pyfloat :=
  fold_left add_cost entries (Num 0).

Definition warning_level (last_7_days : list Entry) : string :=
  if (5 <=? List.length last_7_days)%nat then "high"
  else if (3 <=? List.length last_7_days)%nat then "medium"
  else "low".

(** [get_statistics]; [now_7] and [now_30] are the two readings of the clock. *)
Definition get_statistics (now_7 now_30 : Z) (entries : list Entry)
  : pyresult (option Statistics) :=
  match entries with
  | [] => Returns None
  | _ =>
      let cutoff_7 := (now_7 - 7 * ns_per_day)%Z in
      let cutoff_30 := (now_30 - 30 * ns_per_day)%Z in
      let (last_7_days, last_30_days) := recent_entries cutoff_7 cutoff_30 entries in
      match count_substances entries [] with
      | None => Raises "KeyError"
      | Some substance_counts =>
          Returns (Some
            {| mostUsed := most_used substance_counts;
               avgRating := py_round (avg_rating entries) 1;
               totalEntries := List.length entries;
               last7Days := List.length last_7_days;
               last30Days := List.length last_30_days;
               totalCost := py_round (total_cost entries) 2;
               warning := warning_level last_7_days;
               substanceCounts := substance_counts |})
      end
  end.

(** ** GamificationSystem *)

Record Achievement : Type := mkAchievement {
  a_id : string;
  a_title : string;
  a_description : string;
  a_icon : string;
  a_unlocked : bool
}.

Record Goal : Type := mkGoal {
  g_completed : option bool
}.

(** The object: [streaks['last_entry_date']] is never assigned and stays
    [None]. *)
Record GamificationSystem : Type := mkGamificationSystem {
  achievements : list Achievement;
  streaks_current : Z;
  streaks_best : Z;
  points : Z
}.

Definition new_gamification : GamificationSystem :=
  {| achievements := []; streaks_current := 0; streaks_best := 0; points := 0 |}.

Definition date_sort_key (x : Entry) : string := get (e_date x) "2000-01-01".

(** [sorted(entries, key=..., reverse=True)]: a stable sort, entries with
    equal keys keep their order. *)
Fixpoint insert_desc (x : Entry) (l : list Entry) : list Entry :=
  match l with
  | [] => [x]
  | y :: t =>
      if String.ltb (date_sort_key x) (date_sort_key y) then y :: insert_desc x t
      else x :: l
  end.

Definition sorted_desc (entries : list Entry) : list Entry :=
  fold_right insert_desc [] entries.

(** [calculate_streak]; [today] in days since 1970-01-01.  The object after
    the call; the value returned is its [streaks]. *)
Definition calculate_streak (today : Z) (entries : list Entry) (self : GamificationSystem)
  : GamificationSystem :=
  match sorted_desc entries with
  | [] => self
  | first :: _ =>
      let last_consumption_date :=
        match e_date first with
        | Some text => strptime_ymd rt text
        | None => None
        end in
      match last_consumption_date with
      | Some d =>
          let days_since := (today - d)%Z in
          {| achievements := achievements self;
             streaks_current := days_since;
             streaks_best :=
               if (streaks_best self <? days_since)%Z then days_since
               else streaks_best self;
             points := points self |}
      | None => self
      end
  end.

(** [e.get('experience', '').strip()] as a condition *)
Definition has_experience (e : Entry) : bool :=
  negb (String.eqb (strip rt (get (e_experience e) "")) "").

Definition unlocked (id title description icon : string) : Achievement :=
  {| a_id := id; a_title := title; a_description := description;
     a_icon := icon; a_unlocked := true |}.

Definition monthly_cost (stats : Statistics) : pyfloat :=
  if (0 <? totalEntries stats)%nat
  then fdiv (totalCost stats) (Num (INR (totalEntries stats) / 30))
  else Num 0.

(** [check_achievements]; [stats] is [None] for the empty dict that the caller
    passes when there are no statistics.  The list returned, which is also
    stored in the object. *)
Definition earned (entries : list Entry) (goals : list Goal) (stats : option Statistics)
    (self : GamificationSystem) : list Achievement :=
  let total := match stats with Some s => totalEntries s | None => O end in
  let when (c : bool) (a : Achievement) := if c then [a] else [] in
  (when (match stats with Some _ => (10 <=? total)%nat | None => false end)
        (unlocked "first_10" "🏁 Erste 10 Einträge" "10 Tagebucheinträge erreicht" "🏁")
   ++ when (match stats with Some _ => (30 <=? total)%nat | None => false end)
        (unlocked "consistent_tracker" "📅 Konsistenter Dokumentierer"
                  "30 Tagebucheinträge erreicht" "📅")
   ++ when (7 <=? streaks_current self)%Z
        (unlocked "week_clean" "🌟 7-Tage-Serie" "7 Tage ohne Konsum" "🌟")
   ++ when (30 <=? streaks_current self)%Z
        (unlocked "month_clean" "🏆 30-Tage-Serie" "30 Tage ohne Konsum" "🏆")
   ++ when (1 <=? List.length
                    (filter (fun g => get (g_completed g) false) goals))%nat
        (unlocked "goal_achiever" "🎯 Ziel erreicht"
                  "Erstes Ziel erfolgreich abgeschlossen" "🎯")
   ++ when (5 <=? List.length (filter has_experience entries))%nat
        (unlocked "reflective_writer" "📝 Reflektierender Schreiber"
                  "5 detaillierte Erfahrungsberichte" "📝")
   ++ when (match stats with
            | Some s => fgt (totalCost s) (Num 0) && flt (monthly_cost s) (Num 50)
            | None => false
            end)
        (unlocked "cost_conscious" "💰 Kostenbewusst" "Monatliche Kosten unter 50€" "💰"))%list.

Definition check_achievements (entries : list Entry) (goals : list Goal)
    (stats : option Statistics) (self : GamificationSystem)
  : GamificationSystem * list Achievement :=
  let result := earned entries goals stats self in
  ({| achievements := result;
      streaks_current := streaks_current self;
      streaks_best := streaks_best self;
      points := points self |}, result).



(** ** handle_health_import *)

(** The key of a sample: date, time, type and value, joined by underscores. *)
Definition sample_key (h : HealthSample) : string :=
  get (h_date h) "" ++ "_" ++ get (h_time h) "" ++ "_" ++ get (h_Type h) ""
  ++ "_" ++ str_value rt (get (h_value h) (PStr "")).

(** [handle_health_import]: what [st.session_state.health_data] holds after
    the call, from what it held before.  The counter of the backups, the
    saving and the rerun of the page follow and do not touch the list. *)
Definition handle_health_import (health_entries : list HealthSample)
    (import_option : string) (health_data : list HealthSample) : list HealthSample :=
  if String.eqb import_option "Bestehende Daten ersetzen" then health_entries
  else if String.eqb import_option "Nur neue Daten hinzufügen" then
    let existing_keys := map sample_key health_data in
    let new_entries :=
      filter (fun h => negb (mem_str (sample_key h) existing_keys)) health_entries in
    (health_data ++ new_entries)%list
  else (health_data ++ health_entries)%list.

(** ** perform_ki_therapeut_analysis *)

(** The slots of [st.session_state] that the analysis reads and writes. *)
Record Session : Type := mkSession {
  health_data : list HealthSample;
  entries : list Entry;
  ki_therapeut_analyzer : Analyzer;
  ki_analysis_results : option string;
  correlation_analysis_results : option CorrelationResults
}.

Definition with_analyzer (a : Analyzer) (st : Session) : Session :=
  {| health_data := health_data st; entries := entries st;
     ki_therapeut_analyzer := a;
     ki_analysis_results := ki_analysis_results st;
     correlation_analysis_results := correlation_analysis_results st |}.

(** [perform_ki_therapeut_analysis]: the session after the call and the value
    returned.  The analyzer is the object of the session, so what the loaders
    and the later steps store in it stays there also when the call gives
    [False]; an exception of a step is caught and gives [False]. *)
Definition perform_ki_therapeut_analysis (st : Session) : Session * bool :=
  match health_data st, entries st with
  | [], [] => (st, false)
  | _, _ =>
      let analyzer := ki_therapeut_analyzer st in
      let a1 :=
        match health_data st with
        | [] => analyzer
        | _ => load_health_data lib (health_data st) analyzer
        end in
      let a2 :=
        match entries st with
        | [] => a1
        | _ => fst (load_consumption_data lib (entries st) a1)
        end in
      let (a3, combined) := combine_data a2 in
      match combined with
      | None => (with_analyzer a3 st, false)
      | Some df =>
          match rows df with
          | [] => (with_analyzer a3 st, false)
          | _ =>
              let (a4, correlation) := perform_correlation_analysis lib a3 in
              match generate_comprehensive_report lib a4 with
              | Raises _ => (with_analyzer a4 st, false)
              | Returns report =>
                  ({| health_data := health_data st; entries := entries st;
                      ki_therapeut_analyzer := a4;
                      ki_analysis_results := Some report;
                      correlation_analysis_results := Some correlation |}, true)
              end
          end
      end
  end.

End Helpers.

(** ** parse_health_csv: the type of an imported value *)

(** The chain that names the type of a value from the name of its column
    (lines 2479-2495); it is reached once the value of the column has been
    read as a float. *)
Definition csv_data_type (field_name : string) : string :=
  let field_lower := lower field_name in
  if any_in ["heart"; "herz"; "hr"; "pulse"; "puls"] field_lower then "Herzfrequenz"
  else if any_in ["sleep"; "schlaf"; "ruhe"] field_lower then "Schlaf"
  else if any_in ["deep"; "tief"] field_lower then "Tiefschlaf"
  else if any_in ["shallow"; "leicht"] field_lower then "Leichtschlaf"
  else if contains "rem" field_lower then "REM-Schlaf"
  else if any_in ["wake"; "wach"] field_lower then "Wachzeit"
  else if any_in ["step"; "schritt"] field_lower then "Schritte"
  else field_name.

(** The record that [parse_health_csv] appends for a row whose value was read
    from the column [field_name]. *)
Definition imported_sample (field_name : string) (value : pyfloat)
    (date_str time_str source : string) : HealthSample :=
  {| h_Type := Some (csv_data_type field_name);
     h_value := Some (PFloat value);
     h_date := Some date_str;
     h_time := Some time_str;
     h_source := Some source;
     h_notes := None |}.

(** A runtime for the examples: ISO dates, blanks stripped at both ends, no
    replacement and no rounding. *)
Fixpoint lstrip (s : string) : string :=
  match s with
  | String c t => if Ascii.eqb c " " then lstrip t else s
  | EmptyString => EmptyString
  end.

Fixpoint rev_string (s acc : string) : string :=
  match s with
  | EmptyString => acc
  | String c t => rev_string t (String c acc)
  end.

Definition example_runtime : Runtime :=
  {| strptime_ymd := iso_date;
     strip := fun s => rev_string (lstrip (rev_string (lstrip s) "")) "";
     replace := fun s _ _ => s;
     round := fun x _ => x;
     str_value := fun v => match v with PStr s => s | _ => "?" end |}.

(** An entry of the evening of 2024-01-01 with rating 3 and no cost. *)
Definition rated_entry : Entry :=
  {| e_date := Some "2024-01-01"; e_time := Some "20:00";
     e_substance := Some "Alkohol"; e_dosage := None; e_rating := Some (PInt 3);
     e_cost := None; e_mood := None; e_setting := None; e_experience := None |}.

(** [entry['substance'] == name] for an entry that has a substance. *)
Definition has_substance (name : string) (e : Entry) : bool :=
  match e_substance e with
  | Some s => String.eqb s name
  | None => false
  end.

(** The fields of an entry that the anonymous export reads. *)
Definition same_export_fields (e1 e2 : Entry) : Prop :=
  e_substance e1 = e_substance e2 /\ export_month e1 = export_month e2
  /\ e_dosage e1 = e_dosage e2 /\ e_rating e1 = e_rating e2
  /\ e_cost e1 = e_cost e2.

(* ------------------------------------------------------------------ *)
(** * A diary of three days for the recommendations *)

(** A second entry of the evening of 2024-01-01. *)
Definition later_entry : Entry :=
  {| e_date := Some "2024-01-01"; e_time := Some "21:00";
     e_substance := Some "Alkohol"; e_dosage := None; e_rating := None;
     e_cost := None; e_mood := None; e_setting := None; e_experience := None |}.

(** A pulse sample of 72 at 08:00 of a date. *)
Definition pulse_on (date : string) : HealthSample :=
  {| h_Type := Some "Heart Rate"; h_value := Some (PInt 72);
     h_date := Some date; h_time := Some "08:00";
     h_source := None; h_notes := None |}.

(** Two diary entries on 2024-01-01 and a pulse sample on each of the two days
    that follow, after both loaders. *)
Definition two_entries_in_three_days : Analyzer :=
  loaded example_library [evening_entry; later_entry]
         [pulse_on "2024-01-02"; pulse_on "2024-01-03"] init.

(** The mean number of entries per day of a table, in the words of the
    specification: a day without entries counts with 0 entries. *)
Definition entries_per_day (df : DataFrame) : R :=
  Rsum (map (fun r => match fcell r "consumption_count" with
                      | Num x => x
                      | NaN => 0
                      end) (rows df))
  / INRlen (rows df).

(* ------------------------------------------------------------------ *)
(** * Two days for the effect of a substance *)



Local Open Scope string_scope.
Local Open Scope Z_scope.
Local Open Scope R_scope.

(* ------------------------------------------------------------------ *)
(** * The report entry point *)

Lemma report_without_frame (lib : Library) (a : Analyzer) :
  combined_data a = None ->
  generate_comprehensive_report lib a = Returns no_data_message.
Proof.
  intros H. unfold generate_comprehensive_report. rewrite H. reflexivity.
Qed.

(** C1. Once [combine_data] has stored a frame, whatever its rows, the guard of
    [generate_comprehensive_report] takes the truth value of that frame and the
    call raises [ValueError] instead of returning a report; only the absent
    frame gives the no-data message. *)
Theorem generate_comprehensive_report_raises_on_frame
    (lib : Library) (a : Analyzer) (df : DataFrame) :
  generate_comprehensive_report lib (set_combined_data df a) = Raises "ValueError"
  /\ generate_comprehensive_report lib init = Returns no_data_message.
Proof.
  split; reflexivity.
Qed.

(* ------------------------------------------------------------------ *)
(** * The percent difference of a substance effect *)

Lemma percent_difference_swap (w wo : R) :
  0 < w -> 0 < wo ->
  percent_difference wo w = - percent_difference w wo * (wo / w).
Proof.
  intros Hw Hwo. unfold percent_difference. field. lra.
Qed.

Lemma percent_difference_sign (w wo : R) :
  0 < wo -> (0 < percent_difference w wo <-> wo < w).
Proof.
  intros Hwo. unfold percent_difference.
  assert (Hinv : 0 < / wo) by now apply Rinv_0_lt_compat.
  unfold Rdiv. split; intros H.
  - destruct (Rlt_dec wo w) as [|Hn]; [assumption|exfalso].
    assert ((w - wo) * / wo <= 0) by nra. lra.
  - assert (0 < (w - wo) * / wo) by (apply Rmult_lt_0_compat; lra). lra.
Qed.

Lemma percent_difference_zero (w wo : R) :
  0 < wo -> (percent_difference w wo = 0 <-> w = wo).
Proof.
  intros Hwo. unfold percent_difference. split; intros H.
  - assert (Hinv : 0 < / wo) by now apply Rinv_0_lt_compat.
    unfold Rdiv in H.
    assert (E : (w - wo) * / wo = 0) by lra.
    apply Rmult_integral in E. destruct E; lra.
  - subst. field. lra.
Qed.

(** C7, counterexample. With mean 100 on the days with the substance and mean
    50 on the days without, the difference is +100 percent; with the
    partitions swapped it is -50 percent, not -100. *)
Lemma percent_difference_swap_not_negation :
  0 < 100 /\ 0 < 50 /\
  percent_difference 100 50 = 100 /\
  percent_difference 50 100 = -50 /\
  percent_difference 50 100 <> - percent_difference 100 50.
Proof.
  assert (A : percent_difference 100 50 = 100) by (unfold percent_difference; lra).
  assert (B : percent_difference 50 100 = -50) by (unfold percent_difference; lra).
  repeat split; lra.
Qed.

(** C7, amended. For positive means, swapping the two partitions reverses the
    sign of the percent difference: the swapped value is the negated value
    scaled by [without / with], it is negative exactly when the value is
    positive, positive exactly when the value is negative and zero exactly
    when the value is zero; the two values are negations of each other only
    when the means are equal. *)
Theorem percent_difference_swap_reverses_sign (w wo : R) :
  0 < w -> 0 < wo ->
  percent_difference wo w = - percent_difference w wo * (wo / w)
  /\ (0 < percent_difference w wo <-> percent_difference wo w < 0)
  /\ (percent_difference w wo < 0 <-> 0 < percent_difference wo w)
  /\ (percent_difference w wo = 0 <-> percent_difference wo w = 0)
  /\ (percent_difference wo w = - percent_difference w wo -> w = wo).
Proof.
  intros Hw Hwo.
  pose proof (percent_difference_sign w wo Hwo) as S1.
  pose proof (percent_difference_sign wo w Hw) as S2.
  pose proof (percent_difference_zero w wo Hwo) as Z1.
  pose proof (percent_difference_zero wo w Hw) as Z2.
  split; [now apply percent_difference_swap|].
  split; [|split; [|split]].
  - split; intros H.
    + apply S1 in H.
      destruct (Rtotal_order (percent_difference wo w) 0) as [L|[E|G]]; [assumption| |].
      * apply Z2 in E. lra.
      * apply S2 in G. lra.
    + destruct (Rtotal_order (percent_difference w wo) 0) as [L|[E|G]]; [| |assumption].
      * assert (~ wo < w) by (intros C; apply S1 in C; lra).
        assert (w <> wo) by (intros C; apply Z1 in C; lra).
        assert (w < wo) by lra. apply S2 in H2. lra.
      * apply Z1 in E. apply eq_sym in E. apply Z2 in E. lra.
  - split; intros H.
    + assert (~ wo < w) by (intros C; apply S1 in C; lra).
      assert (w <> wo) by (intros C; apply Z1 in C; lra).
      apply S2. lra.
    + apply S2 in H.
      destruct (Rtotal_order (percent_difference w wo) 0) as [L|[E|G]]; [assumption| |].
      * apply Z1 in E. lra.
      * apply S1 in G. lra.
  - split; intros H.
    + apply Z1 in H. apply Z2. congruence.
    + apply Z2 in H. apply Z1. congruence.
  - intros H. rewrite (percent_difference_swap w wo Hw Hwo) in H.
    destruct (Req_dec (percent_difference w wo) 0) as [E|N].
    + now apply Z1.
    + assert (wo / w = 1) by nra.
      unfold Rdiv in H0.
      assert (wo = w); [|congruence].
      apply (Rmult_eq_reg_r (/ w)); [|apply Rinv_neq_0_compat; lra].
      rewrite Rinv_r by lra. assumption.
Qed.

Lemma percent_difference_swap_reverses_sign_witness :
  0 < 100 /\ 0 < 50
  /\ percent_difference 50 100 = - percent_difference 100 50 * (50 / 100)
  /\ (0 < percent_difference 100 50 <-> percent_difference 50 100 < 0).
Proof.
  assert (H1 : 0 < 100) by lra. assert (H2 : 0 < 50) by lra.
  destruct (percent_difference_swap_reverses_sign 100 50 H1 H2) as (A & B & _).
  repeat split; try assumption; apply B.
Defined.

Local Open Scope string_scope.
Local Open Scope Z_scope.
Local Open Scope list_scope.

(* ------------------------------------------------------------------ *)
(** * Dicts *)

Lemma dict_get_set_same (k : string) (v : pyval) (d : dict) :
  dict_get k (dict_set k v d) = Some v.
Proof.
  induction d as [|[k' v'] t IH]; simpl.
  - now rewrite String.eqb_refl.
  - destruct (String.eqb k k') eqn:E; simpl; rewrite E; auto.
Qed.

Lemma dict_get_set_other (k k' : string) (v : pyval) (d : dict) :
  k <> k' -> dict_get k (dict_set k' v d) = dict_get k d.
Proof.
  intros N. induction d as [|[k2 v2] t IH]; simpl.
  - destruct (String.eqb k k') eqn:E; [apply String.eqb_eq in E; contradiction|reflexivity].
  - destruct (String.eqb k' k2) eqn:E; simpl.
    + apply String.eqb_eq in E. subst k2.
      destruct (String.eqb k k') eqn:E2; [apply String.eqb_eq in E2; contradiction|reflexivity].
    + destruct (String.eqb k k2); auto.
Qed.

Lemma dict_get_set_all_other (k : string) (kvs : list (string * pyval)) (d : dict) :
  ~ In k (map fst kvs) -> dict_get k (set_all kvs d) = dict_get k d.
Proof.
  unfold set_all. revert d. induction kvs as [|[k' v'] t IH]; intros d N; simpl.
  - reflexivity.
  - rewrite IH by (intros C; apply N; now right).
    apply dict_get_set_other. intros C. apply N. now left.
Qed.

Lemma mem_str_In (s : string) (l : list string) : mem_str s l = true <-> In s l.
Proof.
  unfold mem_str. rewrite existsb_exists. split.
  - intros (y & Hy & E). apply String.eqb_eq in E. now subst.
  - intros H. exists s. split; [assumption|apply String.eqb_refl].
Qed.

(* ------------------------------------------------------------------ *)
(** * Grouping keys *)

Lemma insert_key_In (k x : Z) (l : list Z) :
  In x (insert_key k l) <-> x = k \/ In x l.
Proof.
  induction l as [|y t IH]; simpl.
  - intuition.
  - destruct (k <? y) eqn:E1; [simpl; intuition|].
    destruct (k =? y) eqn:E2.
    + apply Z.eqb_eq in E2. subst. simpl. intuition.
    + simpl. rewrite IH. intuition.
Qed.

Lemma insert_key_sorted (k : Z) (l : list Z) :
  StronglySorted Z.lt l -> StronglySorted Z.lt (insert_key k l).
Proof.
  induction l as [|y t IH]; intros S; simpl.
  - repeat constructor.
  - inversion S as [|? ? St Hall]; subst.
    destruct (k <? y) eqn:E1.
    + apply Z.ltb_lt in E1. constructor; [assumption|].
      constructor; [assumption|].
      rewrite Forall_forall in *. intros z Hz. specialize (Hall z Hz). lia.
    + destruct (k =? y) eqn:E2; [assumption|].
      apply Z.ltb_ge in E1. apply Z.eqb_neq in E2.
      constructor; [auto|].
      rewrite Forall_forall in *. intros z Hz.
      apply insert_key_In in Hz. destruct Hz as [->|Hz]; [lia|auto].
Qed.

Lemma group_keys_In (x : Z) (l : list Z) : In x (group_keys l) <-> In x l.
Proof.
  induction l as [|y t IH]; simpl; [tauto|].
  rewrite insert_key_In, IH. intuition.
Qed.

Lemma group_keys_sorted (l : list Z) : StronglySorted Z.lt (group_keys l).
Proof.
  induction l; simpl; [constructor|now apply insert_key_sorted].
Qed.

Lemma StronglySorted_lt_NoDup (l : list Z) : StronglySorted Z.lt l -> NoDup l.
Proof.
  induction 1 as [|x t St IH Hall]; constructor; auto.
  intros C. rewrite Forall_forall in Hall. specialize (Hall x C). lia.
Qed.

Lemma group_keys_NoDup (l : list Z) : NoDup (group_keys l).
Proof. apply StronglySorted_lt_NoDup, group_keys_sorted. Qed.

Lemma groupby_keys {A} (key : A -> Z) (l : list A) :
  map fst (groupby key l) = group_keys (map key l).
Proof.
  unfold groupby. rewrite map_map. simpl. apply map_id.
Qed.

Lemma groupby_In {A} (key : A -> Z) (l : list A) (d : Z) (g : list A) :
  In (d, g) (groupby key l) ->
  g = filter (fun x => key x =? d) l /\ In d (map key l).
Proof.
  unfold groupby. intros H. apply in_map_iff in H.
  destruct H as (k & E & Hk). inversion E; subst.
  split; [reflexivity|]. now apply group_keys_In.
Qed.

Lemma groupby_nonempty {A} (key : A -> Z) (l : list A) (d : Z) (g : list A) :
  In (d, g) (groupby key l) -> g <> [].
Proof.
  intros H. apply groupby_In in H. destruct H as [-> Hd].
  apply in_map_iff in Hd. destruct Hd as (x & E & Hx).
  intros C.
  assert (Hin : In x (filter (fun x0 => key x0 =? d) l)).
  { apply filter_In. split; [assumption|]. apply Z.eqb_eq. assumption. }
  rewrite C in Hin. destruct Hin.
Qed.

(* ------------------------------------------------------------------ *)
(** * Find the record of a date or append one *)

Lemma has_date_str_iff (d : Z) (r : dict) :
  has_date_str d r = true <-> rec_date r = Some d.
Proof.
  unfold has_date_str, rec_date.
  destruct (dict_get "date_str" r) as [[]|]; try (split; discriminate).
  rewrite Z.eqb_eq. split; [intros ->; reflexivity|intros H; now inversion H].
Qed.

Lemma has_date_str_false (d : Z) (r : dict) :
  has_date_str d r = false <-> rec_date r <> Some d.
Proof.
  rewrite <- has_date_str_iff. destruct (has_date_str d r); split; congruence.
Qed.

Lemma existsb_has_date_str (d : Z) (recs : list dict) :
  existsb (has_date_str d) recs = true <-> In (Some d) (map rec_date recs).
Proof.
  rewrite existsb_exists, in_map_iff. split.
  - intros (r & Hr & H). exists r. split; [now apply has_date_str_iff|assumption].
  - intros (r & H & Hr). exists r. split; [assumption|now apply has_date_str_iff].
Qed.

Lemma map_same {A} (f : A -> A) (l : list A) :
  (forall x, In x l -> f x = x) -> map f l = l.
Proof.
  intros H. induction l as [|x t IH]; simpl; [reflexivity|].
  rewrite H by now left. f_equal. apply IH. intros y Hy. apply H. now right.
Qed.

Lemma update_first_unique (d : Z) (f : dict -> dict) (l : list dict) :
  NoDup (map rec_date l) ->
  update_first (has_date_str d) f l =
  if existsb (has_date_str d) l
  then Some (map (fun r => if has_date_str d r then f r else r) l)
  else None.
Proof.
  induction l as [|r t IH]; intros ND; simpl; [reflexivity|].
  inversion ND as [|? ? Hnot ND']; subst.
  destruct (has_date_str d r) eqn:E; simpl.
  - f_equal. f_equal. symmetry. apply map_same. intros r' Hr'.
    destruct (has_date_str d r') eqn:E'; [|reflexivity].
    exfalso. apply Hnot. apply has_date_str_iff in E, E'. rewrite E, <- E'.
    now apply in_map.
  - rewrite IH by assumption. destruct (existsb (has_date_str d) t); reflexivity.
Qed.

Lemma existsb_same_dates (d : Z) (l1 l2 : list dict) :
  (forall x, In x (map rec_date l1) <-> In x (map rec_date l2)) ->
  existsb (has_date_str d) l1 = existsb (has_date_str d) l2.
Proof.
  intros H. apply eq_true_iff_eq. rewrite !existsb_has_date_str. apply H.
Qed.

Section FindOrAppendFacts.

Context {G : Type} (upd : G -> dict -> dict) (new : Z -> G -> dict).
Hypothesis upd_date : forall g r, rec_date (upd g r) = rec_date r.
Hypothesis new_date : forall d g, rec_date (new d g) = Some d.

Lemma find_group_None (d : Z) (groups : list (Z * G)) :
  ~ In d (map fst groups) -> find_group d groups = None.
Proof.
  induction groups as [|[d' g] t IH]; simpl; intros N; [reflexivity|].
  destruct (d =? d') eqn:E.
  - apply Z.eqb_eq in E. exfalso. apply N. now left.
  - apply IH. intros C. apply N. now right.
Qed.

Lemma apply_groups_date (groups : list (Z * G)) (r : dict) :
  rec_date (apply_groups upd groups r) = rec_date r.
Proof.
  unfold apply_groups. destruct (rec_date r) as [d|] eqn:E; [|assumption].
  destruct (find_group d groups); [now rewrite upd_date|assumption].
Qed.

Lemma fold_find_or_append (groups : list (Z * G)) :
  forall recs,
    NoDup (map fst groups) ->
    NoDup (map rec_date recs) ->
    fold_left (find_or_append upd new) groups recs =
    map (apply_groups upd groups) recs
    ++ map (fun g => new (fst g) (snd g)) (fresh_groups groups recs).
Proof.
  induction groups as [|[d g] rest IH]; intros recs NDg NDr; simpl.
  - unfold apply_groups. rewrite app_nil_r. symmetry. apply map_same.
    intros r _. destruct (rec_date r); reflexivity.
  - inversion NDg as [|? ? Hd NDrest]; subst.
    unfold find_or_append at 2. simpl fst. simpl snd.
    rewrite update_first_unique by assumption.
    destruct (existsb (has_date_str d) recs) eqn:Ex; simpl.
    + set (recs' := map (fun r => if has_date_str d r then upd g r else r) recs).
      assert (Hdates : map rec_date recs' = map rec_date recs).
      { unfold recs'. rewrite map_map. apply map_ext. intros r.
        destruct (has_date_str d r); [apply upd_date|reflexivity]. }
      rewrite IH; [|assumption|now rewrite Hdates].
      f_equal.
      * unfold recs'. rewrite map_map. apply map_ext. intros r. unfold apply_groups.
        destruct (has_date_str d r) eqn:E.
        -- rewrite upd_date. apply has_date_str_iff in E. rewrite E.
           cbn [find_group]. rewrite Z.eqb_refl. now rewrite find_group_None.
        -- apply has_date_str_false in E.
           destruct (rec_date r) as [d'|]; [|reflexivity].
           cbn [find_group]. destruct (d' =? d) eqn:E'; [|reflexivity].
           apply Z.eqb_eq in E'. congruence.
      * f_equal. unfold fresh_groups. apply filter_ext. intros [d' g']. simpl.
        f_equal. apply existsb_same_dates. intros x. now rewrite Hdates.
    + assert (Hnew : ~ In (Some d) (map rec_date recs)).
      { intros C. apply existsb_has_date_str in C. congruence. }
      rewrite IH; [|assumption|].
      2:{ rewrite map_app. simpl. rewrite new_date.
          apply NoDup_app; [assumption|repeat constructor; intros []|].
          intros x Hx [<-|[]]. contradiction. }
      rewrite map_app. simpl. rewrite <- app_assoc. simpl. f_equal.
      * apply map_ext_in. intros r Hr. unfold apply_groups.
        destruct (rec_date r) as [d'|] eqn:E; [|reflexivity].
        cbn [find_group]. destruct (d' =? d) eqn:E'; [|reflexivity].
        apply Z.eqb_eq in E'. subst. exfalso. apply Hnew. rewrite <- E. now apply in_map.
      * f_equal.
        -- unfold apply_groups. rewrite new_date. now rewrite find_group_None.
        -- f_equal. unfold fresh_groups. apply filter_ext_in. intros [d' g'] Hin. simpl.
           f_equal. rewrite existsb_app. simpl.
           destruct (has_date_str d' (new d g)) eqn:E; [|now rewrite !orb_false_r].
           apply has_date_str_iff in E. rewrite new_date in E. inversion E; subst.
           exfalso. apply Hd. change d' with (fst (d', g')). now apply in_map.
Qed.

Lemma fold_find_or_append_dates (groups : list (Z * G)) (recs : list dict) :
  NoDup (map fst groups) ->
  NoDup (map rec_date recs) ->
  map rec_date (fold_left (find_or_append upd new) groups recs) =
  map rec_date recs ++ map (fun g => Some (fst g)) (fresh_groups groups recs).
Proof.
  intros NDg NDr. rewrite fold_find_or_append by assumption.
  rewrite map_app, !map_map. f_equal.
  - apply map_ext. intros r. apply apply_groups_date.
  - apply map_ext. intros g. apply new_date.
Qed.

Lemma fresh_groups_incl (groups : list (Z * G)) (recs : list dict) (g : Z * G) :
  In g (fresh_groups groups recs) <->
  In g groups /\ ~ In (Some (fst g)) (map rec_date recs).
Proof.
  unfold fresh_groups. rewrite filter_In, negb_true_iff.
  rewrite <- existsb_has_date_str.
  destruct (existsb (has_date_str (fst g)) recs); intuition congruence.
Qed.

Lemma fresh_groups_keys_NoDup (groups : list (Z * G)) (recs : list dict) :
  NoDup (map fst groups) -> NoDup (map fst (fresh_groups groups recs)).
Proof.
  unfold fresh_groups.
  induction groups as [|g t IH]; simpl; intros ND; [constructor|].
  inversion ND as [|? ? Hnot ND']; subst.
  destruct (negb (existsb (has_date_str (fst g)) recs)); simpl; [|auto].
  constructor; [|auto].
  intros C. apply Hnot. apply in_map_iff in C. destruct C as (g' & E & Hg').
  apply filter_In in Hg'. rewrite <- E. apply in_map. tauto.
Qed.

Lemma NoDup_map_inj {A B} (f : A -> B) (l : list A) :
  (forall x y, f x = f y -> x = y) -> NoDup l -> NoDup (map f l).
Proof.
  intros Hinj. induction 1 as [|x t Hnot ND IH]; simpl; constructor; [|assumption].
  intros C. apply in_map_iff in C. destruct C as (y & E & Hy).
  apply Hinj in E. now subst.
Qed.

Lemma fold_find_or_append_NoDup (groups : list (Z * G)) (recs : list dict) :
  NoDup (map fst groups) ->
  NoDup (map rec_date recs) ->
  NoDup (map rec_date (fold_left (find_or_append upd new) groups recs)).
Proof.
  intros NDg NDr. rewrite fold_find_or_append_dates by assumption.
  apply NoDup_app; [assumption| |].
  - rewrite <- (map_map fst Some).
    apply NoDup_map_inj; [intros x y H; now inversion H|].
    now apply fresh_groups_keys_NoDup.
  - intros x Hx Hy. apply in_map_iff in Hy. destruct Hy as (g & <- & Hg).
    apply fresh_groups_incl in Hg. tauto.
Qed.

Lemma fold_find_or_append_In (groups : list (Z * G)) (recs : list dict) (d : Z) :
  NoDup (map fst groups) ->
  NoDup (map rec_date recs) ->
  In (Some d) (map rec_date (fold_left (find_or_append upd new) groups recs)) <->
  In (Some d) (map rec_date recs) \/ In d (map fst groups).
Proof.
  intros NDg NDr. rewrite fold_find_or_append_dates by assumption.
  rewrite in_app_iff. split.
  - intros [H|H]; [now left|right].
    apply in_map_iff in H. destruct H as (g & E & Hg). inversion E; subst.
    apply fresh_groups_incl in Hg. apply in_map. tauto.
  - intros [H|H]; [now left|].
    assert (dec : forall x y : option Z, {x = y} + {x <> y})
      by (decide equality; apply Z.eq_dec).
    destruct (in_dec dec (Some d) (map rec_date recs)) as [Hin|Hout]; [now left|right].
    apply in_map_iff in H. destruct H as (g & <- & Hg).
    apply in_map_iff. exists g. split; [reflexivity|].
    apply fresh_groups_incl. tauto.
Qed.

End FindOrAppendFacts.

(* ------------------------------------------------------------------ *)
(** * Sorting *)

Lemma insert_by_perm {A} (key : A -> Z) (x : A) (l : list A) :
  Permutation (insert_by key x l) (x :: l).
Proof.
  induction l as [|y t IH]; simpl; [reflexivity|].
  destruct (key x <=? key y); [reflexivity|].
  rewrite IH. apply perm_swap.
Qed.

Lemma sort_values_perm {A} (key : A -> Z) (l : list A) :
  Permutation (sort_values key l) l.
Proof.
  induction l as [|x t IH]; simpl; [reflexivity|].
  rewrite insert_by_perm. now constructor.
Qed.

Lemma insert_by_sorted {A} (key : A -> Z) (x : A) (l : list A) :
  StronglySorted (fun u v => key u <= key v) l ->
  StronglySorted (fun u v => key u <= key v) (insert_by key x l).
Proof.
  induction l as [|y t IH]; intros S; simpl.
  - repeat constructor.
  - inversion S as [|? ? St Hall]; subst.
    destruct (key x <=? key y) eqn:E.
    + apply Z.leb_le in E. constructor; [assumption|].
      constructor; [assumption|].
      rewrite Forall_forall in *. intros z Hz. specialize (Hall z Hz). lia.
    + apply Z.leb_gt in E. constructor; [auto|].
      rewrite Forall_forall in *. intros z Hz.
      apply (Permutation_in _ (insert_by_perm key x t)) in Hz.
      destruct Hz as [<-|Hz]; [lia|auto].
Qed.

Lemma sort_values_sorted {A} (key : A -> Z) (l : list A) :
  StronglySorted (fun u v => key u <= key v) (sort_values key l).
Proof.
  induction l; simpl; [constructor|now apply insert_by_sorted].
Qed.

Lemma StronglySorted_map {A B} (f : A -> B) (R : A -> A -> Prop) (S : B -> B -> Prop)
    (l : list A) :
  (forall x y, R x y -> S (f x) (f y)) ->
  StronglySorted R l -> StronglySorted S (map f l).
Proof.
  intros H. induction 1 as [|x t St IH Hall]; simpl; constructor; auto.
  rewrite Forall_forall in *. intros y Hy. apply in_map_iff in Hy.
  destruct Hy as (z & <- & Hz). auto.
Qed.

Lemma StronglySorted_le_NoDup_lt (l : list Z) :
  StronglySorted Z.le l -> NoDup l -> StronglySorted Z.lt l.
Proof.
  induction 1 as [|x t St IH Hall]; intros ND; constructor.
  - apply IH. now inversion ND.
  - inversion ND as [|? ? Hnot _]; subst.
    rewrite Forall_forall in *. intros y Hy. specialize (Hall y Hy).
    assert (x <> y) by (intros ->; contradiction). lia.
Qed.

Lemma ns_per_day_pos : 0 < ns_per_day.
Proof. reflexivity. Qed.

Lemma dt_date_of_date (d : Z) : dt_date (datetime_of_date d) = d.
Proof.
  unfold dt_date, datetime_of_date. apply Z.div_mul.
  pose proof ns_per_day_pos. lia.
Qed.

Lemma dt_date_mono (s t : Z) : s <= t -> dt_date s <= dt_date t.
Proof.
  intros H. unfold dt_date. apply Z.div_le_mono; [apply ns_per_day_pos|assumption].
Qed.

(* ------------------------------------------------------------------ *)
(** * The records of combine_data *)

Ltac not_key :=
  let H := fresh in
  cbn; intros H; repeat (destruct H as [H|H]; [discriminate H|]); exact H.

Lemma evening_fields_keys (g : list ConsumptionRow) (k : string) :
  In k (map fst (evening_fields g)) ->
  k = "evening_substances" \/ k = "evening_consumption_count".
Proof.
  unfold evening_fields. destruct (evening_consumption g); simpl; intuition.
Qed.

Lemma heart_update_get (k : string) (g : list HeartRow) (r : dict) :
  ~ In k (map fst (heart_fields g)) -> dict_get k (heart_update g r) = dict_get k r.
Proof. intros H. unfold heart_update. now apply dict_get_set_all_other. Qed.

Lemma consumption_update_get (k : string) (g : list ConsumptionRow) (r : dict) :
  ~ In k (map fst (consumption_fields g)) ->
  k <> "evening_substances" -> k <> "evening_consumption_count" ->
  dict_get k (consumption_update g r) = dict_get k r.
Proof.
  intros H N1 N2. unfold consumption_update.
  rewrite dict_get_set_all_other.
  - now apply dict_get_set_all_other.
  - intros C. apply evening_fields_keys in C. tauto.
Qed.

Lemma heart_update_date (g : list HeartRow) (r : dict) :
  rec_date (heart_update g r) = rec_date r.
Proof. unfold rec_date. rewrite heart_update_get; [reflexivity|not_key]. Qed.

Lemma heart_record_date (d : Z) (g : list HeartRow) : rec_date (heart_record d g) = Some d.
Proof. reflexivity. Qed.

Lemma consumption_update_date (g : list ConsumptionRow) (r : dict) :
  rec_date (consumption_update g r) = rec_date r.
Proof.
  unfold rec_date. rewrite consumption_update_get; [reflexivity|not_key|discriminate..].
Qed.

Lemma consumption_record_date (d : Z) (g : list ConsumptionRow) :
  rec_date (consumption_record d g) = Some d.
Proof. reflexivity. Qed.

Lemma sleep_record_dated (d : Z) (g : list SleepRow) : dated (sleep_record d g) d.
Proof. split; reflexivity. Qed.

Lemma heart_record_dated (d : Z) (g : list HeartRow) : dated (heart_record d g) d.
Proof. split; reflexivity. Qed.

Lemma consumption_record_dated (d : Z) (g : list ConsumptionRow) :
  dated (consumption_record d g) d.
Proof. split; reflexivity. Qed.

Lemma heart_update_dated (g : list HeartRow) (r : dict) (d : Z) :
  dated r d -> dated (heart_update g r) d.
Proof.
  intros [H1 H2]. split; [now rewrite heart_update_date|].
  rewrite heart_update_get; [assumption|not_key].
Qed.

Lemma consumption_update_dated (g : list ConsumptionRow) (r : dict) (d : Z) :
  dated r d -> dated (consumption_update g r) d.
Proof.
  intros [H1 H2]. split; [now rewrite consumption_update_date|].
  rewrite consumption_update_get; [assumption|not_key|discriminate..].
Qed.

Lemma fold_heart_step (groups : list (Z * list HeartRow)) (recs : list dict) :
  fold_left heart_step groups recs =
  fold_left (find_or_append heart_update heart_record) groups recs.
Proof.
  revert recs. induction groups as [|[d g] t IH]; intros recs; simpl; [reflexivity|].
  apply IH.
Qed.

Lemma fold_consumption_step (groups : list (Z * list ConsumptionRow)) (recs : list dict) :
  fold_left consumption_step groups recs =
  fold_left (find_or_append consumption_update consumption_record) groups recs.
Proof.
  revert recs. induction groups as [|[d g] t IH]; intros recs; simpl; [reflexivity|].
  apply IH.
Qed.

Lemma groupby_keys_NoDup {A} (key : A -> Z) (l : list A) :
  NoDup (map fst (groupby key l)).
Proof. rewrite groupby_keys. apply group_keys_NoDup. Qed.

Lemma from_sleep_dates (a : Analyzer) :
  map rec_date (from_sleep a) = map Some (map fst (sleep_groups a)).
Proof. unfold from_sleep. rewrite !map_map. reflexivity. Qed.

Lemma from_sleep_NoDup (a : Analyzer) : NoDup (map rec_date (from_sleep a)).
Proof.
  rewrite from_sleep_dates. apply NoDup_map_inj; [intros x y H; now inversion H|].
  apply groupby_keys_NoDup.
Qed.

Lemma with_heart_NoDup (a : Analyzer) : NoDup (map rec_date (with_heart a)).
Proof.
  unfold with_heart. rewrite fold_heart_step.
  apply fold_find_or_append_NoDup.
  - apply heart_update_date.
  - apply heart_record_date.
  - apply groupby_keys_NoDup.
  - apply from_sleep_NoDup.
Qed.

Lemma combined_records_unfold (a : Analyzer) :
  combined_records a =
  fold_left (find_or_append consumption_update consumption_record)
            (consumption_groups a) (with_heart a).
Proof. unfold combined_records. now rewrite fold_consumption_step. Qed.

Lemma combined_records_NoDup (a : Analyzer) : NoDup (map rec_date (combined_records a)).
Proof.
  rewrite combined_records_unfold. apply fold_find_or_append_NoDup.
  - apply consumption_update_date.
  - apply consumption_record_date.
  - apply groupby_keys_NoDup.
  - apply with_heart_NoDup.
Qed.

Lemma combined_records_In (a : Analyzer) (d : Z) :
  In (Some d) (map rec_date (combined_records a)) <-> In d (input_dates a).
Proof.
  rewrite combined_records_unfold.
  rewrite fold_find_or_append_In;
    [|apply consumption_update_date|apply consumption_record_date
     |apply groupby_keys_NoDup|apply with_heart_NoDup].
  unfold with_heart. rewrite fold_heart_step.
  rewrite fold_find_or_append_In;
    [|apply heart_update_date|apply heart_record_date
     |apply groupby_keys_NoDup|apply from_sleep_NoDup].
  rewrite from_sleep_dates.
  unfold sleep_groups, heart_groups, consumption_groups, input_dates.
  rewrite !groupby_keys, !in_app_iff, !group_keys_In.
  split.
  - intros [[H|H]|H]; auto.
    apply in_map_iff in H. destruct H as (x & E & Hx). inversion E; subst.
    rewrite group_keys_In in Hx. auto.
  - intros [H|[H|H]]; auto.
    left. left. apply in_map. now rewrite group_keys_In.
Qed.

Lemma update_first_Forall (P : dict -> Prop) (p : dict -> bool) (f : dict -> dict) :
  (forall r, P r -> P (f r)) ->
  forall l l', Forall P l -> update_first p f l = Some l' -> Forall P l'.
Proof.
  intros Hf. induction l as [|r t IH]; intros l' HP E; simpl in E; [discriminate|].
  inversion HP; subst.
  destruct (p r).
  - inversion E; subst. constructor; auto.
  - destruct (update_first p f t) as [t'|]; [|discriminate].
    inversion E; subst. constructor; auto.
Qed.

Lemma fold_find_or_append_Forall {G} (P : dict -> Prop)
    (upd : G -> dict -> dict) (new : Z -> G -> dict) :
  (forall g r, P r -> P (upd g r)) ->
  (forall d g, P (new d g)) ->
  forall groups recs,
    Forall P recs -> Forall P (fold_left (find_or_append upd new) groups recs).
Proof.
  intros Hu Hn. induction groups as [|[d g] t IH]; intros recs HP; simpl; [assumption|].
  apply IH. unfold find_or_append. simpl.
  destruct (update_first (has_date_str d) (upd g) recs) as [l'|] eqn:E.
  - eapply update_first_Forall; [|exact HP|exact E]. intros r. apply Hu.
  - apply Forall_app. split; [assumption|]. constructor; [apply Hn|constructor].
Qed.

Lemma combined_records_dated (a : Analyzer) :
  Forall (fun r => exists d, dated r d) (combined_records a).
Proof.
  rewrite combined_records_unfold. apply fold_find_or_append_Forall.
  - intros g r (d & H). exists d. now apply consumption_update_dated.
  - intros d g. exists d. apply consumption_record_dated.
  - unfold with_heart. rewrite fold_heart_step. apply fold_find_or_append_Forall.
    + intros g r (d & H). exists d. now apply heart_update_dated.
    + intros d g. exists d. apply heart_record_dated.
    + unfold from_sleep. apply Forall_forall. intros r Hr.
      apply in_map_iff in Hr. destruct Hr as (g & <- & _).
      exists (fst g). apply sleep_record_dated.
Qed.

(* ------------------------------------------------------------------ *)
(** * Filling and sorting the frame *)

Lemma fillna0_columns (df : DataFrame) (c : string) :
  columns (fillna0 df c) = columns df.
Proof.
  unfold fillna0. destruct (has_column df c) eqn:E; [|reflexivity].
  unfold set_column. simpl. now rewrite E.
Qed.

Lemma fillna0_rows (df : DataFrame) (c : string) :
  rows (fillna0 df c) = map (fill_row (has_column df) [c]) (rows df).
Proof.
  unfold fillna0, fill_row. simpl.
  destruct (has_column df c) eqn:E; simpl; [reflexivity|].
  symmetry. apply map_id.
Qed.

Lemma fold_fillna0_rows (cols : list string) (df : DataFrame) :
  columns (fold_left fillna0 cols df) = columns df
  /\ rows (fold_left fillna0 cols df) = map (fill_row (has_column df) cols) (rows df).
Proof.
  revert df. induction cols as [|c t IH]; intros df; simpl.
  - split; [reflexivity|]. symmetry. apply map_id.
  - destruct (IH (fillna0 df c)) as [Hc Hr]. rewrite Hc, Hr, fillna0_columns.
    split; [reflexivity|]. rewrite fillna0_rows, map_map.
    apply map_ext. intros r. unfold fill_row. simpl.
    unfold has_column. now rewrite fillna0_columns.
Qed.

Lemma fill_row_get_other (present : string -> bool) (cols : list string) (k : string) :
  ~ In k cols -> forall r, dict_get k (fill_row present cols r) = dict_get k r.
Proof.
  unfold fill_row. induction cols as [|c t IH]; intros N r; simpl; [reflexivity|].
  rewrite IH by (intros C; apply N; now right).
  destruct (present c); [|reflexivity].
  apply dict_get_set_other. intros C. apply N. now left.
Qed.

Lemma fill_row_get_present (present : string -> bool) (cols : list string)
    (k : string) (v : pyval) :
  isna v = false ->
  forall r, dict_get k r = Some v -> dict_get k (fill_row present cols r) = Some v.
Proof.
  intros Hv. unfold fill_row. induction cols as [|c t IH]; intros r H; simpl; [assumption|].
  apply IH. destruct (present c); [|assumption].
  destruct (String.eqb k c) eqn:E.
  - apply String.eqb_eq in E. subst c. rewrite dict_get_set_same.
    unfold cell. rewrite H, Hv. reflexivity.
  - rewrite dict_get_set_other; [assumption|]. intros ->. now rewrite String.eqb_refl in E.
Qed.

Lemma dated_row_date (r : dict) (d : Z) : dated r d -> row_date r = d.
Proof.
  intros [_ H]. unfold row_date, date_key, cell. rewrite H. apply dt_date_of_date.
Qed.

Lemma fill_row_dated (present : string -> bool) (r : dict) (d : Z) :
  dated r d -> dated (fill_row present fill_columns r) d.
Proof.
  intros [H1 H2]. split.
  - unfold rec_date. rewrite fill_row_get_other; [exact H1|not_key].
  - rewrite fill_row_get_other; [exact H2|not_key].
Qed.

Lemma combine_data_spec (a : Analyzer) :
  match combine_data a with
  | (a', Some df) =>
      combined_records a <> []
      /\ rows df = sort_values date_key (filled_records a)
      /\ a' = set_combined_data df a
      /\ columns df = columns (DataFrame_of_records (combined_records a))
  | (a', None) => combined_records a = [] /\ a' = a
  end.
Proof.
  unfold combine_data, filled_records.
  destruct (combined_records a) as [|r t] eqn:E; [split; reflexivity|].
  destruct (fold_fillna0_rows fill_columns (DataFrame_of_records (r :: t))) as [Hc H].
  split; [discriminate|]. split; [|split; [reflexivity|exact Hc]].
  cbn [rows]. f_equal. exact H.
Qed.

Lemma filled_records_dated (a : Analyzer) :
  Forall (fun r => exists d, dated r d) (filled_records a).
Proof.
  unfold filled_records. apply Forall_forall. intros r Hr.
  apply in_map_iff in Hr. destruct Hr as (r0 & <- & Hr0).
  pose proof (combined_records_dated a) as H. rewrite Forall_forall in H.
  destruct (H r0 Hr0) as (d & Hd). exists d. now apply fill_row_dated.
Qed.

Lemma dated_rec_dates (l : list dict) :
  Forall (fun r => exists d, dated r d) l ->
  map rec_date l = map Some (map row_date l).
Proof.
  induction 1 as [|r t (d & Hd) _ IH]; simpl; [reflexivity|].
  rewrite IH. f_equal. rewrite (dated_row_date r d Hd). apply Hd.
Qed.

Lemma filled_records_dates (a : Analyzer) :
  map rec_date (filled_records a) = map rec_date (combined_records a).
Proof.
  unfold filled_records. rewrite map_map. apply map_ext. intros r.
  unfold rec_date. rewrite fill_row_get_other; [reflexivity|not_key].
Qed.

Lemma NoDup_map_Some_inv (l : list Z) : NoDup (map Some l) -> NoDup l.
Proof. apply NoDup_map_inv. Qed.

Lemma filled_row_dates_NoDup (a : Analyzer) : NoDup (map row_date (filled_records a)).
Proof.
  apply NoDup_map_Some_inv.
  rewrite <- dated_rec_dates by apply filled_records_dated.
  rewrite filled_records_dates. apply combined_records_NoDup.
Qed.

Lemma filled_row_dates_In (a : Analyzer) (d : Z) :
  In d (map row_date (filled_records a)) <-> In d (input_dates a).
Proof.
  rewrite <- combined_records_In, <- filled_records_dates.
  rewrite dated_rec_dates by apply filled_records_dated.
  split; intros H.
  - now apply in_map.
  - apply in_map_iff in H. destruct H as (x & E & Hx). now inversion E; subst.
Qed.

Lemma no_elements {A} (l : list A) : (forall x, ~ In x l) -> l = [].
Proof.
  destruct l as [|x t]; [reflexivity|]. intros H. exfalso. apply (H x). now left.
Qed.

(** C4. Whatever the three loaded series hold, the daily table of
    [combine_data] is sorted strictly ascending by date, has exactly one row
    for every calendar date that occurs in one of the series and no row for
    another date; it is what the analyzer stores. There is no table exactly
    when the series hold no date. *)
Theorem combine_data_one_row_per_date (a : Analyzer) :
  match snd (combine_data a) with
  | Some df =>
      StronglySorted Z.lt (map row_date (rows df))
      /\ (forall d, In d (input_dates a) ->
                    count_occ Z.eq_dec (map row_date (rows df)) d = 1%nat)
      /\ (forall r, In r (rows df) -> In (row_date r) (input_dates a))
      /\ combined_data (fst (combine_data a)) = Some df
      /\ input_dates a <> []
  | None => input_dates a = []
  end.
Proof.
  pose proof (combine_data_spec a) as H.
  destruct (combine_data a) as [a' [df|]]; simpl.
  - destruct H as (Hne & Hrows & -> & _).
    assert (P : Permutation (map row_date (rows df)) (map row_date (filled_records a))).
    { rewrite Hrows. apply Permutation_map, sort_values_perm. }
    assert (ND : NoDup (map row_date (rows df))).
    { eapply Permutation_NoDup; [symmetry; exact P|apply filled_row_dates_NoDup]. }
    assert (Hin : forall d, In d (map row_date (rows df)) <-> In d (input_dates a)).
    { intros d. rewrite <- filled_row_dates_In. split; apply Permutation_in;
        [exact P|symmetry; exact P]. }
    split; [|split; [|split; [|split]]].
    + apply StronglySorted_le_NoDup_lt; [|exact ND].
      rewrite Hrows.
      apply (StronglySorted_map row_date (fun u v => date_key u <= date_key v));
        [|apply sort_values_sorted].
      intros x y Hxy. now apply dt_date_mono.
    + intros d Hd. apply NoDup_count_occ'; [exact ND|]. now apply Hin.
    + intros r Hr. apply Hin. now apply in_map.
    + reflexivity.
    + intros C. destruct (combined_records a) as [|r t] eqn:E; [now apply Hne|].
      assert (Hr : In r (combined_records a)) by (rewrite E; now left).
      pose proof (combined_records_dated a) as D. rewrite Forall_forall in D.
      destruct (D r Hr) as (d & Hd & _).
      assert (Hd' : In d (input_dates a)).
      { apply combined_records_In. rewrite <- Hd. now apply in_map. }
      rewrite C in Hd'. destruct Hd'.
  - destruct H as [E _]. apply no_elements. intros d Hd.
    apply combined_records_In in Hd. rewrite E in Hd. destruct Hd.
Qed.

(* ------------------------------------------------------------------ *)
(** * The row of a date *)

Lemma rows_from_records (a : Analyzer) (df : DataFrame) (r : dict) :
  snd (combine_data a) = Some df -> In r (rows df) ->
  exists rec,
    In rec (combined_records a)
    /\ r = fill_row (has_column (DataFrame_of_records (combined_records a)))
                    fill_columns rec.
Proof.
  intros E Hr. pose proof (combine_data_spec a) as H.
  destruct (combine_data a) as [a' [df'|]]; simpl in E; [|discriminate].
  inversion E; subst df'. destruct H as (_ & Hrows & _ & _).
  rewrite Hrows in Hr. apply (Permutation_in _ (sort_values_perm _ _)) in Hr.
  unfold filled_records in Hr. apply in_map_iff in Hr.
  destruct Hr as (rec & <- & Hrec). eauto.
Qed.

Lemma record_of_row_date (a : Analyzer) (rec : dict) (present : string -> bool) (d : Z) :
  In rec (combined_records a) ->
  row_date (fill_row present fill_columns rec) = d ->
  rec_date rec = Some d.
Proof.
  intros Hrec Hd. pose proof (combined_records_dated a) as D.
  rewrite Forall_forall in D. destruct (D rec Hrec) as (d' & Hd').
  rewrite (dated_row_date _ d' (fill_row_dated present rec d' Hd')) in Hd.
  subst. apply Hd'.
Qed.

Lemma find_group_In {G} (groups : list (Z * G)) (d : Z) (g : G) :
  NoDup (map fst groups) -> In (d, g) groups -> find_group d groups = Some g.
Proof.
  induction groups as [|[d' g'] t IH]; intros ND Hin; [destruct Hin|].
  simpl. inversion ND as [|? ? Hnot ND']; subst.
  destruct Hin as [E|Hin].
  - inversion E; subst. now rewrite Z.eqb_refl.
  - destruct (d =? d') eqn:E; [|auto].
    apply Z.eqb_eq in E. subst. exfalso. apply Hnot.
    change d' with (fst (d', g)). now apply in_map.
Qed.

Lemma set_all_get_in (kvs : list (string * pyval)) (k : string) (v : pyval) :
  NoDup (map fst kvs) -> In (k, v) kvs ->
  forall d, dict_get k (set_all kvs d) = Some v.
Proof.
  unfold set_all. induction kvs as [|[k1 v1] t IH]; intros ND Hin d; [destruct Hin|].
  simpl. inversion ND as [|? ? Hnot ND']; subst.
  destruct Hin as [E|Hin].
  - inversion E; subst.
    change (fold_left (fun d0 kv => dict_set (fst kv) (snd kv) d0) t (dict_set k v d))
      with (set_all t (dict_set k v d)).
    rewrite dict_get_set_all_other by assumption. apply dict_get_set_same.
  - now apply IH.
Qed.

(** The record of a date with consumption entries is either an earlier record
    after [consumption_update], or the appended [consumption_record]. *)
Lemma combined_record_cases (a : Analyzer) (rec : dict) (d : Z)
    (g : list ConsumptionRow) :
  In rec (combined_records a) -> rec_date rec = Some d ->
  In (d, g) (consumption_groups a) ->
  (exists r1, In r1 (with_heart a) /\ rec_date r1 = Some d
              /\ rec = consumption_update g r1)
  \/ (~ In (Some d) (map rec_date (with_heart a)) /\ rec = consumption_record d g).
Proof.
  intros Hrec Hd Hg. rewrite combined_records_unfold in Hrec.
  rewrite fold_find_or_append in Hrec;
    [|apply consumption_update_date|apply consumption_record_date
     |apply groupby_keys_NoDup|apply with_heart_NoDup].
  apply in_app_or in Hrec. destruct Hrec as [Hrec|Hrec].
  - left. apply in_map_iff in Hrec. destruct Hrec as (r1 & E & Hr1).
    assert (D1 : rec_date r1 = Some d).
    { rewrite <- Hd, <- E. symmetry. apply apply_groups_date, consumption_update_date. }
    exists r1. split; [assumption|]. split; [assumption|].
    rewrite <- E. unfold apply_groups. rewrite D1.
    rewrite (find_group_In _ d g); [reflexivity|apply groupby_keys_NoDup|assumption].
  - right. apply in_map_iff in Hrec. destruct Hrec as ([d' g'] & E & Hfresh).
    simpl in E. apply fresh_groups_incl in Hfresh. destruct Hfresh as [Hin Hnot].
    simpl in Hnot.
    assert (d' = d).
    { rewrite <- E in Hd. rewrite consumption_record_date in Hd. now inversion Hd. }
    subst d'.
    assert (g' = g).
    { pose proof (find_group_In _ d g (groupby_keys_NoDup _ _) Hg) as F1.
      pose proof (find_group_In _ d g' (groupby_keys_NoDup _ _) Hin) as F2.
      unfold consumption_groups in F1, F2. congruence. }
    subst g'. split; [assumption|now symmetry].
Qed.



Lemma groupby_group {A} (key : A -> Z) (l : list A) (d : Z) :
  In d (map key l) -> In (d, filter (fun x => key x =? d) l) (groupby key l).
Proof.
  intros H. unfold groupby.
  apply in_map_iff. exists d. split; [reflexivity|]. now apply group_keys_In.
Qed.

Lemma consumption_on_group (a : Analyzer) (d : Z) :
  consumption_on a d <> [] -> In (d, consumption_on a d) (consumption_groups a).
Proof.
  intros H. apply groupby_group.
  destruct (consumption_on a d) as [|x t] eqn:E; [contradiction|].
  assert (Hx : In x (consumption_on a d)) by (rewrite E; now left).
  apply filter_In in Hx. destruct Hx as [Hx Hd]. apply Z.eqb_eq in Hd.
  rewrite <- Hd. now apply (in_map (fun r => dt_date (c_datetime r))).
Qed.


Lemma row_evening_absent (a : Analyzer) (df : DataFrame) (r : dict) (d : Z) :
  snd (combine_data a) = Some df -> In r (rows df) -> row_date r = d ->
  consumption_on a d <> [] ->
  ~ In d (map (fun r => dt_date (s_datetime r)) (get (sleep_data a) [])) ->
  ~ In d (map (fun r => dt_date (r_datetime r)) (get (heart_rate_data a) [])) ->
  dict_get "evening_substances" r = None
  /\ dict_get "evening_consumption_count" r = None.
Proof.
  intros E Hr Hd Hne Hs Hh.
  destruct (rows_from_records a df r E Hr) as (rec & Hrec & ->).
  assert (D : rec_date rec = Some d) by (eapply record_of_row_date; eassumption).
  pose proof (consumption_on_group a d Hne) as Hg.
  rewrite !fill_row_get_other by not_key.
  destruct (combined_record_cases a rec d _ Hrec D Hg) as [(r1 & Hr1 & D1 & _)|[_ ->]].
  - exfalso.
    assert (Hin : In (Some d) (map rec_date (with_heart a))).
    { rewrite <- D1. now apply in_map. }
    unfold with_heart in Hin. rewrite fold_heart_step in Hin.
    apply fold_find_or_append_In in Hin;
      [|apply heart_update_date|apply heart_record_date
       |apply groupby_keys_NoDup|apply from_sleep_NoDup].
    rewrite from_sleep_dates in Hin. unfold sleep_groups, heart_groups in Hin.
    rewrite !groupby_keys in Hin. destruct Hin as [Hin|Hin].
    + apply in_map_iff in Hin. destruct Hin as (x & Ex & Hx). inversion Ex; subst.
      rewrite group_keys_In in Hx. contradiction.
    + rewrite group_keys_In in Hin. contradiction.
  - split; reflexivity.
Qed.

Lemma row_evening_present (a : Analyzer) (df : DataFrame) (r : dict) (d : Z) :
  snd (combine_data a) = Some df -> In r (rows df) -> row_date r = d ->
  consumption_on a d <> [] ->
  evening_consumption (consumption_on a d) <> [] ->
  In d (map (fun r => dt_date (s_datetime r)) (get (sleep_data a) []))
  \/ In d (map (fun r => dt_date (r_datetime r)) (get (heart_rate_data a) [])) ->
  dict_get "evening_substances" r
  = Some (PList (unique_str (map c_type (evening_consumption (consumption_on a d)))))
  /\ dict_get "evening_consumption_count" r
     = Some (PInt (Z.of_nat (List.length (evening_consumption (consumption_on a d))))).
Proof.
  intros E Hr Hd Hne Hev Hhealth.
  destruct (rows_from_records a df r E Hr) as (rec & Hrec & ->).
  assert (D : rec_date rec = Some d) by (eapply record_of_row_date; eassumption).
  pose proof (consumption_on_group a d Hne) as Hg.
  rewrite !fill_row_get_other by not_key.
  destruct (combined_record_cases a rec d _ Hrec D Hg) as [(r1 & Hr1 & D1 & ->)|[Hnot _]].
  - unfold consumption_update, evening_fields.
    destruct (evening_consumption (consumption_on a d)) as [|e t] eqn:Ee; [contradiction|].
    split; (apply set_all_get_in;
            [cbn; repeat constructor; cbn; intuition discriminate|cbn; tauto]).
  - exfalso. apply Hnot.
    unfold with_heart. rewrite fold_heart_step.
    apply fold_find_or_append_In;
      [apply heart_update_date|apply heart_record_date
      |apply groupby_keys_NoDup|apply from_sleep_NoDup|].
    rewrite from_sleep_dates. unfold sleep_groups, heart_groups.
    rewrite !groupby_keys. destruct Hhealth as [H|H].
    + left. apply in_map. now rewrite group_keys_In.
    + right. now rewrite group_keys_In.
Qed.

(* ------------------------------------------------------------------ *)
(** * Entries without a rating *)

Local Open Scope R_scope.


Lemma dropna_In (l : list pyfloat) (x : R) : In x (dropna l) <-> In (Num x) l.
Proof.
  induction l as [|[y|] t IH]; simpl; [tauto| |].
  - rewrite IH. split; intros [H|H]; auto; left; congruence.
  - rewrite IH. split; [auto|]. intros [H|H]; [discriminate|assumption].
Qed.


(* ------------------------------------------------------------------ *)
(** * The evening subset *)

(** C6, at the failing input. The diary entry of 2024-01-01 20:00 lies in the
    evening window, so the evening subset of that date is not empty; loaded
    alone, it gives a daily row without [evening_substances] and without
    [evening_consumption_count]. Once a pulse sample of the same day is loaded
    too, the row records both. *)
Theorem evening_subset_dropped_without_health_data :
  evening_consumption (consumption_on diary_only 19723) <> []
  /\ match snd (combine_data diary_only) with
     | Some df =>
         map row_date (rows df) = [19723%Z]
         /\ map (dict_get "evening_substances") (rows df) = [None]
         /\ map (dict_get "evening_consumption_count") (rows df) = [None]
     | None => False
     end
  /\ match snd (combine_data diary_and_pulse) with
     | Some df =>
         map row_date (rows df) = [19723%Z]
         /\ map (dict_get "evening_substances") (rows df) = [Some (PList ["Alkohol"])]
         /\ map (dict_get "evening_consumption_count") (rows df) = [Some (PInt 1)]
     | None => False
     end.
Proof.
  vm_compute. repeat split; discriminate.
Qed.

(* ------------------------------------------------------------------ *)
(** * No candidate entry of the daily table is missing *)

Lemma set_all_get_cases (kvs : list (string * pyval)) (k : string) (v : pyval) :
  forall d, dict_get k (set_all kvs d) = Some v ->
            dict_get k d = Some v \/ In (k, v) kvs.
Proof.
  unfold set_all. induction kvs as [|[k1 v1] t IH]; intros d H; simpl in *; [now left|].
  destruct (IH _ H) as [H1|H1]; [|right; now right].
  destruct (String.eqb k k1) eqn:E.
  - apply String.eqb_eq in E. subst k1. rewrite dict_get_set_same in H1.
    inversion H1; subst. right. now left.
  - left. rewrite dict_get_set_other in H1; [assumption|].
    intros ->. now rewrite String.eqb_refl in E.
Qed.

Tactic Notation "float_cell_cases" ident(Hin) ident(H) :=
  cbn in Hin;
  repeat (destruct Hin as [<-|Hin];
          [cbn in H; unfold sleep_sum in H;
           first [discriminate H|inversion H; eexists; reflexivity]|]);
  destruct Hin.

Lemma sleep_record_float_cells (d : Z) (g : list SleepRow) : float_cells (sleep_record d g).
Proof.
  split; [|split; reflexivity]. intros col v Hin H. float_cell_cases Hin H.
Qed.

Lemma heart_record_float_cells (d : Z) (g : list HeartRow) : float_cells (heart_record d g).
Proof.
  split; [|split; reflexivity]. intros col v Hin H. float_cell_cases Hin H.
Qed.

Lemma consumption_record_float_cells (d : Z) (g : list ConsumptionRow) :
  float_cells (consumption_record d g).
Proof.
  split; [|split; reflexivity]. intros col v Hin H. float_cell_cases Hin H.
Qed.

Lemma set_all_float_cells (kvs : list (string * pyval)) (r : dict) :
  (forall k v, In (k, v) kvs -> In k fill_columns -> exists f, v = PFloat f) ->
  ~ In "sleep_efficiency" (map fst kvs) -> ~ In "hrv_proxy" (map fst kvs) ->
  float_cells r -> float_cells (set_all kvs r).
Proof.
  intros Hk N1 N2 (F & S & V). split; [|split].
  - intros col v Hin H. apply set_all_get_cases in H. destruct H as [H|H]; eauto.
  - now rewrite dict_get_set_all_other.
  - now rewrite dict_get_set_all_other.
Qed.

Lemma heart_update_float_cells (g : list HeartRow) (r : dict) :
  float_cells r -> float_cells (heart_update g r).
Proof.
  apply set_all_float_cells; [|not_key|not_key].
  intros k v H Hin. cbn in H.
  repeat (destruct H as [H|H]; [inversion H; subst; eauto|]); try destruct H;
    cbn in Hin; repeat (destruct Hin as [Hin|Hin]; [discriminate Hin|]); destruct Hin.
Qed.

Lemma consumption_update_float_cells (g : list ConsumptionRow) (r : dict) :
  float_cells r -> float_cells (consumption_update g r).
Proof.
  intros F. unfold consumption_update. apply set_all_float_cells.
  - intros k v H Hin. apply (in_map fst) in H. apply evening_fields_keys in H. simpl in H.
    cbn in Hin. destruct H as [-> | ->];
      repeat (destruct Hin as [Hin|Hin]; [discriminate Hin|]); destruct Hin.
  - intros C. apply evening_fields_keys in C. destruct C; discriminate.
  - intros C. apply evening_fields_keys in C. destruct C; discriminate.
  - apply set_all_float_cells; [|not_key|not_key|assumption].
    intros k v H Hin. cbn in H.
    repeat (destruct H as [H|H]; [inversion H; subst; eauto|]); try destruct H;
      cbn in Hin; repeat (destruct Hin as [Hin|Hin]; [discriminate Hin|]); destruct Hin.
Qed.

Lemma combined_records_float_cells (a : Analyzer) :
  Forall float_cells (combined_records a).
Proof.
  rewrite combined_records_unfold. apply fold_find_or_append_Forall.
  - intros g r. apply consumption_update_float_cells.
  - apply consumption_record_float_cells.
  - unfold with_heart. rewrite fold_heart_step. apply fold_find_or_append_Forall.
    + intros g r. apply heart_update_float_cells.
    + apply heart_record_float_cells.
    + unfold from_sleep. apply Forall_forall. intros r Hr.
      apply in_map_iff in Hr. destruct Hr as (g & <- & _).
      apply sleep_record_float_cells.
Qed.

Lemma fill_row_filled (present : string -> bool) (cols : list string) (col : string) :
  In col cols -> present col = true ->
  forall r,
    (forall v, dict_get col r = Some v -> exists f, v = PFloat f) ->
    exists x, dict_get col (fill_row present cols r) = Some (PFloat (Num x)).
Proof.
  intros Hin Hp. induction cols as [|c t IH]; [destruct Hin|].
  intros r Hf.
  change (fill_row present (c :: t) r)
    with (fill_row present t
            (if present c
             then dict_set c (if isna (cell r c) then PFloat (Num 0) else cell r c) r
             else r)).
  destruct (String.eqb col c) eqn:E.
  - apply String.eqb_eq in E. subst c. rewrite Hp.
    assert (exists x, (if isna (cell r col) then PFloat (Num 0) else cell r col)
                      = PFloat (Num x)) as (x & Ex).
    { unfold cell. destruct (dict_get col r) as [v|] eqn:G.
      - destruct (Hf v eq_refl) as ([y|] & ->); simpl; eauto.
      - simpl. eauto. }
    exists x. apply fill_row_get_present; [reflexivity|].
    rewrite Ex. apply dict_get_set_same.
  - assert (Hne : col <> c) by (intros ->; now rewrite String.eqb_refl in E).
    destruct Hin as [->|Hin]; [contradiction|].
    apply IH; [assumption|].
    destruct (present c); [|assumption].
    intros v. rewrite dict_get_set_other by assumption. apply Hf.
Qed.

Lemma unique_acc_In (seen l : list string) (x : string) :
  In x (unique_acc String.eqb seen l) -> In x l.
Proof.
  revert seen. induction l as [|y t IH]; intros seen; simpl; [tauto|].
  destruct (existsb (String.eqb y) seen).
  - intros H. right. eapply IH, H.
  - intros [->|H]; [now left|right; eapply IH, H].
Qed.

Lemma dict_keys_get (c : string) (r : dict) : In c (dict_keys r) -> dict_get c r <> None.
Proof.
  unfold dict_keys. induction r as [|[k v] t IH]; simpl; [tauto|].
  destruct (String.eqb c k) eqn:E; [discriminate|].
  intros [->|H]; [now rewrite String.eqb_refl in E|auto].
Qed.

(** A column of a frame built from records is a key of one of them. *)
Lemma has_column_of_records (recs : list dict) (c : string) :
  has_column (DataFrame_of_records recs) c = true ->
  exists r, In r recs /\ dict_get c r <> None.
Proof.
  unfold has_column, DataFrame_of_records. simpl. rewrite mem_str_In.
  intros H. apply unique_acc_In in H. apply in_flat_map in H.
  destruct H as (r & Hr & Hc). exists r. split; [assumption|now apply dict_keys_get].
Qed.

(** In the frame of [combine_data] every cell of a column that the
    [fillna(0)] loop covers is a number, and the two derived columns do not
    exist yet. *)
Lemma combine_frame_filled (a : Analyzer) (df : DataFrame) :
  snd (combine_data a) = Some df ->
  (forall col r, In col fill_columns -> has_column df col = true -> In r (rows df) ->
                 exists x, fcell r col = Num x)
  /\ has_column df "sleep_efficiency" = false
  /\ has_column df "hrv_proxy" = false.
Proof.
  intros E. pose proof (combine_data_spec a) as H.
  destruct (combine_data a) as [a' [df'|]]; simpl in E; [|discriminate].
  inversion E; subst df'. destruct H as (_ & Hrows & _ & Hcols).
  pose proof (combined_records_float_cells a) as F. rewrite Forall_forall in F.
  assert (Hhas : forall c, has_column df c
                           = has_column (DataFrame_of_records (combined_records a)) c).
  { intros c. unfold has_column. now rewrite Hcols. }
  split; [|split].
  - intros col r Hin Hc Hr. rewrite Hrows in Hr.
    apply (Permutation_in _ (sort_values_perm _ _)) in Hr.
    unfold filled_records in Hr. apply in_map_iff in Hr. destruct Hr as (rec & <- & Hrec).
    destruct (F rec Hrec) as (Ff & _ & _).
    rewrite Hhas in Hc.
    destruct (fill_row_filled _ fill_columns col Hin Hc rec (fun v => Ff col v Hin))
      as (x & Ex).
    exists x. unfold fcell, cell. now rewrite Ex.
  - rewrite Hhas.
    destruct (has_column (DataFrame_of_records (combined_records a)) "sleep_efficiency")
      eqn:C; [|reflexivity].
    apply has_column_of_records in C. destruct C as (r & Hr & Hn).
    destruct (F r Hr) as (_ & S & _). contradiction.
  - rewrite Hhas.
    destruct (has_column (DataFrame_of_records (combined_records a)) "hrv_proxy")
      eqn:C; [|reflexivity].
    apply has_column_of_records in C. destruct C as (r & Hr & Hn).
    destruct (F r Hr) as (_ & _ & V). contradiction.
Qed.

Local Open Scope string_scope.
Local Open Scope Z_scope.
Local Open Scope R_scope.
Local Open Scope list_scope.

(* ------------------------------------------------------------------ *)
(** * Distinct values *)

Lemma feqb_eq (a b : pyfloat) : feqb a b = true <-> a = b.
Proof. unfold feqb. destruct (pyfloat_eq_dec a b); split; congruence. Qed.

Lemma existsb_feqb (x : pyfloat) (l : list pyfloat) :
  existsb (feqb x) l = true <-> In x l.
Proof.
  rewrite existsb_exists. split.
  - intros (y & Hy & E). apply feqb_eq in E. now subst.
  - intros H. exists x. split; [assumption|now apply feqb_eq].
Qed.

Lemma unique_acc_nil (seen l : list pyfloat) :
  unique_acc feqb seen l = [] <-> (forall y, In y l -> In y seen).
Proof.
  revert seen. induction l as [|x t IH]; intros seen; simpl.
  - split; [intros _ y []|reflexivity].
  - destruct (existsb (feqb x) seen) eqn:E.
    + apply existsb_feqb in E. rewrite IH. split.
      * intros H y [<-|Hy]; auto.
      * intros H y Hy. apply H. now right.
    + split; [discriminate|]. intros H. exfalso.
      assert (In x seen) by (apply H; now left).
      apply existsb_feqb in H0. congruence.
Qed.

(** More than one distinct entry: two entries of the column differ. *)
Lemma unique_more_than_one (l : list pyfloat) :
  (1 <? List.length (unique feqb l))%nat = true <->
  exists a b, In a l /\ In b l /\ a <> b.
Proof.
  unfold unique. destruct l as [|x t]; simpl.
  - split; [discriminate|]. intros (a & _ & [] & _).
  - rewrite Nat.ltb_lt. split.
    + intros H. destruct (unique_acc feqb [x] t) as [|y r] eqn:E; [simpl in H; lia|].
      assert (Hn : ~ (forall y, In y t -> In y [x])).
      { intros C. apply unique_acc_nil in C. congruence. }
      destruct (forallb (fun y => feqb y x) t) eqn:F.
      * exfalso. apply Hn. intros z Hz. rewrite forallb_forall in F.
        apply F, feqb_eq in Hz. subst. now left.
      * assert (exists z, In z t /\ feqb z x = false) as (z & Hz & Ez).
        { clear -F. induction t as [|z t IH]; simpl in F; [discriminate|].
          destruct (feqb z x) eqn:Ez.
          - destruct (IH F) as (w & Hw & Ew). exists w. split; [now right|assumption].
          - exists z. split; [now left|assumption]. }
        exists x, z. split; [now left|]. split; [now right|].
        intros ->. assert (feqb z z = true) by now apply feqb_eq. congruence.
    + intros (a & b & Ha & Hb & Hab).
      destruct (unique_acc feqb [x] t) as [|y r] eqn:E; [|simpl; lia].
      exfalso. assert (H : forall y, In y t -> In y [x]) by now apply unique_acc_nil.
      assert (Hx : forall y, In y (x :: t) -> y = x).
      { intros y [<-|Hy]; [reflexivity|]. destruct (H y Hy) as [<-|[]]. reflexivity. }
      apply Hab. rewrite (Hx a Ha), (Hx b Hb). reflexivity.
Qed.

Lemma exists_notnan (l : list pyfloat) :
  existsb (fun v => negb (isnan v)) l = true <-> exists x, In (Num x) l.
Proof.
  rewrite existsb_exists. split.
  - intros ([x|] & Hx & E); [eauto|discriminate].
  - intros (x & Hx). exists (Num x). split; [assumption|reflexivity].
Qed.

Lemma eligible_iff (df : DataFrame) (col : string) :
  eligible df col = true <->
  has_column df col = true
  /\ (exists x, In (Num x) (fcolumn df col))
  /\ (exists a b, In a (fcolumn df col) /\ In b (fcolumn df col) /\ a <> b).
Proof.
  unfold eligible. rewrite !andb_true_iff, exists_notnan, unique_more_than_one. tauto.
Qed.

(* ------------------------------------------------------------------ *)
(** * The eligible metrics *)

Lemma filter_all {A} (p : A -> bool) (l : list A) :
  (forall x, In x l -> p x = true) -> filter p l = l.
Proof.
  induction l as [|x t IH]; intros H; simpl; [reflexivity|].
  rewrite H by now left. f_equal. apply IH. intros y Hy. apply H. now right.
Qed.

Lemma fcolumn_set_column_other (c col : string) (f : dict -> pyval) (df : DataFrame) :
  col <> c -> fcolumn (set_column c f df) col = fcolumn df col.
Proof.
  intros N. unfold fcolumn, set_column. simpl. rewrite map_map.
  apply map_ext. intros r. unfold fcell, cell. now rewrite dict_get_set_other.
Qed.

Lemma fcolumn_set_column_same (c : string) (f : dict -> pyval) (df : DataFrame) :
  fcolumn (set_column c f df) c = map (fun r => to_float (f r)) (rows df).
Proof.
  unfold fcolumn, set_column. simpl. rewrite map_map.
  apply map_ext. intros r. unfold fcell, cell. now rewrite dict_get_set_same.
Qed.

Lemma has_column_set_column (c col : string) (f : dict -> pyval) (df : DataFrame) :
  has_column (set_column c f df) col = has_column df col || String.eqb col c.
Proof.
  unfold has_column, set_column. simpl. unfold has_column.
  destruct (mem_str c (columns df)) eqn:E.
  - destruct (String.eqb col c) eqn:E'; [|now rewrite orb_false_r].
    apply String.eqb_eq in E'. subst. now rewrite E.
  - unfold mem_str. rewrite existsb_app. simpl. now rewrite orb_false_r.
Qed.





(* ------------------------------------------------------------------ *)
(** * Pearson's coefficient *)

Lemma Rsum_sq_nonneg {A} (f : A -> R) (l : list A) :
  0 <= Rsum (map (fun p => f p * f p) l).
Proof.
  induction l as [|x t IH]; simpl; [lra|]. nra.
Qed.

Lemma Rle_of_squares (x t : R) : 0 <= t -> x * x <= t * t -> x <= t.
Proof. intros Ht H. nra. Qed.

(** Cauchy-Schwarz on the paired deviations. *)
Lemma cauchy_schwarz {A} (f g : A -> R) (l : list A) :
  Rsum (map (fun p => f p * g p) l) * Rsum (map (fun p => f p * g p) l)
  <= Rsum (map (fun p => f p * f p) l) * Rsum (map (fun p => g p * g p) l).
Proof.
  induction l as [|x t IH]; simpl; [lra|].
  pose proof (Rsum_sq_nonneg f t) as Hf. pose proof (Rsum_sq_nonneg g t) as Hg.
  set (sab := Rsum (map (fun p => f p * g p) t)) in *.
  set (saa := Rsum (map (fun p => f p * f p) t)) in *.
  set (sbb := Rsum (map (fun p => g p * g p) t)) in *.
  set (a := f x). set (b := g x).
  assert (H : 2 * (sab * (a * b)) <= saa * (b * b) + (a * a) * sbb).
  { apply Rle_of_squares.
    - pose proof (Rle_0_sqr a) as Ha. pose proof (Rle_0_sqr b) as Hb.
      unfold Rsqr in Ha, Hb.
      apply Rplus_le_le_0_compat; apply Rmult_le_pos; assumption.
    - assert (H1 : (2 * (sab * (a * b))) * (2 * (sab * (a * b)))
                   = 4 * (sab * sab) * ((a * a) * (b * b))) by ring.
      assert (H2 : 4 * (sab * sab) * ((a * a) * (b * b))
                   <= 4 * (saa * sbb) * ((a * a) * (b * b))).
      { pose proof (Rle_0_sqr (a * b)) as Hsq. unfold Rsqr in Hsq.
        assert (Hab : (a * a) * (b * b) = (a * b) * (a * b)) by ring.
        rewrite Hab. apply Rmult_le_compat_r; [assumption|]. fold sab saa sbb in IH. lra. }
      assert (H3 : 4 * (saa * sbb) * ((a * a) * (b * b))
                   <= (saa * (b * b) + (a * a) * sbb) * (saa * (b * b) + (a * a) * sbb)).
      { pose proof (Rle_0_sqr (saa * (b * b) - (a * a) * sbb)) as Hsq.
        unfold Rsqr in Hsq. lra. }
      lra. }
  nra.
Qed.

Lemma sum_sq_dev_fst (m : R) (l : list (R * R)) :
  sum_sq_dev m (map fst l) = Rsum (map (fun p => (fst p - m) * (fst p - m)) l).
Proof. unfold sum_sq_dev. now rewrite map_map. Qed.

Lemma sum_sq_dev_snd (m : R) (l : list (R * R)) :
  sum_sq_dev m (map snd l) = Rsum (map (fun p => (snd p - m) * (snd p - m)) l).
Proof. unfold sum_sq_dev. now rewrite map_map. Qed.

Lemma Reqb_false (x y : R) : Reqb x y = false <-> x <> y.
Proof. unfold Reqb. destruct (Req_dec_T x y); split; congruence. Qed.

Lemma Rltb_true (x y : R) : Rltb x y = true <-> x < y.
Proof. unfold Rltb. destruct (Rlt_dec x y); split; congruence. Qed.

Lemma Rltb_false (x y : R) : Rltb x y = false <-> ~ x < y.
Proof. unfold Rltb. destruct (Rlt_dec x y); split; congruence. Qed.

Lemma Rleb_true (x y : R) : Rleb x y = true <-> x <= y.
Proof. unfold Rleb. destruct (Rle_dec x y); split; congruence. Qed.

(** A coefficient that is a number lies between -1 and 1. *)
Lemma pearson_bound (l : list (R * R)) (c : R) :
  pearson l = Num c -> -1 <= c <= 1.
Proof.
  unfold pearson.
  set (mx := Rmean (map fst l)). set (my := Rmean (map snd l)).
  rewrite sum_sq_dev_fst, sum_sq_dev_snd.
  set (sxy := Rsum (map (fun p => (fst p - mx) * (snd p - my)) l)).
  set (sxx := Rsum (map (fun p => (fst p - mx) * (fst p - mx)) l)).
  set (syy := Rsum (map (fun p => (snd p - my) * (snd p - my)) l)).
  destruct (Reqb sxx 0) eqn:Ex; [discriminate|].
  destruct (Reqb syy 0) eqn:Ey; [discriminate|].
  intros H. inversion H as [Hc]. clear H.
  apply Reqb_false in Ex, Ey.
  assert (Hxx : 0 < sxx).
  { pose proof (Rsum_sq_nonneg (fun p : R * R => fst p - mx) l : 0 <= sxx). lra. }
  assert (Hyy : 0 < syy).
  { pose proof (Rsum_sq_nonneg (fun p : R * R => snd p - my) l : 0 <= syy). lra. }
  pose proof (cauchy_schwarz (fun p : R * R => fst p - mx) (fun p => snd p - my) l
              : sxy * sxy <= sxx * syy) as CS.
  set (d := sqrt sxx * sqrt syy).
  assert (Hd : 0 < d) by (apply Rmult_lt_0_compat; now apply sqrt_lt_R0).
  assert (Hdd : d * d = sxx * syy).
  { unfold d. transitivity ((sqrt sxx * sqrt sxx) * (sqrt syy * sqrt syy)); [ring|].
    rewrite !sqrt_sqrt by lra. reflexivity. }
  assert (Hup : sxy <= d) by (apply Rle_of_squares; lra).
  assert (Hlo : - sxy <= d) by (apply Rle_of_squares; [lra|]; nra).
  assert (Hinv : 0 < / d) by now apply Rinv_0_lt_compat.
  unfold Rdiv. split.
  - apply (Rmult_le_reg_r d); [assumption|].
    rewrite Rmult_assoc, Rinv_l by lra. lra.
  - apply (Rmult_le_reg_r d); [assumption|].
    rewrite Rmult_assoc, Rinv_l by lra. lra.
Qed.

(* ------------------------------------------------------------------ *)
(** * The pairs and their keys *)

Lemma pairs_In (l : list string) (a b : string) :
  In (a, b) (pairs l) -> In a l /\ In b l.
Proof.
  induction l as [|c t IH]; simpl; [tauto|].
  rewrite in_app_iff, in_map_iff. intros [(x & E & Hx)|H].
  - inversion E; subst. auto.
  - destruct (IH H). auto.
Qed.

Lemma pairs_antisym (l : list string) (a b : string) :
  NoDup l -> In (a, b) (pairs l) -> ~ In (b, a) (pairs l).
Proof.
  induction l as [|c t IH]; simpl; [tauto|].
  intros ND. inversion ND as [|? ? Hc NDt]; subst.
  rewrite !in_app_iff, !in_map_iff.
  intros [(x & E & Hx)|H] [(y & E' & Hy)|H'].
  - inversion E; inversion E'; subst. contradiction.
  - inversion E; subst. apply pairs_In in H'. tauto.
  - inversion E'; subst. apply pairs_In in H. tauto.
  - now apply (IH NDt H).
Qed.

Lemma pairs_NoDup (l : list string) : NoDup l -> NoDup (pairs l).
Proof.
  induction l as [|c t IH]; simpl; intros ND; [constructor|].
  inversion ND as [|? ? Hc NDt]; subst.
  apply NoDup_app.
  - clear -NDt. induction NDt as [|x t Hx _ IH]; simpl; constructor; [|assumption].
    rewrite in_map_iff. intros (y & E & Hy). inversion E; subst. contradiction.
  - auto.
  - intros [a b] H1 H2. apply in_map_iff in H1. destruct H1 as (x & E & Hx).
    inversion E; subst. apply pairs_In in H2. tauto.
Qed.

Lemma candidate_columns_NoDup : NoDup candidate_columns.
Proof.
  unfold candidate_columns. repeat constructor; cbn; intuition discriminate.
Qed.

Lemma NoDup_filter {A} (p : A -> bool) (l : list A) : NoDup l -> NoDup (filter p l).
Proof.
  induction 1 as [|x t Hx _ IH]; simpl; [constructor|].
  destruct (p x); [|assumption]. constructor; [|assumption].
  rewrite filter_In. tauto.
Qed.

Lemma numeric_cols_NoDup (df : DataFrame) : NoDup (numeric_cols df).
Proof. apply NoDup_filter, candidate_columns_NoDup. Qed.

Lemma numeric_cols_candidates (df : DataFrame) (c : string) :
  In c (numeric_cols df) -> In c candidate_columns.
Proof. unfold numeric_cols. rewrite filter_In. tauto. Qed.

Lemma pair_eqb_eq (p q : string * string) : pair_eqb p q = true -> p = q.
Proof.
  destruct p, q. unfold pair_eqb. simpl. rewrite andb_true_iff, !String.eqb_eq.
  intros [-> ->]. reflexivity.
Qed.

Lemma candidate_keys_injective (a b c d : string) :
  In a candidate_columns -> In b candidate_columns ->
  In c candidate_columns -> In d candidate_columns ->
  corr_key (a, b) = corr_key (c, d) -> (a, b) = (c, d).
Proof.
  intros Ha Hb Hc Hd E.
  assert (H : keys_injective_on (list_prod candidate_columns candidate_columns) = true)
    by (vm_compute; reflexivity).
  unfold keys_injective_on in H. rewrite forallb_forall in H.
  specialize (H (a, b) (proj2 (in_prod_iff _ _ _ _) (conj Ha Hb))).
  rewrite forallb_forall in H.
  specialize (H (c, d) (proj2 (in_prod_iff _ _ _ _) (conj Hc Hd))).
  rewrite E, String.eqb_refl in H. simpl in H. now apply pair_eqb_eq.
Qed.

(* ------------------------------------------------------------------ *)
(** * The dict of correlations *)

Lemma assoc_set_fresh {V} (k : string) (v : V) (d : list (string * V)) :
  ~ In k (map fst d) -> assoc_set k v d = d ++ [(k, v)].
Proof.
  induction d as [|[k' v'] t IH]; simpl; intros N; [reflexivity|].
  destruct (String.eqb k k') eqn:E.
  - apply String.eqb_eq in E. exfalso. apply N. now left.
  - f_equal. apply IH. intros C. apply N. now right.
Qed.

Lemma assoc_get_In {V} (k : string) (v : V) (d : list (string * V)) :
  assoc_get k d = Some v -> In (k, v) d.
Proof.
  induction d as [|[k' v'] t IH]; simpl; [discriminate|].
  destruct (String.eqb k k') eqn:E.
  - apply String.eqb_eq in E. intros H. inversion H; subst. now left.
  - intros H. right. now apply IH.
Qed.

Lemma fold_assoc_set {A V} (f : A -> option (string * V)) (l : list A) :
  forall acc,
    NoDup (map fst acc ++ map fst (filter_map f l)) ->
    fold_left (fun acc p => match f p with
                            | Some (key, info) => assoc_set key info acc
                            | None => acc
                            end) l acc
    = acc ++ filter_map f l.
Proof.
  induction l as [|x t IH]; intros acc ND; simpl; [now rewrite app_nil_r|].
  destruct (f x) as [[k v]|] eqn:E; simpl in ND; rewrite E in ND; simpl in ND.
  - rewrite assoc_set_fresh.
    + rewrite IH; [now rewrite <- app_assoc|].
      rewrite map_app. simpl. rewrite <- app_assoc. exact ND.
    + intros C. apply NoDup_remove_2 in ND. apply ND. apply in_or_app. now left.
  - now apply IH.
Qed.

Lemma filter_map_In {A B} (f : A -> option B) (l : list A) (y : B) :
  In y (filter_map f l) <-> exists x, In x l /\ f x = Some y.
Proof.
  induction l as [|x t IH]; simpl.
  - split; [tauto|]. intros (x & [] & _).
  - destruct (f x) as [z|] eqn:E; simpl; rewrite IH; split.
    + intros [<-|(x' & Hx' & E')]; [exists x; auto|exists x'; auto].
    + intros (x' & [<-|Hx'] & E'); [left; congruence|right; eauto].
    + intros (x' & Hx' & E'). exists x'. auto.
    + intros (x' & [<-|Hx'] & E'); [congruence|eauto].
Qed.

Lemma correlation_entry_spec (df : DataFrame) (col1 col2 key : string)
    (info : CorrelationInfo) :
  correlation_entry df col1 col2 = Some (key, info) ->
  key = corr_key (col1, col2)
  /\ (3 <= List.length (valid_data df col1 col2))%nat
  /\ pearson (valid_data df col1 col2) = Num (correlation info)
  /\ n info = List.length (valid_data df col1 col2)
  /\ 0.3 < Rabs (correlation info).
Proof.
  unfold correlation_entry.
  destruct (3 <=? List.length (valid_data df col1 col2))%nat eqn:E3; [|discriminate].
  destruct (pearson (valid_data df col1 col2)) as [c|] eqn:Ep; [|discriminate].
  destruct (Rltb 0.3 (Rabs c)) eqn:Ec; [|discriminate].
  intros H. inversion H; subst. simpl.
  apply Nat.leb_le in E3. apply Rltb_true in Ec. auto.
Qed.

Lemma correlation_entry_none (df : DataFrame) (col1 col2 : string) :
  (List.length (valid_data df col1 col2) < 3)%nat
  \/ pearson (valid_data df col1 col2) = NaN ->
  correlation_entry df col1 col2 = None.
Proof.
  unfold correlation_entry. intros [H|H].
  - apply Nat.leb_gt in H. now rewrite H.
  - rewrite H. now destruct (3 <=? _)%nat.
Qed.

Lemma entries_keys_NoDup (df : DataFrame) (ps : list (string * string)) :
  NoDup ps ->
  (forall a b, In (a, b) ps -> In a candidate_columns /\ In b candidate_columns) ->
  NoDup (map fst (filter_map (fun p => correlation_entry df (fst p) (snd p)) ps)).
Proof.
  induction 1 as [|[a b] t Hx ND IH]; intros Hc; simpl; [constructor|].
  assert (Hct : forall a b, In (a, b) t -> In a candidate_columns /\ In b candidate_columns)
    by (intros; apply Hc; now right).
  destruct (correlation_entry df a b) as [[k info]|] eqn:E; [|auto].
  simpl. constructor; [|auto].
  intros C. apply in_map_iff in C. destruct C as ([k' info'] & Ek & Hin).
  simpl in Ek. subst k'. apply filter_map_In in Hin.
  destruct Hin as ([c d] & Hcd & E'). simpl in E'.
  apply correlation_entry_spec in E, E'.
  destruct E as [-> _], E' as [E' _].
  destruct (Hc a b (or_introl eq_refl)) as [Ha Hb]. destruct (Hct c d Hcd) as [Hc' Hd'].
  apply candidate_keys_injective in E'; auto. inversion E'; subst. contradiction.
Qed.

Lemma numeric_pairs_candidates (df : DataFrame) (a b : string) :
  In (a, b) (pairs (numeric_cols df)) -> In a candidate_columns /\ In b candidate_columns.
Proof.
  intros H. apply pairs_In in H. destruct H. split; eapply numeric_cols_candidates; eauto.
Qed.

Lemma correlations_of_entries (df : DataFrame) :
  correlations_of df (numeric_cols df)
  = filter_map (fun p => correlation_entry df (fst p) (snd p)) (pairs (numeric_cols df)).
Proof.
  unfold correlations_of.
  rewrite (fold_assoc_set (fun p => correlation_entry df (fst p) (snd p))); [reflexivity|].
  simpl. apply entries_keys_NoDup.
  - apply pairs_NoDup, numeric_cols_NoDup.
  - apply numeric_pairs_candidates.
Qed.

(** C2. In every daily table, each entry of [correlations] has a coefficient
    between -1 and 1 whose absolute value exceeds 0.3 and a sample size of at
    least 3, the size and the coefficient being those of the rows where both
    metrics are present; a pair of candidate metrics with fewer than 3 such
    rows, or with an undefined coefficient, has no entry; no key occurs twice,
    and a pair never has an entry in both orders. *)
Theorem correlation_records_sound (lib : Library) (combined : DataFrame) :
  let df := add_hrv_proxy (add_sleep_efficiency combined) in
  let found := correlations (correlation_success lib combined) in
  (forall key info,
     In (key, info) found ->
     -1 <= correlation info <= 1
     /\ (3 <= n info)%nat
     /\ 0.3 < Rabs (correlation info)
     /\ exists col1 col2,
          In (col1, col2) (pairs (numeric_cols df))
          /\ key = corr_key (col1, col2)
          /\ n info = List.length (valid_data df col1 col2)
          /\ pearson (valid_data df col1 col2) = Num (correlation info))
  /\ (forall col1 col2,
        In col1 candidate_columns -> In col2 candidate_columns ->
        (List.length (valid_data df col1 col2) < 3)%nat
        \/ pearson (valid_data df col1 col2) = NaN ->
        assoc_get (corr_key (col1, col2)) found = None)
  /\ NoDup (map fst found)
  /\ (forall col1 col2,
        In col1 candidate_columns -> In col2 candidate_columns ->
        assoc_get (corr_key (col1, col2)) found <> None ->
        assoc_get (corr_key (col2, col1)) found = None).
Proof.
  intros df found.
  assert (Hfound : found = filter_map (fun p => correlation_entry df (fst p) (snd p))
                                      (pairs (numeric_cols df))).
  { unfold found. apply correlations_of_entries. }
  assert (Hsrc : forall key info, In (key, info) found ->
            exists col1 col2, In (col1, col2) (pairs (numeric_cols df))
                              /\ correlation_entry df col1 col2 = Some (key, info)).
  { intros key info H. rewrite Hfound in H. apply filter_map_In in H.
    destruct H as ([c1 c2] & Hp & E). eauto. }
  assert (Hget : forall col1 col2 info,
            In col1 candidate_columns -> In col2 candidate_columns ->
            assoc_get (corr_key (col1, col2)) found = Some info ->
            In (col1, col2) (pairs (numeric_cols df))
            /\ correlation_entry df col1 col2 = Some (corr_key (col1, col2), info)).
  { intros col1 col2 info H1 H2 E. apply assoc_get_In in E.
    destruct (Hsrc _ _ E) as (c1 & c2 & Hp & Ec).
    destruct (numeric_pairs_candidates df c1 c2 Hp) as [Hc1 Hc2].
    pose proof (correlation_entry_spec _ _ _ _ _ Ec) as (Ek & _).
    apply candidate_keys_injective in Ek; auto. inversion Ek; subst. auto. }
  split; [|split; [|split]].
  - intros key info H. destruct (Hsrc key info H) as (c1 & c2 & Hp & Ec).
    destruct (correlation_entry_spec _ _ _ _ _ Ec) as (Ek & H3 & Hp' & Hn & Habs).
    split; [now apply (pearson_bound (valid_data df c1 c2))|].
    split; [lia|]. split; [assumption|].
    exists c1, c2. auto.
  - intros col1 col2 H1 H2 Hbad.
    destruct (assoc_get (corr_key (col1, col2)) found) as [info|] eqn:E; [|reflexivity].
    destruct (Hget col1 col2 info H1 H2 E) as [_ Ec].
    rewrite (correlation_entry_none df col1 col2 Hbad) in Ec. discriminate.
  - rewrite Hfound. apply entries_keys_NoDup.
    + apply pairs_NoDup, numeric_cols_NoDup.
    + apply numeric_pairs_candidates.
  - intros col1 col2 H1 H2 Hsome.
    destruct (assoc_get (corr_key (col1, col2)) found) as [info|] eqn:E; [|congruence].
    destruct (assoc_get (corr_key (col2, col1)) found) as [info'|] eqn:E'; [|reflexivity].
    destruct (Hget col1 col2 info H1 H2 E) as [Hp _].
    destruct (Hget col2 col1 info' H2 H1 E') as [Hp' _].
    exfalso. now apply (pairs_antisym (numeric_cols df) col1 col2 (numeric_cols_NoDup df)).
Qed.

(* ------------------------------------------------------------------ *)
(** * A table with one correlation *)

Lemma pearson_sleep_pulse :
  pearson [(400, 70); (450, 65); (500, 60)] = Num (-1).
Proof.
  unfold pearson.
  assert (Mx : Rmean (map fst [(400, 70); (450, 65); (500, 60)]) = 450)
    by (unfold Rmean, INRlen; simpl; lra).
  assert (My : Rmean (map snd [(400, 70); (450, 65); (500, 60)]) = 65)
    by (unfold Rmean, INRlen; simpl; lra).
  rewrite Mx, My. unfold sum_sq_dev. simpl.
  replace ((400 - 450) * (400 - 450) + ((450 - 450) * (450 - 450)
            + ((500 - 450) * (500 - 450) + 0))) with 5000 by lra.
  replace ((70 - 65) * (70 - 65) + ((65 - 65) * (65 - 65)
            + ((60 - 65) * (60 - 65) + 0))) with 50 by lra.
  replace ((400 - 450) * (70 - 65) + ((450 - 450) * (65 - 65)
            + ((500 - 450) * (60 - 65) + 0))) with (-500) by lra.
  assert (E1 : Reqb 5000 0 = false) by (apply Reqb_false; lra).
  assert (E2 : Reqb 50 0 = false) by (apply Reqb_false; lra).
  rewrite E1, E2. f_equal.
  rewrite <- sqrt_mult by lra.
  replace (5000 * 50) with (500 * 500) by lra.
  rewrite sqrt_square by lra. lra.
Qed.

(** The three days of [sleep_pulse_frame] give one entry: sleep and pulse are
    in exact inverse step, the coefficient is -1 on 3 rows. *)
Lemma sleep_pulse_correlation (lib : Library) :
  numeric_columns (correlation_success lib sleep_pulse_frame)
  = ["total_sleep_min"; "avg_heart_rate"]
  /\ correlations (correlation_success lib sleep_pulse_frame)
     = [ ("total_sleep_min_avg_heart_rate",
          {| correlation := -1; n := 3;
             interpretation := "Mehr Schlaf → Niedrigere Herzfrequenz" |}) ].
Proof.
  change (numeric_columns (correlation_success lib sleep_pulse_frame))
    with (numeric_cols sleep_pulse_frame).
  change (correlations (correlation_success lib sleep_pulse_frame))
    with (correlations_of sleep_pulse_frame (numeric_cols sleep_pulse_frame)).
  assert (Es : eligible sleep_pulse_frame "total_sleep_min" = true).
  { apply eligible_iff. split; [reflexivity|]. split.
    - exists 400. cbn. now left.
    - exists (Num 400), (Num 450). cbn. split; [now left|]. split; [right; now left|].
      intros H. inversion H. lra. }
  assert (Eh : eligible sleep_pulse_frame "avg_heart_rate" = true).
  { apply eligible_iff. split; [reflexivity|]. split.
    - exists 70. cbn. now left.
    - exists (Num 70), (Num 65). cbn. split; [now left|]. split; [right; now left|].
      intros H. inversion H. lra. }
  assert (Ecols : numeric_cols sleep_pulse_frame = ["total_sleep_min"; "avg_heart_rate"]).
  { unfold numeric_cols, candidate_columns. cbn [filter]. rewrite Es, Eh. reflexivity. }
  rewrite Ecols. split; [reflexivity|].
  unfold correlations_of. cbn [pairs map app fold_left fst snd].
  unfold correlation_entry.
  change (valid_data sleep_pulse_frame "total_sleep_min" "avg_heart_rate")
    with [(400, 70); (450, 65); (500, 60)].
  rewrite pearson_sleep_pulse. cbn [List.length Nat.leb].
  assert (A : Rltb 0.3 (Rabs (-1)) = true).
  { apply Rltb_true. unfold Rabs. destruct (Rcase_abs (-1)); lra. }
  rewrite A. cbn [assoc_set]. unfold _interpret_correlation. cbn [table_get pair_eqb fst snd].
  cbn. assert (B : Rltb (-1) 0 = true) by (apply Rltb_true; lra).
  rewrite B. reflexivity.
Qed.

(* ------------------------------------------------------------------ *)
(** * The entry points *)

Lemma no_data_false (df : DataFrame) : no_data (Some df) = false <-> rows df <> [].
Proof. unfold no_data. destruct (rows df); split; congruence. Qed.



Local Open Scope string_scope.
Local Open Scope Z_scope.
Local Open Scope R_scope.
Local Open Scope list_scope.

(* ------------------------------------------------------------------ *)
(** * Comparisons of floats *)

Lemma flt_true (a b : pyfloat) :
  flt a b = true <-> exists x y, a = Num x /\ b = Num y /\ x < y.
Proof.
  unfold flt, Rltb. destruct a as [x|], b as [y|];
    try (split; [discriminate|intros (? & ? & ? & ? & _); discriminate]).
  destruct (Rlt_dec x y) as [H|H].
  - split; [intros _; exists x, y; auto|reflexivity].
  - split; [discriminate|].
    intros (x' & y' & E1 & E2 & H'). inversion E1; inversion E2; subst. contradiction.
Qed.

Lemma flt_Num (a : pyfloat) (y : R) :
  flt a (Num y) = true <-> exists x, a = Num x /\ x < y.
Proof.
  rewrite flt_true. split.
  - intros (x & y' & -> & E & H). inversion E; subst. eauto.
  - intros (x & -> & H). eauto.
Qed.

Lemma fgt_Num (a : pyfloat) (y : R) :
  fgt a (Num y) = true <-> exists x, a = Num x /\ y < x.
Proof.
  unfold fgt. rewrite flt_true. split.
  - intros (y' & x & E & -> & H). inversion E; subst. eauto.
  - intros (x & -> & H). eauto.
Qed.

(* ------------------------------------------------------------------ *)
(** * The recommendations *)

Section Recommendations.

Context (lib : Library) (df : DataFrame).

Let sleep := series_mean (fcolumn df "total_sleep_min").
Let hr := series_mean (fcolumn df "avg_heart_rate").
Let cons := series_mean (fcolumn df "consumption_count").

Lemma sleep_recommendation_cases :
  (sleep_recommendation lib df = [increase_sleep_text lib sleep]
   /\ mean_below df "total_sleep_min" 360)
  \/ (sleep_recommendation lib df = [long_sleep_text lib sleep]
      /\ mean_above df "total_sleep_min" 540)
  \/ (sleep_recommendation lib df = []
      /\ ~ mean_below df "total_sleep_min" 360 /\ ~ mean_above df "total_sleep_min" 540).
Proof.
  unfold sleep_recommendation, mean_below, mean_above. fold sleep.
  destruct (has_column df "total_sleep_min").
  - destruct (flt sleep (Num 360)) eqn:E1.
    + left. apply flt_Num in E1. auto.
    + destruct (fgt sleep (Num 540)) eqn:E2.
      * right. left. apply fgt_Num in E2. auto.
      * right. right. split; [reflexivity|]. split; intros [_ H].
        -- apply flt_Num in H. congruence.
        -- apply fgt_Num in H. congruence.
  - right. right. split; [reflexivity|]. split; intros [H _]; discriminate.
Qed.

Lemma heart_rate_recommendation_cases :
  (heart_rate_recommendation lib df = [lower_heart_rate_text lib hr]
   /\ mean_above df "avg_heart_rate" 80)
  \/ (heart_rate_recommendation lib df = [] /\ ~ mean_above df "avg_heart_rate" 80).
Proof.
  unfold heart_rate_recommendation, mean_above. fold hr.
  destruct (has_column df "avg_heart_rate").
  - destruct (fgt hr (Num 80)) eqn:E.
    + left. apply fgt_Num in E. auto.
    + right. split; [reflexivity|]. intros [_ H]. apply fgt_Num in H. congruence.
  - right. split; [reflexivity|]. intros [H _]. discriminate.
Qed.

Lemma consumption_recommendation_cases :
  (consumption_recommendation lib df = [reduce_frequency_text lib cons]
   /\ mean_above df "consumption_count" 1)
  \/ (consumption_recommendation lib df = [] /\ ~ mean_above df "consumption_count" 1).
Proof.
  unfold consumption_recommendation, mean_above. fold cons.
  destruct (has_column df "consumption_count").
  - destruct (fgt cons (Num 1)) eqn:E.
    + left. apply fgt_Num in E. auto.
    + right. split; [reflexivity|]. intros [_ H]. apply fgt_Num in H. congruence.
  - right. split; [reflexivity|]. intros [H _]. discriminate.
Qed.

Lemma low_not_high (col : string) : mean_below df col 360 -> mean_above df col 540 -> False.
Proof.
  intros (_ & m & E & H) (_ & m' & E' & H'). rewrite E in E'. inversion E'; subst. lra.
Qed.

Ltac texts_differ :=
  let H := fresh in
  intros H;
  unfold increase_sleep_text, long_sleep_text, lower_heart_rate_text,
    reduce_frequency_text, no_recommendation_text in H;
  cbn in H; discriminate H.

Lemma texts_distinct (a b c d : pyfloat) :
  increase_sleep_text lib a <> long_sleep_text lib b
  /\ increase_sleep_text lib a <> lower_heart_rate_text lib c
  /\ increase_sleep_text lib a <> reduce_frequency_text lib d
  /\ increase_sleep_text lib a <> no_recommendation_text
  /\ long_sleep_text lib b <> lower_heart_rate_text lib c
  /\ long_sleep_text lib b <> reduce_frequency_text lib d
  /\ long_sleep_text lib b <> no_recommendation_text
  /\ lower_heart_rate_text lib c <> reduce_frequency_text lib d
  /\ lower_heart_rate_text lib c <> no_recommendation_text
  /\ reduce_frequency_text lib d <> no_recommendation_text.
Proof. repeat split; texts_differ. Qed.

(** The rules of the recommendations, on the means that the code takes of the
    columns of the frame. The list is never empty. It holds the text of a rule
    exactly when the rule fires: mean of the sleep column below 360, mean of
    the sleep column above 540, mean of the pulse column above 80, mean of the
    column of the number of entries above 1, each on a column the frame has and
    a mean that is a number. It is the single placeholder exactly when no rule
    fires, and it holds no other text. *)
Theorem recommendations_follow_rules :
  let recs := _generate_simple_recommendations lib df in
  recs <> []
  /\ (In (increase_sleep_text lib sleep) recs <-> mean_below df "total_sleep_min" 360)
  /\ (In (long_sleep_text lib sleep) recs <-> mean_above df "total_sleep_min" 540)
  /\ (In (lower_heart_rate_text lib hr) recs <-> mean_above df "avg_heart_rate" 80)
  /\ (In (reduce_frequency_text lib cons) recs <-> mean_above df "consumption_count" 1)
  /\ (recs = [no_recommendation_text] <->
      ~ mean_below df "total_sleep_min" 360 /\ ~ mean_above df "total_sleep_min" 540
      /\ ~ mean_above df "avg_heart_rate" 80 /\ ~ mean_above df "consumption_count" 1)
  /\ (forall s, In s recs ->
                s = increase_sleep_text lib sleep \/ s = long_sleep_text lib sleep
                \/ s = lower_heart_rate_text lib hr \/ s = reduce_frequency_text lib cons
                \/ s = no_recommendation_text).
Proof.
  intros recs. unfold recs, _generate_simple_recommendations.
  destruct (texts_distinct sleep sleep hr cons)
    as (N1 & N2 & N3 & N4 & N5 & N6 & N7 & N8 & N9 & N10).
  pose proof (low_not_high "total_sleep_min") as LH.
  destruct sleep_recommendation_cases as [[-> S]|[[-> S]|(-> & S1 & S2)]];
    destruct heart_rate_recommendation_cases as [[-> H]|[-> H]];
    destruct consumption_recommendation_cases as [[-> C]|[-> C]];
    cbn [app];
    (split; [discriminate|]);
    (split; [|split; [|split; [|split; [|split]]]]);
    cbn [In]; try solve [intuition congruence].
Qed.

End Recommendations.

(* ------------------------------------------------------------------ *)
(** * Anomalies *)

Lemma sum_sq_dev_nonneg (m : R) (l : list R) : 0 <= sum_sq_dev m l.
Proof. unfold sum_sq_dev. apply (Rsum_sq_nonneg (fun x => x - m)). Qed.

Lemma term_le_sum_sq_dev (m x : R) (l : list R) :
  In x l -> (x - m) * (x - m) <= sum_sq_dev m l.
Proof.
  unfold sum_sq_dev. induction l as [|y t IH]; simpl; [tauto|].
  pose proof (sum_sq_dev_nonneg m t) as Ht. unfold sum_sq_dev in Ht.
  pose proof (Rle_0_sqr (y - m)) as Hy. unfold Rsqr in Hy.
  intros [->|H]; [lra|]. specialize (IH H). lra.
Qed.

Lemma series_mean_Num (l : list pyfloat) (m : R) :
  series_mean l = Num m -> m = Rmean (dropna l).
Proof.
  unfold series_mean. destruct (dropna l); [discriminate|]. intros H. now inversion H.
Qed.

Lemma series_std_Num (l : list pyfloat) (s : R) :
  series_std l = Num s -> s = Rstd (dropna l) /\ (2 <= List.length (dropna l))%nat.
Proof.
  unfold series_std. destruct (dropna l) as [|x [|y t]]; try discriminate.
  intros H. inversion H. split; [reflexivity|simpl; lia].
Qed.

Lemma Rabs_le_of_squares (x t : R) : 0 <= t -> x * x <= t * t -> Rabs x <= t.
Proof.
  intros Ht H. apply Rle_of_squares; [assumption|].
  pose proof (Rsqr_abs x) as E. unfold Rsqr in E. rewrite <- E. assumption.
Qed.

(** The deviation of a value from the mean is at most [sqrt (n - 1)] sample
    standard deviations. *)
Lemma deviation_bound (l : list R) (x : R) :
  In x l -> (2 <= List.length l)%nat ->
  Rabs (x - Rmean l) <= sqrt (INRlen l - 1) * Rstd l.
Proof.
  intros Hx Hn. unfold Rstd.
  set (S := sum_sq_dev (Rmean l) l).
  assert (Hk : 1 <= INRlen l - 1).
  { unfold INRlen. apply le_INR in Hn. simpl in Hn. lra. }
  assert (HS : 0 <= S) by apply sum_sq_dev_nonneg.
  rewrite <- sqrt_mult; [|lra|].
  2:{ unfold Rdiv. apply Rmult_le_pos; [assumption|].
      apply Rlt_le, Rinv_0_lt_compat. lra. }
  replace ((INRlen l - 1) * (S / (INRlen l - 1))) with S by (field; lra).
  apply Rabs_le_of_squares; [apply sqrt_pos|].
  rewrite sqrt_sqrt by assumption. now apply term_le_sum_sq_dev.
Qed.

(** With at most five values no value lies more than two sample standard
    deviations from the mean. *)
Lemma few_values_no_outlier (l : list R) (x : R) :
  In x l -> (2 <= List.length l <= 5)%nat ->
  ~ Rabs (x - Rmean l) > 2 * Rstd l.
Proof.
  intros Hx [H2 H5] C.
  pose proof (deviation_bound l x Hx H2) as B.
  assert (Hs : 0 <= Rstd l) by (unfold Rstd; apply sqrt_pos).
  assert (Hk : sqrt (INRlen l - 1) <= 2).
  { replace 2 with (sqrt (2 * 2)) by (rewrite sqrt_square; lra).
    apply sqrt_le_1_alt. unfold INRlen. apply le_INR in H5. simpl in H5. lra. }
  assert (sqrt (INRlen l - 1) * Rstd l <= 2 * Rstd l)
    by (apply Rmult_le_compat_r; assumption).
  lra.
Qed.

Lemma std_zero_no_deviation (l : list R) (x : R) :
  In x l -> (2 <= List.length l)%nat -> Rstd l <= 0 -> Rabs (x - Rmean l) <= 0.
Proof.
  intros Hx Hn Hs. pose proof (deviation_bound l x Hx Hn) as B.
  assert (0 <= sqrt (INRlen l - 1)) by apply sqrt_pos.
  assert (0 <= Rstd l) by (unfold Rstd; apply sqrt_pos).
  assert (Rstd l = 0) by lra. rewrite H1 in B. lra.
Qed.

Lemma deviates_true (mean_hr std_hr : pyfloat) (r : dict) :
  deviates mean_hr std_hr r = true <->
  exists x m s, fcell r "avg_heart_rate" = Num x /\ mean_hr = Num m /\ std_hr = Num s
                /\ Rabs (x - m) > 2 * s.
Proof.
  unfold deviates, fgt. rewrite flt_true.
  destruct (fcell r "avg_heart_rate") as [x|], mean_hr as [m|], std_hr as [s|]; simpl;
    try (split; [intros (? & ? & ? & ? & _); discriminate
                |intros (? & ? & ? & ? & ? & ? & _); discriminate]).
  split.
  - intros (a & b & E1 & E2 & H). inversion E1; inversion E2; subst.
    exists x, m, s. auto.
  - intros (x' & m' & s' & E1 & E2 & E3 & H). inversion E1; inversion E2; inversion E3; subst.
    eauto.
Qed.

Lemma dropna_length (l : list pyfloat) : (List.length (dropna l) <= List.length l)%nat.
Proof. induction l as [|[x|] t IH]; simpl; lia. Qed.

Lemma fcell_in_dropna (df : DataFrame) (c : string) (r : dict) (x : R) :
  In r (rows df) -> fcell r c = Num x -> In x (dropna (fcolumn df c)).
Proof.
  intros Hr E. apply dropna_In. rewrite <- E. unfold fcolumn.
  now apply (in_map (fun r0 => fcell r0 c)).
Qed.

Lemma anomalies_spec (df : DataFrame) (r : dict) :
  In r (anomalies df) <->
  In r (rows df) /\ has_column df "avg_heart_rate" = true /\ deviates_by_two_std df r.
Proof.
  unfold anomalies, deviates_by_two_std.
  destruct (has_column df "avg_heart_rate"); [|simpl; intuition discriminate].
  set (col := fcolumn df "avg_heart_rate").
  destruct (fgt (series_std col) (Num 0)) eqn:G.
  - rewrite filter_In, deviates_true. split.
    + intros (Hr & x & m & s & E1 & E2 & E3 & H). split; [assumption|]. split; [reflexivity|].
      exists x, m, s. auto.
    + intros (Hr & _ & x & m & s & E1 & E2 & E3 & H). split; [assumption|].
      exists x, m, s. auto.
  - simpl. split; [tauto|]. intros (Hr & _ & x & m & s & E1 & E2 & E3 & H).
    assert (Hs : ~ 0 < s).
    { intros C. assert (fgt (series_std col) (Num 0) = true); [|congruence].
      apply fgt_Num. eauto. }
    apply series_mean_Num in E2. apply series_std_Num in E3. destruct E3 as [E3 Hn].
    subst m s.
    pose proof (fcell_in_dropna df "avg_heart_rate" r x Hr E1) as Hx. fold col in Hx.
    pose proof (std_zero_no_deviation (dropna col) x Hx Hn) as Z.
    assert (0 <= Rstd (dropna col)) by (unfold Rstd; apply sqrt_pos).
    lra.
Qed.

Lemma few_days_no_anomaly (df : DataFrame) :
  (List.length (rows df) <= 5)%nat -> anomalies df = [].
Proof.
  intros H5. apply no_elements. intros r Hr. apply anomalies_spec in Hr.
  destruct Hr as (Hr & _ & x & m & s & E1 & E2 & E3 & H).
  apply series_mean_Num in E2. apply series_std_Num in E3. destruct E3 as [E3 Hn].
  subst m s.
  pose proof (fcell_in_dropna df "avg_heart_rate" r x Hr E1) as Hx.
  apply (few_values_no_outlier _ x Hx); [|assumption].
  split; [assumption|].
  pose proof (dropna_length (fcolumn df "avg_heart_rate")) as L.
  unfold fcolumn in L at 2. rewrite length_map in L. lia.
Qed.

Lemma flagged_iff (df : DataFrame) (r : dict) :
  flagged df r = true <->
  has_column df "avg_heart_rate" = true /\ deviates_by_two_std df r.
Proof.
  unfold flagged, deviates_by_two_std. rewrite andb_true_iff, deviates_true.
  split.
  - intros (Hc & x & m & s & E1 & E2 & E3 & H). split; [assumption|]. exists x, m, s. auto.
  - intros (Hc & x & m & s & E1 & E2 & E3 & H). split; [assumption|]. exists x, m, s. auto.
Qed.

Lemma filter_ext_In_nil {A} (p : A -> bool) (l : list A) :
  (forall x, In x l -> p x = false) -> filter p l = [].
Proof.
  induction l as [|x t IH]; intros H; simpl; [reflexivity|].
  rewrite H by now left. apply IH. intros y Hy. apply H. now right.
Qed.

Lemma anomalies_filter (df : DataFrame) : anomalies df = filter (flagged df) (rows df).
Proof.
  destruct (anomalies df) as [|r0 t] eqn:E.
  - symmetry. apply filter_ext_In_nil. intros r Hr.
    destruct (flagged df r) eqn:F; [|reflexivity].
    apply flagged_iff in F. destruct F as [Hc Hd].
    assert (In r (anomalies df)) by (apply anomalies_spec; auto).
    rewrite E in H. destruct H.
  - rewrite <- E. unfold anomalies, flagged.
    unfold anomalies in E.
    destruct (has_column df "avg_heart_rate"); [|discriminate].
    destruct (fgt (series_std (fcolumn df "avg_heart_rate")) (Num 0)); [|discriminate].
    reflexivity.
Qed.

Lemma five_pulse_days_analysis (lib : Library) :
  match combined_data (fst (combine_data five_pulse_days)),
        perform_machine_learning_analysis lib (fst (combine_data five_pulse_days)) with
  | Some df, MLOk r =>
      dropna (fcolumn df "avg_heart_rate") = [60; 62; 61; 63; 150]
      /\ total_days_analyzed r = 5%nat
      /\ anomaly_days r = 0%nat
      /\ anomaly_percentage r = 0
  | _, _ => False
  end.
Proof.
  destruct (combined_data (fst (combine_data five_pulse_days))) as [df|] eqn:E;
    [|vm_compute in E; discriminate].
  assert (L : List.length (rows df) = 5%nat).
  { vm_compute in E. inversion E. reflexivity. }
  unfold perform_machine_learning_analysis. rewrite E. unfold no_data.
  destruct (rows df) as [|r0 t] eqn:Er; [discriminate|].
  cbn [total_days_analyzed anomaly_days anomaly_percentage ml_success].
  rewrite few_days_no_anomaly by (rewrite Er; lia).
  split; [|split; [rewrite Er; exact L|split; [reflexivity|]]].
  - clear -E. vm_compute in E. inversion E. subst df. cbn.
    repeat f_equal; lra.
  - rewrite Er. cbn [List.length Nat.ltb Nat.leb]. unfold INRlen. cbn [List.length INR].
    unfold Rdiv. rewrite Rmult_0_l. apply Rmult_0_l.
Qed.

(** C3, counterexample. For the five days with the pulse values 60, 62, 61, 63
    and 150 and no other data, the table has five rows with these means and the
    analysis counts no anomaly: the count is 0, not 1. *)
Lemma outlier_scenario_counts_no_anomaly :
  match combined_data (fst (combine_data five_pulse_days)),
        perform_machine_learning_analysis example_library
          (fst (combine_data five_pulse_days)) with
  | Some df, MLOk r =>
      dropna (fcolumn df "avg_heart_rate") = [60; 62; 61; 63; 150]
      /\ total_days_analyzed r = 5%nat
      /\ anomaly_days r <> 1%nat
  | _, _ => False
  end.
Proof.
  pose proof (five_pulse_days_analysis example_library) as H.
  destruct (combined_data (fst (combine_data five_pulse_days))); [|exact H].
  destruct (perform_machine_learning_analysis example_library _); [exact H|].
  destruct H as (A & B & C & _). rewrite C. repeat split; auto.
Qed.

(** C3, amended. The anomalies are exactly the rows whose mean heart rate
    deviates from the mean of the column by more than two sample standard
    deviations of the column; their number is the anomaly count, and the
    percentage is count / total days * 100, both 0 when the frame has no row or
    no heart-rate column. A table of at most five days never has an anomaly; in
    particular the count is 0 for the five days with the means 60, 62, 61, 63
    and 150. *)
Theorem anomaly_rule (lib : Library) (df : DataFrame) :
  anomalies df = filter (flagged df) (rows df)
  /\ (forall r, In r (rows df) ->
                (flagged df r = true <->
                 has_column df "avg_heart_rate" = true /\ deviates_by_two_std df r))
  /\ anomaly_days (ml_success lib df) = List.length (anomalies df)
  /\ (rows df <> [] ->
      anomaly_percentage (ml_success lib df)
      = INR (anomaly_days (ml_success lib df)) / INR (List.length (rows df)) * 100)
  /\ (rows df = [] \/ has_column df "avg_heart_rate" = false ->
      anomaly_days (ml_success lib df) = 0%nat
      /\ anomaly_percentage (ml_success lib df) = 0)
  /\ ((List.length (rows df) <= 5)%nat -> anomaly_days (ml_success lib df) = 0%nat)
  /\ match combined_data (fst (combine_data five_pulse_days)),
           perform_machine_learning_analysis lib (fst (combine_data five_pulse_days)) with
     | Some days, MLOk r =>
         dropna (fcolumn days "avg_heart_rate") = [60; 62; 61; 63; 150]
         /\ total_days_analyzed r = 5%nat
         /\ anomaly_days r = 0%nat
         /\ anomaly_percentage r = 0
     | _, _ => False
     end.
Proof.
  split; [apply anomalies_filter|].
  split; [intros r _; apply flagged_iff|].
  split; [reflexivity|].
  split; [|split; [|split; [|apply five_pulse_days_analysis]]].
  - intros Hne. cbn [anomaly_percentage anomaly_days ml_success].
    destruct (rows df) as [|r0 t] eqn:Er; [contradiction|]. reflexivity.
  - intros H. cbn [anomaly_percentage anomaly_days ml_success].
    assert (E : anomalies df = []).
    { destruct H as [H|H].
      - rewrite anomalies_filter, H. reflexivity.
      - unfold anomalies. now rewrite H. }
    rewrite E. split; [reflexivity|].
    destruct (0 <? List.length (rows df))%nat; [|reflexivity].
    unfold INRlen. cbn [List.length INR]. unfold Rdiv. rewrite Rmult_0_l. apply Rmult_0_l.
  - intros H5. cbn [anomaly_days ml_success]. now rewrite few_days_no_anomaly.
Qed.

(* ------------------------------------------------------------------ *)
(** * A table with one anomaly *)

Lemma sqrt_1350_bounds : 10 < sqrt 1350 < 37.5.
Proof.
  split.
  - replace 10 with (sqrt (10 * 10)) by (rewrite sqrt_square; lra).
    apply sqrt_lt_1_alt. lra.
  - replace 37.5 with (sqrt (37.5 * 37.5)) by (rewrite sqrt_square; lra).
    apply sqrt_lt_1_alt. lra.
Qed.

(** With six days the rule can fire: five days at 60 and one at 150 have the
    mean 75 and the sample standard deviation [sqrt 1350], about 36.7, and the
    day at 150 is the one anomaly. *)
Lemma six_days_one_anomaly (lib : Library) :
  anomalies six_days_frame = [pulse_day 19728 150]
  /\ anomaly_days (ml_success lib six_days_frame) = 1%nat.
Proof.
  assert (A : anomalies six_days_frame = [pulse_day 19728 150]).
  { unfold anomalies.
    change (has_column six_days_frame "avg_heart_rate") with true. cbv iota.
    change (fcolumn six_days_frame "avg_heart_rate")
      with [Num 60; Num 60; Num 60; Num 60; Num 60; Num 150].
    unfold series_mean, series_std. cbn [dropna].
    assert (M : Rmean [60; 60; 60; 60; 60; 150] = 75)
      by (unfold Rmean, INRlen; simpl; lra).
    assert (S : Rstd [60; 60; 60; 60; 60; 150] = sqrt 1350).
    { unfold Rstd. rewrite M. f_equal. unfold sum_sq_dev, INRlen. simpl. lra. }
    rewrite M, S. pose proof sqrt_1350_bounds as [Lo Hi].
    assert (G : fgt (Num (sqrt 1350)) (Num 0) = true) by (apply fgt_Num; exists (sqrt 1350); split; [reflexivity|lra]).
    rewrite G.
    assert (D60 : forall d, deviates (Num 75) (Num (sqrt 1350)) (pulse_day d 60) = false).
    { intros d. unfold deviates, fgt, flt. cbn. apply Rltb_false.
      unfold Rabs. destruct (Rcase_abs (60 - 75)); lra. }
    assert (D150 : deviates (Num 75) (Num (sqrt 1350)) (pulse_day 19728 150) = true).
    { unfold deviates, fgt, flt. cbn. apply Rltb_true.
      unfold Rabs. destruct (Rcase_abs (150 - 75)); lra. }
    change (rows six_days_frame)
      with [ pulse_day 19723 60; pulse_day 19724 60; pulse_day 19725 60;
             pulse_day 19726 60; pulse_day 19727 60; pulse_day 19728 150 ].
    cbn [filter]. rewrite !D60, D150. reflexivity. }
  split; [exact A|].
  cbn [anomaly_days ml_success]. rewrite A. reflexivity.
Qed.

(** [perform_machine_learning_analysis] succeeds exactly on a stored table with
    a row, and then returns [ml_success] of that table. *)
Lemma perform_machine_learning_analysis_success (lib : Library) (a : Analyzer)
    (r : MLSuccess) :
  perform_machine_learning_analysis lib a = MLOk r <->
  exists df, combined_data a = Some df /\ rows df <> [] /\ r = ml_success lib df.
Proof.
  unfold perform_machine_learning_analysis.
  destruct (combined_data a) as [df|].
  - destruct (no_data (Some df)) eqn:E.
    + split; [discriminate|]. intros (df' & H & Hne & _). inversion H; subst.
      apply no_data_false in Hne. congruence.
    + apply no_data_false in E. split.
      * intros H. inversion H. eauto.
      * intros (df' & H & _ & ->). inversion H. reflexivity.
  - split; [discriminate|]. intros (df & H & _). discriminate.
Qed.

Local Open Scope string_scope.
Local Open Scope Z_scope.
Local Open Scope R_scope.
Local Open Scope list_scope.

(* ------------------------------------------------------------------ *)
(** * Running the pipeline again *)

Lemma combined_records_ext (a b : Analyzer) :
  sleep_data a = sleep_data b ->
  heart_rate_data a = heart_rate_data b ->
  consumption_data a = consumption_data b ->
  combined_records a = combined_records b.
Proof.
  intros H1 H2 H3.
  unfold combined_records, with_heart, from_sleep, sleep_groups, heart_groups,
    consumption_groups.
  now rewrite H1, H2, H3.
Qed.

Section Rerun.

Context (lib : Library) (entries : list Entry) (health : list HealthSample).

Lemma loaded_combined (a : Analyzer) :
  combined_data (loaded lib entries health a) = combined_data a
  /\ correlation_results (loaded lib entries health a) = correlation_results a.
Proof.
  unfold loaded, load_health_data, load_consumption_data.
  destruct entries; [|destruct (filter_map (consumption_row lib) (_ :: _))];
    (destruct health; [|destruct (sleep_rows lib (_ :: _));
                         destruct (heart_rows lib (_ :: _))]);
    split; reflexivity.
Qed.

Lemma load_consumption_output (a b : Analyzer) :
  snd (load_consumption_data lib entries a) = snd (load_consumption_data lib entries b).
Proof.
  unfold load_consumption_data.
  destruct entries; [|destruct (filter_map (consumption_row lib) (_ :: _))]; reflexivity.
Qed.

Lemma loaded_series (a b : Analyzer) :
  sleep_data b = sleep_data (loaded lib entries health a) ->
  heart_rate_data b = heart_rate_data (loaded lib entries health a) ->
  consumption_data b = consumption_data (loaded lib entries health a) ->
  sleep_data (loaded lib entries health b) = sleep_data (loaded lib entries health a)
  /\ heart_rate_data (loaded lib entries health b) = heart_rate_data (loaded lib entries health a)
  /\ consumption_data (loaded lib entries health b) = consumption_data (loaded lib entries health a).
Proof.
  unfold loaded, load_health_data, load_consumption_data.
  destruct entries; [|destruct (filter_map (consumption_row lib) (_ :: _))];
    (destruct health; [|destruct (sleep_rows lib (_ :: _));
                         destruct (heart_rows lib (_ :: _))]);
    cbn; intros H1 H2 H3; repeat split; assumption || reflexivity.
Qed.

Lemma analyzer_ext (a b : Analyzer) :
  sleep_data a = sleep_data b ->
  heart_rate_data a = heart_rate_data b ->
  consumption_data a = consumption_data b ->
  combined_data a = combined_data b ->
  correlation_results a = correlation_results b ->
  a = b.
Proof. destruct a, b. simpl. intros; subst. reflexivity. Qed.

Lemma combine_data_frame (a : Analyzer) :
  sleep_data (fst (combine_data a)) = sleep_data a
  /\ heart_rate_data (fst (combine_data a)) = heart_rate_data a
  /\ consumption_data (fst (combine_data a)) = consumption_data a
  /\ correlation_results (fst (combine_data a)) = correlation_results a
  /\ combined_data (fst (combine_data a))
     = match snd (combine_data a) with
       | Some df => Some df
       | None => combined_data a
       end.
Proof.
  unfold combine_data. destruct (combined_records a); cbn; repeat split; reflexivity.
Qed.

Lemma combine_data_output (a b : Analyzer) :
  sleep_data a = sleep_data b ->
  heart_rate_data a = heart_rate_data b ->
  consumption_data a = consumption_data b ->
  snd (combine_data a) = snd (combine_data b).
Proof.
  intros H1 H2 H3. unfold combine_data.
  rewrite (combined_records_ext a b H1 H2 H3).
  destruct (combined_records b); reflexivity.
Qed.

Lemma correlation_frame (a : Analyzer) :
  sleep_data (fst (perform_correlation_analysis lib a)) = sleep_data a
  /\ heart_rate_data (fst (perform_correlation_analysis lib a)) = heart_rate_data a
  /\ consumption_data (fst (perform_correlation_analysis lib a)) = consumption_data a
  /\ combined_data (fst (perform_correlation_analysis lib a)) = combined_data a
  /\ correlation_results (fst (perform_correlation_analysis lib a))
     = match snd (perform_correlation_analysis lib a) with
       | CorrSuccess r => Some r
       | CorrNoData _ => correlation_results a
       end.
Proof.
  unfold perform_correlation_analysis.
  destruct (combined_data a) as [df|] eqn:E; [destruct (no_data (Some df))|];
    cbn; repeat split; congruence.
Qed.

Lemma correlation_output (a b : Analyzer) :
  combined_data a = combined_data b ->
  snd (perform_correlation_analysis lib a) = snd (perform_correlation_analysis lib b).
Proof.
  intros H. unfold perform_correlation_analysis. rewrite H.
  destruct (combined_data b) as [df|]; [|reflexivity].
  destruct (no_data (Some df)); reflexivity.
Qed.

Lemma ml_output (a b : Analyzer) :
  combined_data a = combined_data b ->
  perform_machine_learning_analysis lib a = perform_machine_learning_analysis lib b.
Proof. intros H. unfold perform_machine_learning_analysis. now rewrite H. Qed.

Lemma run_pipeline_unfold (a : Analyzer) :
  run_pipeline lib entries health a =
  let a3 := fst (combine_data (loaded lib entries health a)) in
  let a4 := fst (perform_correlation_analysis lib a3) in
  (a4,
   {| out_consumption := snd (load_consumption_data lib entries a);
      out_combined := snd (combine_data (loaded lib entries health a));
      out_correlation := snd (perform_correlation_analysis lib a3);
      out_ml := perform_machine_learning_analysis lib a4 |}).
Proof.
  unfold run_pipeline, loaded.
  destruct (load_consumption_data lib entries a) as [a1 c]. simpl.
  destruct (combine_data (load_health_data lib health a1)) as [a3 comb]. simpl.
  destruct (perform_correlation_analysis lib a3) as [a4 corr]. reflexivity.
Qed.

(** The order of the application ([perform_ki_therapeut_analysis], lines
    2627-2637): once [combine_data] has returned a table, the report that is
    asked for after the correlation analysis raises. *)
Lemma report_after_combine (a : Analyzer) (df : DataFrame) :
  snd (combine_data a) = Some df ->
  generate_comprehensive_report lib
    (fst (perform_correlation_analysis lib (fst (combine_data a))))
  = Raises "ValueError".
Proof.
  intros E.
  destruct (combine_data_frame a) as (_ & _ & _ & _ & Hd). rewrite E in Hd.
  destruct (correlation_frame (fst (combine_data a))) as (_ & _ & _ & Hc & _).
  unfold generate_comprehensive_report. rewrite Hc, Hd. reflexivity.
Qed.

(** C9. Running the five steps again on the same analyzer object with the same
    entries and health samples returns the same four results and leaves the
    object as the first run left it, whatever the object held before the first
    run. What the steps take from pandas and the interpreter (the parsing of a
    text, the order in which a set is listed) is a function of its argument. *)
Theorem pipeline_rerun_is_identical (a : Analyzer) :
  run_pipeline lib entries health (fst (run_pipeline lib entries health a))
  = run_pipeline lib entries health a.
Proof.
  rewrite (run_pipeline_unfold a). cbv zeta. cbn [fst].
  set (a2 := loaded lib entries health a).
  set (a3 := fst (combine_data a2)).
  set (a4 := fst (perform_correlation_analysis lib a3)).
  rewrite (run_pipeline_unfold a4). cbv zeta.
  set (b2 := loaded lib entries health a4).
  set (b3 := fst (combine_data b2)).
  set (b4 := fst (perform_correlation_analysis lib b3)).
  destruct (combine_data_frame a2) as (As & Ah & Ac & Ar & Ad). fold a3 in As, Ah, Ac, Ar, Ad.
  destruct (correlation_frame a3) as (Bs & Bh & Bc & Bd & Br). fold a4 in Bs, Bh, Bc, Bd, Br.
  destruct (loaded_series a a4) as (Ls & Lh & Lc);
    [rewrite Bs, As; reflexivity|rewrite Bh, Ah; reflexivity
    |rewrite Bc, Ac; reflexivity|].
  fold a2 b2 in Ls, Lh, Lc.
  destruct (loaded_combined a4) as [Ld Lr]. fold b2 in Ld, Lr.
  destruct (combine_data_frame b2) as (Cs & Ch & Cc & Cr & Cd). fold b3 in Cs, Ch, Cc, Cr, Cd.
  destruct (correlation_frame b3) as (Ds & Dh & Dc & Dd & Dr). fold b4 in Ds, Dh, Dc, Dd, Dr.
  assert (Ecomb : snd (combine_data b2) = snd (combine_data a2))
    by (apply combine_data_output; assumption).
  assert (Ed3 : combined_data b3 = combined_data a3).
  { rewrite Cd, Ad, Ecomb. destruct (snd (combine_data a2)); [reflexivity|].
    rewrite Ld, Bd, Ad. destruct (snd (combine_data a2)) eqn:E; congruence. }
  assert (Ecorr : snd (perform_correlation_analysis lib b3)
                  = snd (perform_correlation_analysis lib a3))
    by (apply correlation_output; assumption).
  assert (E4 : b4 = a4).
  { apply analyzer_ext; try congruence.
    rewrite Dr, Br, Ecorr. destruct (snd (perform_correlation_analysis lib a3)); [|reflexivity].
    rewrite Cr, Lr, Br.
    destruct (snd (perform_correlation_analysis lib a3)) eqn:E; congruence. }
  f_equal; [exact E4|].
  f_equal.
  - apply load_consumption_output.
  - exact Ecomb.
  - exact Ecorr.
  - now rewrite E4.
Qed.

End Rerun.

Local Open Scope string_scope.
Local Open Scope Z_scope.
Local Open Scope R_scope.
Local Open Scope list_scope.

(* ------------------------------------------------------------------ *)
(** * The recommendation on the number of entries per day *)

Lemma two_entries_table :
  exists df, snd (combine_data two_entries_in_three_days) = Some df.
Proof. eexists. vm_compute. reflexivity. Qed.

(** The table of the three days: the number of entries is missing on the two
    days without entries, while the cost and the pulse of a day without data
    read 0. *)
Lemma two_entries_columns (df : DataFrame) :
  snd (combine_data two_entries_in_three_days) = Some df ->
  map row_date (rows df) = [19723; 19724; 19725]%Z
  /\ map (dict_get "consumption_count") (rows df) = [Some (PInt 2); None; None]
  /\ has_column df "consumption_count" = true
  /\ has_column df "avg_heart_rate" = true
  /\ has_column df "total_sleep_min" = false
  /\ fcolumn df "consumption_count" = [Num 2; NaN; NaN]
  /\ fcolumn df "total_daily_cost" = [Num 0; Num 0; Num 0]
  /\ fcolumn df "avg_heart_rate" = [Num 0; Num 72; Num 72].
Proof.
  intros E. vm_compute in E. inversion E. subst df. clear E.
  split; [vm_compute; reflexivity|].
  split; [reflexivity|].
  split; [reflexivity|]. split; [reflexivity|]. split; [reflexivity|].
  split; [|split].
  - cbn. repeat f_equal.
  - cbn. repeat f_equal; lra.
  - cbn. repeat f_equal; lra.
Qed.

Lemma fgt_numbers (x y : R) : fgt (Num x) (Num y) = Rltb y x.
Proof. reflexivity. Qed.

(** C8, at the failing input. Two diary entries on 2024-01-01 and a pulse
    sample on each of the two days that follow give a table of three days with
    2 entries on the first day and none on the others, that is 2/3 entries per
    day.  The number of entries is not among the columns that [combine_data]
    fills with 0, so it is missing on the two other days and the mean of the
    column is 2: the analysis recommends to reduce the frequency, at "2.0
    entries per day".  The columns of the cost and of the pulse, which are
    filled, are averaged over all three days, and with the number of entries
    filled in the same way the list is the placeholder alone. *)
Theorem reduction_recommended_below_one_entry_per_day :
  match snd (combine_data two_entries_in_three_days),
        perform_machine_learning_analysis example_library
          (fst (combine_data two_entries_in_three_days)) with
  | Some df, MLOk r =>
      map row_date (rows df) = [19723; 19724; 19725]%Z
      /\ map (dict_get "consumption_count") (rows df) = [Some (PInt 2); None; None]
      /\ entries_per_day df = 2 / 3
      /\ series_mean (fcolumn df "consumption_count") = Num 2
      /\ recommendations r = [reduce_frequency_text example_library (Num 2)]
      /\ fcolumn df "total_daily_cost" = [Num 0; Num 0; Num 0]
      /\ series_mean (fcolumn df "avg_heart_rate") = Num 48
      /\ _generate_simple_recommendations example_library (fillna0 df "consumption_count")
         = [no_recommendation_text]
  | _, _ => False
  end.
Proof.
  destruct two_entries_table as [df E].
  destruct (combine_data_frame two_entries_in_three_days) as (_ & _ & _ & _ & Hd).
  rewrite E in *.
  destruct (two_entries_columns df E) as (Hdates & Hcount & Hc & Hh & Hs & Fc & Fcost & Fh).
  assert (Hrows : exists r1 r2 r3, rows df = [r1; r2; r3]).
  { destruct (rows df) as [|r1 [|r2 [|r3 [|r4 t]]]]; try discriminate Hdates. eauto. }
  destruct Hrows as (r1 & r2 & r3 & Hrows).
  assert (Hnd : no_data (Some df) = false) by (unfold no_data; now rewrite Hrows).
  unfold perform_machine_learning_analysis. rewrite Hd, Hnd.
  cbn [recommendations ml_success].
  assert (Mc : series_mean (fcolumn df "consumption_count") = Num 2).
  { rewrite Fc. unfold series_mean. cbn [dropna]. f_equal.
    unfold Rmean, INRlen. cbn. lra. }
  assert (Mh : series_mean (fcolumn df "avg_heart_rate") = Num 48).
  { rewrite Fh. unfold series_mean. cbn [dropna]. f_equal.
    unfold Rmean, INRlen. cbn. lra. }
  split; [exact Hdates|]. split; [exact Hcount|].
  split.
  { unfold entries_per_day.
    change (map (fun r => match fcell r "consumption_count" with
                          | Num x => x | NaN => 0 end) (rows df))
      with (map (fun v => match v with Num x => x | NaN => 0 end)
                (fcolumn df "consumption_count")) || idtac.
    unfold fcolumn in Fc.
    rewrite <- (map_map (fun r => fcell r "consumption_count")
                        (fun v => match v with Num x => x | NaN => 0 end)).
    rewrite Fc. unfold INRlen. rewrite Hrows. cbn. lra. }
  split; [exact Mc|].
  split.
  { unfold _generate_simple_recommendations, sleep_recommendation,
      heart_rate_recommendation, consumption_recommendation.
    rewrite Hs, Hh, Hc, Mc, Mh. rewrite !fgt_numbers.
    replace (Rltb 80 48) with false by (symmetry; apply Rltb_false; lra).
    replace (Rltb 1 2) with true by (symmetry; apply Rltb_true; lra).
    reflexivity. }
  split; [exact Fcost|]. split; [exact Mh|].
  rewrite Hrows in Hcount. cbn [map] in Hcount.
  injection Hcount as G1 G2 G3.
  assert (Ff : fcolumn (fillna0 df "consumption_count") "consumption_count"
               = [Num 2; Num 0; Num 0]).
  { unfold fillna0. rewrite Hc, fcolumn_set_column_same, Hrows. cbn [map].
    unfold cell. rewrite G1, G2, G3. reflexivity. }
  assert (Hother : forall c, c <> "consumption_count" ->
            has_column (fillna0 df "consumption_count") c = has_column df c
            /\ fcolumn (fillna0 df "consumption_count") c = fcolumn df c).
  { intros c Hne. unfold fillna0. rewrite Hc.
    rewrite has_column_set_column, fcolumn_set_column_other by assumption.
    split; [|reflexivity].
    destruct (String.eqb_spec c "consumption_count"); [contradiction|apply orb_false_r]. }
  destruct (Hother "total_sleep_min") as [Hs' _]; [discriminate|].
  destruct (Hother "avg_heart_rate") as [Hh' Fh']; [discriminate|].
  unfold _generate_simple_recommendations, sleep_recommendation,
    heart_rate_recommendation, consumption_recommendation.
  rewrite Hs', Hs, Hh', Hh, Fh', Mh, Ff.
  replace (has_column (fillna0 df "consumption_count") "consumption_count") with true
    by (unfold fillna0; rewrite Hc, has_column_set_column, Hc; reflexivity).
  replace (series_mean [Num 2; Num 0; Num 0]) with (Num (2 / 3))
    by (unfold series_mean; cbn [dropna]; f_equal; unfold Rmean, INRlen; cbn; lra).
  rewrite !fgt_numbers.
  replace (Rltb 80 48) with false by (symmetry; apply Rltb_false; lra).
  replace (Rltb 1 (2 / 3)) with false by (symmetry; apply Rltb_false; lra).
  reflexivity.
Qed.

(* ------------------------------------------------------------------ *)
(** * An entry without a rating, from the loader to the daily table *)


(** The frame that the loader stores, once one entry of the diary is kept. *)
Lemma load_consumption_data_stores (lib : Library) (entries : list Entry) (a : Analyzer)
    (entry : Entry) (row : ConsumptionRow) :
  In entry entries -> consumption_row lib entry = Some row ->
  load_consumption_data lib entries a
  = (set_consumption_data
       (sort_values c_datetime (filter_map (consumption_row lib) entries)) a,
     Some (sort_values c_datetime (filter_map (consumption_row lib) entries)))
  /\ In row (sort_values c_datetime (filter_map (consumption_row lib) entries)).
Proof.
  intros Hin Hrow.
  assert (Hkept : In row (filter_map (consumption_row lib) entries)).
  { apply filter_map_In. eauto. }
  split.
  - unfold load_consumption_data.
    destruct entries as [|e0 rest]; [destruct Hin|].
    destruct (filter_map (consumption_row lib) (e0 :: rest)) as [|x l];
      [destruct Hkept|reflexivity].
  - apply (Permutation_in _ (Permutation_sym (sort_values_perm _ _))). exact Hkept.
Qed.




(* ------------------------------------------------------------------ *)
(** * The eligible metrics of the tables that are analysed *)





Local Open Scope string_scope.
Local Open Scope Z_scope.
Local Open Scope R_scope.
Local Open Scope list_scope.

(* ------------------------------------------------------------------ *)
(** * How many days the anomaly rule can flag *)

(** The flagged rows of a list carry at least [c] each of the squared
    deviations of the values of the list. *)
Lemma flagged_rows_weight (m c : R) (p : dict -> bool) (l : list dict) :
  0 <= c ->
  (forall r, p r = true ->
             exists x, fcell r "avg_heart_rate" = Num x /\ c <= (x - m) * (x - m)) ->
  INR (List.length (filter p l)) * c
  <= sum_sq_dev m (dropna (map (fun r => fcell r "avg_heart_rate") l)).
Proof.
  intros Hc Hp. induction l as [|r t IH].
  - simpl. unfold sum_sq_dev. simpl. lra.
  - cbn [filter map]. destruct (p r) eqn:E.
    + destruct (Hp r E) as (x & Hx & Hcx). rewrite Hx.
      cbn [dropna List.length]. rewrite S_INR.
      unfold sum_sq_dev in *. cbn [map Rsum]. lra.
    + destruct (fcell r "avg_heart_rate") as [x|]; cbn [dropna]; [|exact IH].
      unfold sum_sq_dev in *. cbn [map Rsum].
      pose proof (Rle_0_sqr (x - m)) as Hsq. unfold Rsqr in Hsq. lra.
Qed.

Lemma Rstd_square (l : list R) :
  (2 <= List.length l)%nat ->
  Rstd l * Rstd l * (INRlen l - 1) = sum_sq_dev (Rmean l) l.
Proof.
  intros Hn. unfold Rstd.
  assert (Hpos : 0 < INRlen l - 1).
  { unfold INRlen. apply le_INR in Hn. simpl in Hn. lra. }
  rewrite sqrt_sqrt.
  - field. lra.
  - apply Rmult_le_pos; [apply sum_sq_dev_nonneg|].
    left. now apply Rinv_0_lt_compat.
Qed.

(** Either no day is flagged, or the flagged days are fewer than a quarter of
    the days of the table. *)
Lemma anomalies_count (df : DataFrame) :
  anomalies df = []
  \/ (4 * List.length (anomalies df) + 1 <= List.length (rows df))%nat.
Proof.
  unfold anomalies.
  destruct (has_column df "avg_heart_rate"); [|now left].
  set (col := fcolumn df "avg_heart_rate").
  destruct (series_std col) as [s|] eqn:Es; [|now left].
  destruct (fgt (Num s) (Num 0)) eqn:Hs; [|now left].
  right.
  apply fgt_Num in Hs. destruct Hs as (s' & Hs' & Hpos). inversion Hs'; subst s'.
  destruct (series_std_Num _ _ Es) as [Hstd Hlen].
  assert (Hrows : (List.length (dropna col) <= List.length (rows df))%nat).
  { etransitivity; [apply dropna_length|]. unfold col, fcolumn. now rewrite length_map. }
  destruct (series_mean col) as [m|] eqn:Em.
  2:{ rewrite filter_ext_In_nil; [simpl; lia|].
      intros r _. unfold deviates. now destruct (fcell r "avg_heart_rate"). }
  apply series_mean_Num in Em.
  pose proof (flagged_rows_weight m (4 * (s * s)) (deviates (Num m) (Num s)) (rows df)) as W.
  assert (Hss : 0 < s * s) by (apply Rmult_lt_0_compat; assumption).
  specialize (W ltac:(lra)).
  assert (Hdev : forall r, deviates (Num m) (Num s) r = true ->
            exists x, fcell r "avg_heart_rate" = Num x /\ 4 * (s * s) <= (x - m) * (x - m)).
  { intros r Hr. apply deviates_true in Hr.
    destruct Hr as (x & m' & s'' & Hx & Hm & Hs'' & Hgt).
    inversion Hm; inversion Hs''; subst m' s''.
    exists x. split; [assumption|].
    assert (Ha : Rabs (x - m) * Rabs (x - m) = (x - m) * (x - m)).
    { unfold Rabs. destruct (Rcase_abs (x - m)); ring. }
    rewrite <- Ha. nra. }
  specialize (W Hdev).
  change (map (fun r => fcell r "avg_heart_rate") (rows df)) with col in W.
  pose proof (Rstd_square (dropna col) Hlen) as Hsq.
  rewrite <- Hstd, <- Em in Hsq. rewrite <- Hsq in W.
  set (k := List.length (filter (deviates (Num m) (Num s)) (rows df))) in *.
  assert (Hk : 4 * INR k <= INRlen (dropna col) - 1).
  { apply Rmult_le_reg_r with (r := s * s); [assumption|]. lra. }
  unfold INRlen in Hk.
  assert (Hnat : (4 * k + 1 <= List.length (dropna col))%nat).
  { apply INR_le. rewrite plus_INR, mult_INR. simpl. lra. }
  lia.
Qed.

(** X1. Fewer than a quarter of the days of a table can be anomalies: the
    flagged days are at most a quarter of the rows, the percentage lies in
    [0, 25), and the same holds for the result of the entry point. *)
Theorem anomaly_share_below_a_quarter (lib : Library) (df : DataFrame) :
  (4 * anomaly_days (ml_success lib df) <= total_days_analyzed (ml_success lib df))%nat
  /\ 0 <= anomaly_percentage (ml_success lib df) < 25
  /\ (forall a r, perform_machine_learning_analysis lib a = MLOk r ->
                  (4 * anomaly_days r < total_days_analyzed r)%nat
                  /\ 0 <= anomaly_percentage r < 25).
Proof.
  assert (Main : forall d : DataFrame,
            (4 * List.length (anomalies d) <= List.length (rows d))%nat
            /\ (rows d <> [] -> (4 * List.length (anomalies d) < List.length (rows d))%nat)
            /\ 0 <= anomaly_percentage (ml_success lib d) < 25).
  { intros d.
    assert (Hc : (4 * List.length (anomalies d) <= List.length (rows d))%nat
                 /\ (rows d <> [] ->
                     (4 * List.length (anomalies d) < List.length (rows d))%nat)).
    { destruct (anomalies_count d) as [E|H].
      - rewrite E. simpl. split; [lia|]. intros Hne. destruct (rows d); [congruence|simpl; lia].
      - split; [lia|]. intros _. lia. }
    destruct Hc as [Hle Hlt]. split; [exact Hle|]. split; [exact Hlt|].
    unfold ml_success. cbn [anomaly_percentage].
    destruct (rows d) as [|r0 t] eqn:Er.
    - simpl. lra.
    - assert (Hn : (4 * List.length (anomalies d) < List.length (r0 :: t))%nat)
        by (apply Hlt; discriminate).
      replace (0 <? List.length (r0 :: t))%nat with true
        by (symmetry; apply Nat.ltb_lt; simpl; lia).
      unfold INRlen.
      set (k := List.length (anomalies d)) in *.
      set (n := List.length (r0 :: t)) in *.
      assert (Hn0 : 0 < INR n) by (apply lt_0_INR; lia).
      assert (Hk0 : 0 <= INR k) by apply pos_INR.
      assert (Hkn : 4 * INR k < INR n).
      { apply lt_INR in Hn. rewrite mult_INR in Hn.
        replace (INR 4) with 4 in Hn by (simpl; lra). exact Hn. }
      split.
      + apply Rmult_le_pos; [|lra]. apply Rmult_le_pos; [assumption|].
        left. now apply Rinv_0_lt_compat.
      + apply Rmult_lt_reg_r with (r := INR n); [assumption|].
        field_simplify; lra. }
  destruct (Main df) as (H1 & _ & H3).
  split; [exact H1|]. split; [exact H3|].
  intros a r Hr. apply perform_machine_learning_analysis_success in Hr.
  destruct Hr as (d & _ & Hne & ->).
  destruct (Main d) as (_ & H2 & H4). split; [|exact H4].
  now apply H2.
Qed.

(* ------------------------------------------------------------------ *)
(** * The wording of a correlation and of a substance effect *)

(** X2. The interpretation of a correlation does not depend on the order in
    which the two columns are given. *)
Theorem interpretation_is_symmetric (col1 col2 : string) (corr : R) :
  _interpret_correlation col1 col2 corr = _interpret_correlation col2 col1 corr.
Proof.
  unfold _interpret_correlation, table_get, pair_eqb. cbn [fst snd].
  repeat match goal with
         | |- context [String.eqb ?a ?b] =>
             destruct (String.eqb_spec a b); subst; cbn [andb]
         end;
    try reflexivity; try congruence.
Qed.







(* ------------------------------------------------------------------ *)
(** * The warnings on the table of combine_data *)

(** X4. On the table that [combine_data] stores, the warning about alcohol and
    sleep efficiency is never issued: the table has no [sleep_efficiency]
    column (the correlation analysis adds it to a copy of its own), so at most
    the warning about high pulse with little sleep is given. *)
Theorem alcohol_warning_never_issued (lib : Library) (a : Analyzer) :
  match snd (combine_data a) with
  | Some df =>
      has_column df "sleep_efficiency" = false
      /\ (_identify_risk_factors lib df = []
          \/ exists k, (3 < k)%nat
               /\ _identify_risk_factors lib df
                  = [ ("An " ++ string_of_nat k
                        ++ " Tagen kombinierte sich hohe Herzfrequenz (>85 bpm) mit wenig Schlaf (<5h)")%string ])
  | None => True
  end.
Proof.
  destruct (snd (combine_data a)) as [df|] eqn:E; [|exact I].
  destruct (combine_frame_filled a df E) as (_ & Hse & _).
  split; [exact Hse|].
  unfold _identify_risk_factors. rewrite Hse, andb_false_r.
  assert (Hal : (if has_column df "substances_today" then @nil string else []) = [])
    by (destruct (has_column df "substances_today"); reflexivity).
  rewrite Hal, app_nil_r.
  destruct (has_column df "avg_heart_rate" && has_column df "total_sleep_min");
    [|now left].
  set (days := filter _ (rows df)).
  destruct (3 <? List.length days)%nat eqn:Hk; [|now left].
  right. exists (List.length days). split; [now apply Nat.ltb_lt|reflexivity].
Qed.

Local Open Scope string_scope.
Local Open Scope Z_scope.
Local Open Scope R_scope.
Local Open Scope list_scope.

(* ------------------------------------------------------------------ *)
(** * Validation of a diary entry and the loader of the analyzer *)

Lemma validate_entry_nil (rt : Runtime) (lib : Library) (entry : Entry) :
  validate_entry rt lib entry = [] ->
  substance_error rt entry = [] /\ date_error rt entry = []
  /\ cost_error lib entry = [] /\ rating_error entry = [].
Proof.
  unfold validate_entry. intros H.
  apply app_eq_nil in H. destruct H as [H1 H].
  apply app_eq_nil in H. destruct H as [H2 H].
  apply app_eq_nil in H. destruct H as [H3 H4]. auto.
Qed.

Lemma is_number_py_float (lib : Library) (v : pyval) :
  is_number v = true -> py_float lib v = Some (to_float v).
Proof. destruct v; simpl; intros H; try discriminate; reflexivity. Qed.

Lemma fle_Num (a b : pyfloat) :
  fle a b = true -> exists x y, a = Num x /\ b = Num y /\ x <= y.
Proof.
  unfold fle. destruct a as [x|], b as [y|]; try discriminate.
  intros H. exists x, y. repeat split. unfold Rleb in H.
  destruct (Rle_dec x y); [assumption|discriminate].
Qed.

(** X5. An entry of the diary that passes [validate_entry] is never dropped by
    the loader of the analyzer for its rating or its cost: once its date and
    time give a timestamp, [load_consumption_data] stores a frame that holds
    its row, with the substance as type, a rating between 1 and 5 and a cost
    that is not negative. *)
Theorem validated_entry_is_loaded (rt : Runtime) (lib : Library) (diary : list Entry)
    (a : Analyzer) (entry : Entry) (t : Z) :
  In entry diary ->
  validate_entry rt lib entry = [] ->
  _parse_timestamp lib (get (e_date entry) "") (get (e_time entry) "00:00") = Some t ->
  exists stored row rating,
    load_consumption_data lib diary a = (set_consumption_data stored a, Some stored)
    /\ consumption_data (fst (load_consumption_data lib diary a)) = Some stored
    /\ In row stored
    /\ c_datetime row = t
    /\ e_substance entry = Some (c_type row)
    /\ c_rating row = Num rating /\ 1 <= rating <= 5
    /\ flt (c_cost row) (Num 0) = false.
Proof.
  intros Hin Hv Ht. apply validate_entry_nil in Hv.
  destruct Hv as (Hs & _ & Hc & Hr).
  unfold rating_error in Hr.
  destruct (is_number (get (e_rating entry) (PInt 0))) eqn:En; [|discriminate].
  cbn [negb orb] in Hr.
  destruct (fle (Num 1) (to_float (get (e_rating entry) (PInt 0)))) eqn:E1;
    [|discriminate].
  destruct (fle (to_float (get (e_rating entry) (PInt 0))) (Num 5)) eqn:E5;
    [|discriminate].
  apply fle_Num in E1. destruct E1 as (x1 & r & Hx1 & Hrat & Hle1).
  inversion Hx1; subst x1.
  apply fle_Num in E5. destruct E5 as (r' & x5 & Hrat' & Hx5 & Hle5).
  inversion Hx5; subst x5. rewrite Hrat in Hrat'. inversion Hrat'; subst r'.
  unfold cost_error in Hc.
  destruct (py_float lib (get (e_cost entry) (PInt 0))) as [cost|] eqn:Ec;
    [|discriminate].
  destruct (flt cost (Num 0)) eqn:Eneg; [discriminate|].
  unfold substance_error in Hs.
  destruct (e_substance entry) as [s|] eqn:Es; [|discriminate].
  assert (Hrow : exists row, consumption_row lib entry = Some row
                             /\ c_datetime row = t /\ c_type row = s
                             /\ c_rating row = Num r /\ c_cost row = cost).
  { unfold consumption_row. rewrite Ht, Ec.
    rewrite (is_number_py_float lib _ En), Hrat.
    eexists. split; [reflexivity|]. cbn. rewrite Es. cbn. repeat split. }
  destruct Hrow as (row & Hrow & Hrt & Hty & Hrr & Hrc).
  destruct (load_consumption_data_stores lib diary a entry row Hin Hrow)
    as [Hload Hstored].
  eexists. exists row, r. rewrite Hload. cbn [fst set_consumption_data consumption_data].
  split; [reflexivity|]. split; [reflexivity|]. split; [exact Hstored|].
  split; [exact Hrt|]. split; [now rewrite Hty|]. split; [exact Hrr|].
  split; [lra|]. now rewrite Hrc.
Qed.

Lemma rated_entry_valid : validate_entry example_runtime example_library rated_entry = [].
Proof.
  unfold validate_entry, substance_error, date_error, cost_error, rating_error.
  replace (strptime_ymd example_runtime (get (e_date rated_entry) ""))
    with (Some 19723%Z) by (vm_compute; reflexivity).
  cbn [rated_entry e_substance e_cost e_rating get py_float to_float is_number
       negb orb app].
  replace (String.eqb "Alkohol" "" || String.eqb (strip example_runtime "Alkohol") "")
    with false by (vm_compute; reflexivity).
  unfold flt, fle, Rltb, Rleb.
  destruct (Rlt_dec (IZR 0) 0) as [H|H]; [lra|].
  destruct (Rle_dec 1 (IZR 3)) as [H1|H1]; [|lra].
  destruct (Rle_dec (IZR 3) 5) as [H5|H5]; [|lra].
  reflexivity.
Qed.

Lemma validated_entry_is_loaded_witness :
  exists stored row rating,
    load_consumption_data example_library [rated_entry] init
    = (set_consumption_data stored init, Some stored)
    /\ consumption_data (fst (load_consumption_data example_library [rated_entry] init))
       = Some stored
    /\ In row stored
    /\ c_datetime row = (19723 * ns_per_day + 20 * ns_per_hour)%Z
    /\ e_substance rated_entry = Some (c_type row)
    /\ c_rating row = Num rating /\ 1 <= rating <= 5
    /\ flt (c_cost row) (Num 0) = false.
Proof.
  apply (validated_entry_is_loaded example_runtime example_library [rated_entry] init
           rated_entry).
  - now left.
  - exact rated_entry_valid.
  - vm_compute. reflexivity.
Defined.

(* ------------------------------------------------------------------ *)
(** * The anonymous export *)

Lemma substring_length_le (n m : nat) (s : string) :
  (String.length (substring n m s) <= m)%nat.
Proof.
  revert n m. induction s as [|c t IH]; intros n m.
  - destruct n, m; simpl; lia.
  - destruct n as [|n].
    + destruct m as [|m]; simpl; [lia|]. specialize (IH O m). lia.
    + simpl. apply IH.
Qed.

(** X6. The export that is not a full export keeps one record per entry with
    the five keys substance, date, dosage, rating and cost, its date holds at
    most the first seven characters (year and month), and two diaries that
    agree on these fields are exported alike, whatever their times, days of
    the month, moods, settings and experience texts are. *)
Theorem anonymous_export_hides_private_fields (entries : list Entry) :
  List.length (anonymize_export_data entries false) = List.length entries
  /\ Forall (fun record =>
               dict_keys record = ["substance"; "date"; "dosage"; "rating"; "cost"]
               /\ exists month, dict_get "date" record = Some (PStr month)
                                /\ (String.length month <= 7)%nat)
            (anonymize_export_data entries false)
  /\ (forall others,
        Forall2 same_export_fields entries others ->
        anonymize_export_data others false = anonymize_export_data entries false).
Proof.
  unfold anonymize_export_data. split; [apply length_map|]. split.
  - apply Forall_forall. intros record Hin. apply in_map_iff in Hin.
    destruct Hin as (e & <- & _). split; [reflexivity|].
    exists (export_month e). split; [reflexivity|].
    unfold export_month. destruct (e_date e) as [s|]; [|simpl; lia].
    destruct (String.eqb s ""); [simpl; lia|apply substring_length_le].
  - intros others H. induction H as [|e1 e2 l1 l2 Hsame _ IH]; [reflexivity|].
    cbn [map]. rewrite IH. f_equal.
    destruct Hsame as (Hs & Hm & Hd & Hr & Hc).
    unfold anonymized. now rewrite Hs, Hm, Hd, Hr, Hc.
Qed.

(* ------------------------------------------------------------------ *)
(** * The statistics of the diary *)

Lemma recent_entries_lengths (rt : Runtime) (cutoff_7 cutoff_30 : Z) (entries : list Entry) :
  (List.length (fst (recent_entries rt cutoff_7 cutoff_30 entries))
   <= List.length (snd (recent_entries rt cutoff_7 cutoff_30 entries))
   <= List.length entries)%nat.
Proof.
  induction entries as [|e t IH]; [simpl; lia|].
  cbn [recent_entries].
  destruct (recent_entries rt cutoff_7 cutoff_30 t) as [l7 l30]. cbn [fst snd] in IH.
  destruct (e_date e) as [text|]; [|cbn [fst snd List.length]; lia].
  destruct (strptime_ymd rt text) as [d|]; [|cbn [fst snd List.length]; lia].
  destruct (cutoff_30 <=? datetime_of_date d)%Z; [|cbn [fst snd List.length]; lia].
  destruct (cutoff_7 <=? datetime_of_date d)%Z; cbn [fst snd List.length]; lia.
Qed.

(** The count stored for a name; 0 when the name is no key. *)
Lemma assoc_get_set {V} (k k' : string) (v : V) (d : list (string * V)) :
  assoc_get k' (assoc_set k v d) = if String.eqb k' k then Some v else assoc_get k' d.
Proof.
  induction d as [|[k0 v0] t IH]; simpl.
  - reflexivity.
  - destruct (String.eqb_spec k k0) as [->|Hk]; simpl.
    + destruct (String.eqb_spec k' k0); reflexivity.
    + rewrite IH. destruct (String.eqb_spec k' k0) as [->|Hk'].
      * destruct (String.eqb_spec k0 k); [congruence|reflexivity].
      * reflexivity.
Qed.

Lemma count_substances_get (entries : list Entry) :
  forall acc counts name,
    count_substances entries acc = Some counts ->
    match assoc_get name counts with Some n => n | None => O end
    = (match assoc_get name acc with Some n => n | None => O end
       + List.length (filter (has_substance name) entries))%nat.
Proof.
  induction entries as [|e t IH]; intros acc counts name H.
  - simpl in H. inversion H; subst. simpl. lia.
  - cbn [count_substances] in H. unfold has_substance at 1. cbn [filter].
    destruct (e_substance e) as [s|] eqn:Es; [|discriminate].
    rewrite (IH _ _ name H). rewrite assoc_get_set.
    rewrite String.eqb_sym.
    destruct (String.eqb_spec s name) as [->|Hne]; cbn [List.length]; [|unfold has_substance; lia].
    unfold has_substance. lia.
Qed.

Lemma assoc_set_positive (k : string) (v : nat) (d : list (string * nat)) :
  (0 < v)%nat -> Forall (fun x => (0 < snd x)%nat) d ->
  Forall (fun x => (0 < snd x)%nat) (assoc_set k v d).
Proof.
  intros Hv Hd. induction Hd as [|[k0 n0] t Hx Ht IH]; simpl.
  - constructor; [assumption|constructor].
  - destruct (String.eqb k k0); constructor; simpl; assumption.
Qed.

Lemma count_substances_positive (entries : list Entry) :
  forall acc counts,
    count_substances entries acc = Some counts ->
    Forall (fun x => (0 < snd x)%nat) acc ->
    Forall (fun x => (0 < snd x)%nat) counts.
Proof.
  induction entries as [|e t IH]; intros acc counts H Hacc.
  - simpl in H. now inversion H; subst.
  - cbn [count_substances] in H.
    destruct (e_substance e) as [s|]; [|discriminate].
    apply (IH _ _ H). apply assoc_set_positive; [lia|assumption].
Qed.

Lemma assoc_set_sum (k : string) (d : list (string * nat)) :
  list_sum (map snd (assoc_set k
      (match assoc_get k d with Some n => n | None => O end + 1)%nat d))
  = S (list_sum (map snd d)).
Proof.
  induction d as [|[k0 n0] t IH]; simpl; [reflexivity|].
  destruct (String.eqb k k0); simpl; [lia|]. rewrite IH. lia.
Qed.

Lemma count_substances_sum (entries : list Entry) :
  forall acc counts,
    count_substances entries acc = Some counts ->
    list_sum (map snd counts) = (list_sum (map snd acc) + List.length entries)%nat.
Proof.
  induction entries as [|e t IH]; intros acc counts H.
  - simpl in H. inversion H; subst. simpl. lia.
  - cbn [count_substances] in H.
    destruct (e_substance e) as [s|]; [|discriminate].
    rewrite (IH _ _ H), assoc_set_sum. simpl. lia.
Qed.

Lemma count_substances_raises (entries : list Entry) :
  forall acc, count_substances entries acc = None ->
              exists e, In e entries /\ e_substance e = None.
Proof.
  induction entries as [|e t IH]; intros acc H; [discriminate|].
  cbn [count_substances] in H.
  destruct (e_substance e) as [s|] eqn:Es.
  - destruct (IH _ H) as (x & Hx & Hn). exists x. split; [now right|assumption].
  - exists e. split; [now left|assumption].
Qed.

Lemma max_by_count_spec (items : list (string * nat)) :
  forall best,
    In (max_by_count best items) (best :: items)
    /\ (forall x, In x (best :: items) -> (snd x <= snd (max_by_count best items))%nat).
Proof.
  induction items as [|y t IH]; intros best.
  - simpl. split; [now left|]. intros x [<-|[]]. lia.
  - cbn [max_by_count].
    destruct (IH (if (snd best <? snd y)%nat then y else best)) as [Hin Hmax].
    split.
    + destruct Hin as [E|Hin].
      * rewrite <- E. destruct (snd best <? snd y)%nat; [right; now left|now left].
      * right. now right.
    + intros x Hx.
      assert (Hb : (snd best <= snd (if (snd best <? snd y)%nat then y else best)
                    /\ snd y <= snd (if (snd best <? snd y)%nat then y else best))%nat).
      { destruct (snd best <? snd y)%nat eqn:E.
        - apply Nat.ltb_lt in E. lia.
        - apply Nat.ltb_ge in E. lia. }
      pose proof (Hmax _ (or_introl eq_refl)) as H0.
      destruct Hx as [<-|[<-|Hx]]; [lia|lia|].
      apply Hmax. now right.
Qed.


(** X7. The figures of [get_statistics] fit together: there are statistics
    exactly for a diary that is not empty, an entry without substance raises
    [KeyError], the entries of the last 7 days are among those of the last 30
    days, every substance is counted as often as entries name it, the counts
    add up to the number of entries, and the most used substance is one of the
    counted ones with the greatest count. *)
Theorem statistics_fit_together (rt : Runtime) (lib : Library) (now_7 now_30 : Z)
    (entries : list Entry) :
  match get_statistics rt lib now_7 now_30 entries with
  | Returns None => entries = []
  | Returns (Some s) =>
      totalEntries s = List.length entries /\ (0 < totalEntries s)%nat
      /\ (last7Days s <= last30Days s <= totalEntries s)%nat
      /\ (forall name,
            match assoc_get name (substanceCounts s) with
            | Some n =>
                (0 < n)%nat /\ n = List.length (filter (has_substance name) entries)
            | None => filter (has_substance name) entries = []
            end)
      /\ list_sum (map snd (substanceCounts s)) = totalEntries s
      /\ In (mostUsed s) (substanceCounts s)
      /\ (forall x, In x (substanceCounts s) -> (snd x <= snd (mostUsed s))%nat)
  | Raises _ => exists e, In e entries /\ e_substance e = None
  end.
Proof.
  unfold get_statistics.
  destruct entries as [|e0 t] eqn:El; [reflexivity|]. rewrite <- El.
  assert (Hlen : (0 < List.length entries)%nat) by (subst; simpl; lia).
  pose proof (recent_entries_lengths rt (now_7 - 7 * ns_per_day)
                (now_30 - 30 * ns_per_day) entries) as Hrec.
  destruct (recent_entries rt _ _ entries) as [l7 l30]. cbn [fst snd] in Hrec.
  destruct (count_substances entries []) as [counts|] eqn:Ec.
  2:{ now apply count_substances_raises in Ec. }
  cbn [totalEntries last7Days last30Days substanceCounts mostUsed].
  split; [reflexivity|]. split; [assumption|]. split; [assumption|].
  pose proof (count_substances_sum _ _ _ Ec) as Hsum. simpl in Hsum.
  split; [|split; [assumption|]].
  - intros name. pose proof (count_substances_get _ _ _ name Ec) as Hg.
    simpl in Hg.
    pose proof (count_substances_positive _ _ _ Ec (Forall_nil _)) as Hpos.
    destruct (assoc_get name counts) as [n|] eqn:En.
    + split; [|assumption].
      apply assoc_get_In in En. rewrite Forall_forall in Hpos.
      apply (Hpos (name, n) En).
    + apply length_zero_iff_nil. now symmetry.
  - destruct counts as [|x rest]; [simpl in Hsum; lia|].
    unfold most_used. apply max_by_count_spec.
Qed.

(* ------------------------------------------------------------------ *)
(** * The streak of the gamification *)

Lemma ltb_false_trans (a b c : string) :
  String.ltb a b = false -> String.ltb b c = false -> String.ltb a c = false.
Proof.
  unfold String.ltb. intros Hab Hbc.
  destruct (String.compare a c) eqn:Eac; try reflexivity.
  exfalso. apply OrderedTypeEx.String_as_OT.cmp_lt in Eac.
  destruct (String.compare b c) eqn:Ebc; [| discriminate |].
  - apply OrderedTypeEx.String_as_OT.cmp_eq in Ebc. subst c.
    apply OrderedTypeEx.String_as_OT.cmp_lt in Eac.
    unfold OrderedTypeEx.String_as_OT.cmp in Eac. now rewrite Eac in Hab.
  - assert (Hcb : String.compare c b = Lt).
    { rewrite String.compare_antisym, Ebc. reflexivity. }
    apply OrderedTypeEx.String_as_OT.cmp_lt in Hcb.
    pose proof (OrderedTypeEx.String_as_OT.lt_trans _ _ _ Eac Hcb) as Hlt.
    apply OrderedTypeEx.String_as_OT.cmp_lt in Hlt.
    unfold OrderedTypeEx.String_as_OT.cmp in Hlt. now rewrite Hlt in Hab.
Qed.

Lemma ltb_irrefl (a : string) : String.ltb a a = false.
Proof.
  unfold String.ltb.
  assert (H : String.compare a a = Eq)
    by (now apply OrderedTypeEx.String_as_OT.cmp_eq).
  now rewrite H.
Qed.

Lemma ltb_asym (a b : string) : String.ltb a b = true -> String.ltb b a = false.
Proof.
  unfold String.ltb. rewrite (String.compare_antisym a b).
  destruct (String.compare b a); simpl; intros H; try discriminate; reflexivity.
Qed.

(** The first entry of the sorted diary is an entry whose date text no other
    date text exceeds. *)
Lemma sorted_desc_first (entries : list Entry) :
  match sorted_desc entries with
  | [] => entries = []
  | first :: _ =>
      In first entries
      /\ forall x, In x entries ->
                   String.ltb (date_sort_key first) (date_sort_key x) = false
  end.
Proof.
  induction entries as [|e t IH]; [reflexivity|].
  unfold sorted_desc in *. cbn [fold_right].
  destruct (fold_right insert_desc [] t) as [|f r].
  - subst t. simpl. split; [now left|]. intros x [<-|[]]. apply ltb_irrefl.
  - destruct IH as [Hin Hmax]. cbn [insert_desc].
    destruct (String.ltb (date_sort_key e) (date_sort_key f)) eqn:E.
    + split; [now right|]. intros x [<-|Hx]; [now apply ltb_asym|now apply Hmax].
    + split; [now left|]. intros x [<-|Hx]; [apply ltb_irrefl|].
      apply ltb_false_trans with (b := date_sort_key f); [assumption|now apply Hmax].
Qed.

(** X8. [calculate_streak] leaves the object as it is for an empty diary, never
    lowers the best streak and keeps the current streak below the best one
    once it is; when it changes the object, the current streak is the number
    of days from the date of an entry whose date text is the greatest of the
    diary to today (negative for a date in the future), and the best streak is
    the greater one of this number and the best streak before. *)
Theorem streak_counts_from_latest_entry (rt : Runtime) (today : Z)
    (entries : list Entry) (self : GamificationSystem) :
  (entries = [] -> calculate_streak rt today entries self = self)
  /\ (streaks_best self <= streaks_best (calculate_streak rt today entries self))%Z
  /\ ((streaks_current self <= streaks_best self)%Z ->
      (streaks_current (calculate_streak rt today entries self)
       <= streaks_best (calculate_streak rt today entries self))%Z)
  /\ (calculate_streak rt today entries self = self
      \/ exists e text d,
           In e entries
           /\ (forall x, In x entries ->
                         String.ltb (date_sort_key e) (date_sort_key x) = false)
           /\ e_date e = Some text /\ strptime_ymd rt text = Some d
           /\ streaks_current (calculate_streak rt today entries self) = (today - d)%Z
           /\ streaks_best (calculate_streak rt today entries self)
              = Z.max (streaks_best self) (today - d)
           /\ achievements (calculate_streak rt today entries self) = achievements self
           /\ points (calculate_streak rt today entries self) = points self).
Proof.
  unfold calculate_streak. pose proof (sorted_desc_first entries) as Hfirst.
  destruct (sorted_desc entries) as [|first rest].
  - repeat split; auto; lia.
  - destruct Hfirst as [Hin Hmax].
    split; [intros ->; destruct Hin|].
    destruct (e_date first) as [text|] eqn:Et; [|repeat split; auto; lia].
    destruct (strptime_ymd rt text) as [d|] eqn:Ed; [|repeat split; auto; lia].
    cbn [streaks_best streaks_current achievements points].
    destruct (Z.ltb_spec (streaks_best self) (today - d)) as [Hlt|Hge].
    + split; [lia|]. split; [lia|]. right. exists first, text, d.
      repeat split; auto. lia.
    + split; [lia|]. split; [lia|]. right. exists first, text, d.
      repeat split; auto. lia.
Qed.

(* ------------------------------------------------------------------ *)
(** * Achievements and points *)

Lemma in_ids_app (id : string) (l1 l2 : list Achievement) :
  In id (map a_id (l1 ++ l2)) <-> In id (map a_id l1) \/ In id (map a_id l2).
Proof. rewrite map_app. apply in_app_iff. Qed.

Lemma in_ids_when (id : string) (c : bool) (a : Achievement) :
  In id (map a_id (if c then [a] else [])) <-> c = true /\ a_id a = id.
Proof. destruct c; simpl; intuition discriminate. Qed.

(** The identifiers of the achievements that are awarded, each with its
    condition. *)
Lemma earned_ids (rt : Runtime) (entries : list Entry) (goals : list Goal)
    (stats : option Statistics) (self : GamificationSystem) (id : string) :
  In id (map a_id (earned rt entries goals stats self)) <->
  (id = "first_10"
   /\ exists s, stats = Some s /\ (10 <= totalEntries s)%nat)
  \/ (id = "consistent_tracker"
      /\ exists s, stats = Some s /\ (30 <= totalEntries s)%nat)
  \/ (id = "week_clean" /\ (7 <= streaks_current self)%Z)
  \/ (id = "month_clean" /\ (30 <= streaks_current self)%Z)
  \/ (id = "goal_achiever"
      /\ (1 <= List.length (filter (fun g => get (g_completed g) false) goals))%nat)
  \/ (id = "reflective_writer"
      /\ (5 <= List.length (filter (has_experience rt) entries))%nat)
  \/ (id = "cost_conscious"
      /\ exists s, stats = Some s
                   /\ fgt (totalCost s) (Num 0) = true
                   /\ flt (monthly_cost s) (Num 50) = true).
Proof.
  unfold earned. rewrite !in_ids_app, !in_ids_when. unfold unlocked. cbn [a_id].
  rewrite Z.leb_le, Z.leb_le, !Nat.leb_le.
  destruct stats as [s|].
  - rewrite !Nat.leb_le, andb_true_iff.
    split.
    + intros [H|[H|[H|[H|[H|[H|H]]]]]]; destruct H as [H1 H2]; subst id.
      * left. split; [reflexivity|]. now exists s.
      * right; left. split; [reflexivity|]. now exists s.
      * right; right; left. now split.
      * right; right; right; left. now split.
      * right; right; right; right; left. now split.
      * right; right; right; right; right; left. now split.
      * right; right; right; right; right; right. split; [reflexivity|].
        exists s. destruct H1. now repeat split.
    + intros [H|[H|[H|[H|[H|[H|H]]]]]]; destruct H as [-> H2].
      * left. destruct H2 as (s' & E & H). inversion E; subst. now split.
      * right; left. destruct H2 as (s' & E & H). inversion E; subst. now split.
      * right; right; left. now split.
      * right; right; right; left. now split.
      * right; right; right; right; left. now split.
      * right; right; right; right; right; left. now split.
      * right; right; right; right; right; right.
        destruct H2 as (s' & E & H & H'). inversion E; subst. now repeat split.
  - split.
    + intros [H|[H|[H|[H|[H|[H|H]]]]]]; destruct H as [H1 H2]; subst id;
        try discriminate.
      * right; right; left. now split.
      * right; right; right; left. now split.
      * right; right; right; right; left. now split.
      * right; right; right; right; right; left. now split.
    + intros [H|[H|[H|[H|[H|[H|H]]]]]]; destruct H as [-> H2].
      * destruct H2 as (s' & E & _). discriminate.
      * destruct H2 as (s' & E & _). discriminate.
      * right; right; left. now split.
      * right; right; right; left. now split.
      * right; right; right; right; left. now split.
      * right; right; right; right; right; left. now split.
      * destruct H2 as (s' & E & _). discriminate.
Qed.

Lemma earned_ids_NoDup (rt : Runtime) (entries : list Entry) (goals : list Goal)
    (stats : option Statistics) (self : GamificationSystem) :
  NoDup (map a_id (earned rt entries goals stats self))
  /\ (List.length (earned rt entries goals stats self) <= 7)%nat
  /\ Forall (fun a => a_unlocked a = true) (earned rt entries goals stats self).
Proof.
  unfold earned.
  repeat match goal with
         | |- context [if ?c then [_] else []] => destruct c
         end;
    (split; [|split];
     [ cbn; repeat constructor; cbn; intuition discriminate
     | cbn; lia
     | cbn; repeat constructor ]).
Qed.

(** X9. The achievements that [check_achievements] awards are graded: each
    identifier is awarded at most once and at most seven are, the 30-day
    streak comes with the 7-day streak and the 30 entries with the 10 entries,
    and without statistics neither the entry milestones nor the cost award are
    given; the list is what the object stores afterwards. *)
Theorem achievements_are_graded (rt : Runtime) (entries : list Entry)
    (goals : list Goal) (stats : option Statistics) (self : GamificationSystem) :
  NoDup (map a_id (snd (check_achievements rt entries goals stats self)))
  /\ (List.length (snd (check_achievements rt entries goals stats self)) <= 7)%nat
  /\ Forall (fun a => a_unlocked a = true)
            (snd (check_achievements rt entries goals stats self))
  /\ achievements (fst (check_achievements rt entries goals stats self))
     = snd (check_achievements rt entries goals stats self)
  /\ (In "month_clean" (map a_id (snd (check_achievements rt entries goals stats self)))
      -> In "week_clean" (map a_id (snd (check_achievements rt entries goals stats self))))
  /\ (In "consistent_tracker"
         (map a_id (snd (check_achievements rt entries goals stats self)))
      -> In "first_10" (map a_id (snd (check_achievements rt entries goals stats self))))
  /\ (stats = None ->
      forall id, In id ["first_10"; "consistent_tracker"; "cost_conscious"] ->
                 ~ In id (map a_id (snd (check_achievements rt entries goals stats self)))).
Proof.
  unfold check_achievements. cbn [fst snd achievements].
  destruct (earned_ids_NoDup rt entries goals stats self) as (Hnd & Hlen & Hall).
  split; [exact Hnd|]. split; [exact Hlen|]. split; [exact Hall|].
  split; [reflexivity|].
  split; [|split].
  - rewrite !earned_ids.
    intros [H|[H|[H|[H|[H|[H|H]]]]]]; destruct H as [E H]; try discriminate E.
    right; right; left. split; [reflexivity|lia].
  - rewrite !earned_ids.
    intros [H|[H|[H|[H|[H|[H|H]]]]]]; destruct H as [E H]; try discriminate E.
    left. split; [reflexivity|]. destruct H as (s & Es & Hs). exists s. split; [assumption|lia].
  - intros -> id Hid. rewrite earned_ids.
    intros [H|[H|[H|[H|[H|[H|H]]]]]]; destruct H as [E H]; subst id;
      try (destruct H as (s & Es & _); discriminate Es);
      simpl in Hid; intuition discriminate.
Qed.


(* ------------------------------------------------------------------ *)
(** * The analysis of the KI-Therapeut page *)

Lemma load_health_keeps_consumption (lib : Library) (health : list HealthSample)
    (a : Analyzer) :
  consumption_data (load_health_data lib health a) = consumption_data a.
Proof.
  unfold load_health_data. destruct health as [|h t]; [reflexivity|].
  destruct (heart_rows lib (h :: t)); destruct (sleep_rows lib (h :: t)); reflexivity.
Qed.

Lemma load_consumption_keeps_health (lib : Library) (diary : list Entry) (a : Analyzer) :
  sleep_data (fst (load_consumption_data lib diary a)) = sleep_data a
  /\ heart_rate_data (fst (load_consumption_data lib diary a)) = heart_rate_data a.
Proof.
  unfold load_consumption_data. destruct diary as [|e t]; [now split|].
  destruct (filter_map (consumption_row lib) (e :: t)); now split.
Qed.

(** X11. [perform_ki_therapeut_analysis] never returns [True] and never stores
    a report or correlation results in the session: without data it gives
    [False] at once, and once [combine_data] has stored a table the report
    raises on the truth value of that table, which the [except] clause turns
    into [False].  The analyzer of the session keeps what was loaded before:
    with an empty diary its consumption data stay as they were, and without
    health samples its sleep and pulse data do. *)
Theorem therapist_analysis_never_succeeds (lib : Library) (st : Session) :
  snd (perform_ki_therapeut_analysis lib st) = false
  /\ ki_analysis_results (fst (perform_ki_therapeut_analysis lib st))
     = ki_analysis_results st
  /\ correlation_analysis_results (fst (perform_ki_therapeut_analysis lib st))
     = correlation_analysis_results st
  /\ (entries st = [] ->
      consumption_data (ki_therapeut_analyzer (fst (perform_ki_therapeut_analysis lib st)))
      = consumption_data (ki_therapeut_analyzer st))
  /\ (health_data st = [] ->
      sleep_data (ki_therapeut_analyzer (fst (perform_ki_therapeut_analysis lib st)))
      = sleep_data (ki_therapeut_analyzer st)
      /\ heart_rate_data (ki_therapeut_analyzer (fst (perform_ki_therapeut_analysis lib st)))
         = heart_rate_data (ki_therapeut_analyzer st)).
Proof.
  unfold perform_ki_therapeut_analysis.
  set (a1 := match health_data st with
             | [] => ki_therapeut_analyzer st
             | _ => load_health_data lib (health_data st) (ki_therapeut_analyzer st)
             end).
  set (a2 := match entries st with
             | [] => a1
             | _ => fst (load_consumption_data lib (entries st) a1)
             end).
  assert (Hcons : entries st = [] ->
                  consumption_data a2 = consumption_data (ki_therapeut_analyzer st)).
  { intros E. unfold a2, a1. rewrite E.
    destruct (health_data st); [reflexivity|apply load_health_keeps_consumption]. }
  assert (Hhealth : health_data st = [] ->
                    sleep_data a2 = sleep_data (ki_therapeut_analyzer st)
                    /\ heart_rate_data a2 = heart_rate_data (ki_therapeut_analyzer st)).
  { intros E. unfold a2, a1. rewrite E.
    destruct (entries st); [now split|apply load_consumption_keeps_health]. }
  destruct (combine_data_frame a2) as (Cs & Ch & Cc & _ & _).
  destruct (correlation_frame lib (fst (combine_data a2))) as (Ps & Ph & Pc & _ & _).
  pose proof (report_after_combine lib a2) as Hrep.
  assert (Hgoal :
    forall result : Session * bool,
      result =
      (let (a3, combined) := combine_data a2 in
       match combined with
       | None => (with_analyzer a3 st, false)
       | Some df =>
           match rows df with
           | [] => (with_analyzer a3 st, false)
           | _ =>
               let (a4, correlation) := perform_correlation_analysis lib a3 in
               match generate_comprehensive_report lib a4 with
               | Raises _ => (with_analyzer a4 st, false)
               | Returns report =>
                   ({| health_data := health_data st; entries := entries st;
                       ki_therapeut_analyzer := a4;
                       ki_analysis_results := Some report;
                       correlation_analysis_results := Some correlation |}, true)
               end
           end
       end) ->
      snd result = false
      /\ ki_analysis_results (fst result) = ki_analysis_results st
      /\ correlation_analysis_results (fst result) = correlation_analysis_results st
      /\ consumption_data (ki_therapeut_analyzer (fst result)) = consumption_data a2
      /\ sleep_data (ki_therapeut_analyzer (fst result)) = sleep_data a2
      /\ heart_rate_data (ki_therapeut_analyzer (fst result)) = heart_rate_data a2).
  { intros result ->.
    destruct (combine_data a2) as [a3 combined] eqn:Ec. cbn [fst snd] in *.
    destruct combined as [df|]; [|now repeat split].
    destruct (rows df); [now repeat split|].
    specialize (Hrep df eq_refl).
    destruct (perform_correlation_analysis lib a3) as [a4 correlation] eqn:Ep.
    cbn [fst] in *. rewrite Hrep. cbn.
    repeat split; congruence. }
  destruct (health_data st) as [|h ht] eqn:Eh; destruct (entries st) as [|e et] eqn:Ee.
  - cbn. repeat split; reflexivity.
  - destruct (Hgoal _ eq_refl) as (G1 & G2 & G3 & G4 & G5 & G6).
    split; [exact G1|]. split; [exact G2|]. split; [exact G3|].
    split; [discriminate|]. intros _. destruct (Hhealth eq_refl). split; congruence.
  - destruct (Hgoal _ eq_refl) as (G1 & G2 & G3 & G4 & G5 & G6).
    split; [exact G1|]. split; [exact G2|]. split; [exact G3|].
    split; [|discriminate]. intros _. rewrite G4. now apply Hcons.
  - destruct (Hgoal _ eq_refl) as (G1 & G2 & G3 & G4 & G5 & G6).
    split; [exact G1|]. split; [exact G2|]. split; [exact G3|].
    split; discriminate.
Qed.

(* ------------------------------------------------------------------ *)
(** * The import of health samples *)

Lemma filter_none {A} (p : A -> bool) (l : list A) :
  (forall x, In x l -> p x = false) -> filter p l = [].
Proof.
  induction l as [|x t IH]; intros H; [reflexivity|].
  simpl. rewrite (H x (or_introl eq_refl)). apply IH. intros y Hy. apply H. now right.
Qed.

(** X12. The import that adds new samples only keeps the samples held before
    in front and adds, in their order, the samples of the batch whose key of
    date, time, type and value no held sample has; a second import of the same
    batch adds nothing.  A batch without a held key is added whole, so a sample
    that the batch repeats is stored as often as it is repeated. *)
Theorem import_of_new_samples (rt : Runtime) (batch held : list HealthSample) :
  (exists added,
      handle_health_import rt batch "Nur neue Daten hinzufügen" held = held ++ added
      /\ incl added batch
      /\ forall h, In h batch ->
                   (In h added <-> ~ In (sample_key rt h) (map (sample_key rt) held)))
  /\ handle_health_import rt batch "Nur neue Daten hinzufügen"
       (handle_health_import rt batch "Nur neue Daten hinzufügen" held)
     = handle_health_import rt batch "Nur neue Daten hinzufügen" held
  /\ ((forall h, In h batch -> ~ In (sample_key rt h) (map (sample_key rt) held)) ->
      handle_health_import rt batch "Nur neue Daten hinzufügen" held = held ++ batch).
Proof.
  assert (Hopt : forall data,
            handle_health_import rt batch "Nur neue Daten hinzufügen" data
            = data ++ filter (fun h => negb (mem_str (sample_key rt h)
                                                     (map (sample_key rt) data))) batch).
  { intros data. unfold handle_health_import.
    replace (String.eqb "Nur neue Daten hinzufügen" "Bestehende Daten ersetzen")
      with false by (vm_compute; reflexivity).
    now rewrite String.eqb_refl. }
  assert (Hnew : forall data h,
            negb (mem_str (sample_key rt h) (map (sample_key rt) data)) = true
            <-> ~ In (sample_key rt h) (map (sample_key rt) data)).
  { intros data h. rewrite negb_true_iff, <- not_true_iff_false, mem_str_In. tauto. }
  split; [|split].
  - eexists. split; [apply Hopt|]. split.
    + intros h Hh. apply filter_In in Hh. tauto.
    + intros h Hh. rewrite filter_In, Hnew. tauto.
  - rewrite (Hopt (handle_health_import rt batch _ held)).
    rewrite filter_none; [apply app_nil_r|].
    intros h Hh. apply negb_false_iff, mem_str_In.
    rewrite Hopt, map_app, in_app_iff.
    destruct (mem_str (sample_key rt h) (map (sample_key rt) held)) eqn:E.
    + left. now apply mem_str_In.
    + right. apply in_map, filter_In. split; [assumption|]. now rewrite E.
  - intros Hall. rewrite Hopt. f_equal.
    apply filter_all. intros h Hh. apply Hnew. now apply Hall.
Qed.
(* ------------------------------------------------------------------ *)
(** * Imported values in the analyzer *)

Lemma contains_schritt_hr (s : string) :
  contains "schritt" s = true -> contains "hr" s = true.
Proof.
  induction s as [|c t IH]; [discriminate|].
  intros H. cbn [contains] in H. apply orb_true_iff in H. destruct H as [H|H].
  - clear IH. cbn [String.prefix] in H.
    destruct (Ascii.ascii_dec "s" c) as [<-|]; [|discriminate].
    destruct t as [|c1 t]; [discriminate|]. cbn [String.prefix] in H.
    destruct (Ascii.ascii_dec "c" c1) as [<-|]; [|discriminate].
    destruct t as [|c2 t]; [discriminate|]. cbn [String.prefix] in H.
    destruct (Ascii.ascii_dec "h" c2) as [<-|]; [|discriminate].
    destruct t as [|c3 t]; [discriminate|]. cbn [String.prefix] in H.
    destruct (Ascii.ascii_dec "r" c3) as [<-|]; [|discriminate].
    cbn. destruct t; reflexivity.
  - cbn [contains]. rewrite (IH H). apply orb_true_r.
Qed.

Ltac pick_case :=
  first [ reflexivity | split; pick_case | left; pick_case | right; pick_case ].

(** X13. How a value that [parse_health_csv] imported from the column
    [field_name] is taken up by [load_health_data]: a sleep row carries the
    sleep type that belongs to the imported type, a pulse row stems from the
    type Herzfrequenz or Schritte, values of the type Wachzeit are always
    skipped, and values of the type Schritte are loaded as pulse values.  A
    column whose name holds "schritt" is typed Herzfrequenz, as "hr" is part
    of it. *)
Theorem imported_types_in_the_analyzer (lib : Library) (field_name : string)
    (value : pyfloat) (date_str time_str source : string) :
  match health_row lib (imported_sample field_name value date_str time_str source) with
  | IsSleep r =>
      s_value_minutes r = value
      /\ ((csv_data_type field_name = "Schlaf" /\ s_sleep_type r = "total")
          \/ (csv_data_type field_name = "Tiefschlaf" /\ s_sleep_type r = "deep")
          \/ (csv_data_type field_name = "Leichtschlaf" /\ s_sleep_type r = "light")
          \/ (csv_data_type field_name = "REM-Schlaf" /\ s_sleep_type r = "rem")
          \/ csv_data_type field_name = field_name)
  | IsHeart r =>
      r_heart_rate r = value
      /\ (csv_data_type field_name = "Herzfrequenz"
          \/ csv_data_type field_name = "Schritte"
          \/ csv_data_type field_name = field_name)
  | Skipped =>
      _parse_timestamp lib date_str time_str = None
      \/ csv_data_type field_name = "Wachzeit"
      \/ csv_data_type field_name = field_name
  end
  /\ (csv_data_type field_name = "Wachzeit" ->
      health_row lib (imported_sample field_name value date_str time_str source) = Skipped)
  /\ (csv_data_type field_name = "Schritte" ->
      forall t, _parse_timestamp lib date_str time_str = Some t ->
                exists r, health_row lib (imported_sample field_name value date_str
                                                          time_str source) = IsHeart r
                          /\ r_datetime r = t /\ r_heart_rate r = value)
  /\ (contains "schritt" (lower field_name) = true ->
      csv_data_type field_name = "Herzfrequenz").
Proof.
  assert (Hrow : forall T,
            csv_data_type field_name = T ->
            health_row lib (imported_sample field_name value date_str time_str source)
            = match _parse_timestamp lib date_str time_str with
              | None => Skipped
              | Some datetime_obj =>
                  if any_in sleep_words (lower T) then
                    IsSleep {| s_datetime := datetime_obj; s_date := date_str;
                               s_time := time_str;
                               s_sleep_type := classify_sleep_type (lower T);
                               s_value_minutes := value; s_source := source |}
                  else if any_in heart_words (lower T) then
                    IsHeart {| r_datetime := datetime_obj; r_date := date_str;
                               r_time := time_str; r_heart_rate := value;
                               r_context := ""; r_source := source |}
                  else Skipped
              end).
  { intros T <-. unfold health_row, imported_sample.
    cbn [h_Type h_value h_date h_time h_source h_notes get py_float].
    reflexivity. }
  split; [|split; [|split]].
  - assert (Hcases : In (csv_data_type field_name)
                        ["Herzfrequenz"; "Schlaf"; "Tiefschlaf"; "Leichtschlaf";
                         "REM-Schlaf"; "Wachzeit"; "Schritte"; field_name]).
    { unfold csv_data_type.
      repeat match goal with
             | |- context [if ?c then _ else _] => destruct c
             end; simpl; auto 10. }
    rewrite (Hrow _ eq_refl).
    destruct (_parse_timestamp lib date_str time_str) as [t|]; [|now left].
    remember (csv_data_type field_name) as T eqn:ET. clear ET Hrow.
    cbn [In] in Hcases.
    destruct Hcases as [<-|[<-|[<-|[<-|[<-|[<-|[<-|[<-|[]]]]]]]]];
      try (vm_compute; pick_case).
    destruct (any_in sleep_words (lower field_name)).
    + split; [reflexivity|]. now repeat right.
    + destruct (any_in heart_words (lower field_name)).
      * split; [reflexivity|]. now repeat right.
      * now repeat right.
  - intros E. rewrite (Hrow _ E).
    destruct (_parse_timestamp lib date_str time_str); [|reflexivity].
    vm_compute. reflexivity.
  - intros E t Ht. rewrite (Hrow _ E), Ht.
    replace (any_in sleep_words (lower "Schritte")) with false by (vm_compute; reflexivity).
    replace (any_in heart_words (lower "Schritte")) with true by (vm_compute; reflexivity).
    eexists. split; [reflexivity|]. now split.
  - intros H. apply contains_schritt_hr in H.
    unfold csv_data_type.
    replace (any_in ["heart"; "herz"; "hr"; "pulse"; "puls"] (lower field_name)) with true;
      [reflexivity|].
    symmetry. unfold any_in. cbn [existsb]. rewrite H.
    now rewrite !orb_true_r.
Qed.
